(** * LearnEnglish bot: quiz engine, word store and dictionary lookup

    A shallow embedding of [translator.py], [database.py] and
    [learning_test.py] and the properties of the quiz logic proved on it.

    Python [str] values are sequences of Unicode code points; the tables
    of the relational store are finite maps (tables with a primary key)
    or lists (tables read back in insertion order); the conversation
    state bag and the store are threaded through a small state monad. *)

From Stdlib Require Import ZArith NArith List Lia Bool.
From Stdlib Require Import Strings.String Strings.Ascii.
From Stdlib Require Import Floats.SpecFloat.
From stdpp Require Import base option list gmap.

Local Open Scope N_scope.

(* ===================================================================== *)
(** * Python strings *)
(* ===================================================================== *)

(** A character is a Unicode code point, a [str] a sequence of them. *)
Definition char := N.
Definition str := list N.

Module PyStr.

(** Source literals are written as UTF-8 byte strings and decoded to
    code points, so that the tables below read as in the Python source. *)
Definition cont (a : ascii) : N := N_of_ascii a mod 64.

Fixpoint utf8 (s : string) : str :=
  match s with
  | EmptyString => []
  | String a r =>
      let b := N_of_ascii a in
      if b <? 128 then b :: utf8 r
      else if b <? 224 then
        match r with
        | String a1 r1 => ((b mod 32) * 64 + cont a1) :: utf8 r1
        | _ => []
        end
      else if b <? 240 then
        match r with
        | String a1 (String a2 r2) =>
            ((b mod 16) * 4096 + cont a1 * 64 + cont a2) :: utf8 r2
        | _ => []
        end
      else
        match r with
        | String a1 (String a2 (String a3 r3)) =>
            ((b mod 8) * 262144 + cont a1 * 4096 + cont a2 * 64 + cont a3)
              :: utf8 r3
        | _ => []
        end
  end.

(** [str.isspace] on one character: the code points Python's [strip()]
    removes. *)
Definition isspace (c : char) : bool :=
  ((9 <=? c) && (c <=? 13)) || ((28 <=? c) && (c <=? 32))
  || (c =? 133) || (c =? 160) || (c =? 5760)
  || ((8192 <=? c) && (c <=? 8202))
  || (c =? 8232) || (c =? 8233) || (c =? 8239) || (c =? 8287)
  || (c =? 12288).

(** ** [str.lower]

    CPython lowers a string code point by code point with the tables of
    the Unicode Character Database (version 14.0 in CPython 3.11). Two
    code points are special: U+0130 is the only one whose lowering is
    longer than one code point, and the lowering of the capital sigma
    U+03A3 depends on the characters around it. *)

(** The simple lowercase mappings: [(first, last, step, target)] maps
    [first], [first + step], ..., up to [last] to [target],
    [target + step], ... *)
Definition lowercase_ranges : list (N * N * N * N) :=
  [
    (65, 90, 1, 97); (192, 214, 1, 224); (216, 222, 1, 248); (256, 302, 2, 257);
    (306, 310, 2, 307); (313, 327, 2, 314); (330, 374, 2, 331); (376, 376, 1, 255);
    (377, 381, 2, 378); (385, 385, 1, 595); (386, 388, 2, 387); (390, 390, 1, 596);
    (391, 391, 1, 392); (393, 394, 1, 598); (395, 395, 1, 396); (398, 398, 1, 477);
    (399, 399, 1, 601); (400, 400, 1, 603); (401, 401, 1, 402); (403, 403, 1, 608);
    (404, 404, 1, 611); (406, 406, 1, 617); (407, 407, 1, 616); (408, 408, 1, 409);
    (412, 412, 1, 623); (413, 413, 1, 626); (415, 415, 1, 629); (416, 420, 2, 417);
    (422, 422, 1, 640); (423, 423, 1, 424); (425, 425, 1, 643); (428, 428, 1, 429);
    (430, 430, 1, 648); (431, 431, 1, 432); (433, 434, 1, 650); (435, 437, 2, 436);
    (439, 439, 1, 658); (440, 440, 1, 441); (444, 444, 1, 445); (452, 452, 1, 454);
    (453, 453, 1, 454); (455, 455, 1, 457); (456, 456, 1, 457); (458, 458, 1, 460);
    (459, 475, 2, 460); (478, 494, 2, 479); (497, 497, 1, 499); (498, 500, 2, 499);
    (502, 502, 1, 405); (503, 503, 1, 447); (504, 542, 2, 505); (544, 544, 1, 414);
    (546, 562, 2, 547); (570, 570, 1, 11365); (571, 571, 1, 572); (573, 573, 1, 410);
    (574, 574, 1, 11366); (577, 577, 1, 578); (579, 579, 1, 384); (580, 580, 1, 649);
    (581, 581, 1, 652); (582, 590, 2, 583); (880, 882, 2, 881); (886, 886, 1, 887);
    (895, 895, 1, 1011); (902, 902, 1, 940); (904, 906, 1, 941); (908, 908, 1, 972);
    (910, 911, 1, 973); (913, 929, 1, 945); (932, 939, 1, 964); (975, 975, 1, 983);
    (984, 1006, 2, 985); (1012, 1012, 1, 952); (1015, 1015, 1, 1016); (1017, 1017, 1, 1010);
    (1018, 1018, 1, 1019); (1021, 1023, 1, 891); (1024, 1039, 1, 1104); (1040, 1071, 1, 1072);
    (1120, 1152, 2, 1121); (1162, 1214, 2, 1163); (1216, 1216, 1, 1231); (1217, 1229, 2, 1218);
    (1232, 1326, 2, 1233); (1329, 1366, 1, 1377); (4256, 4293, 1, 11520); (4295, 4295, 1, 11559);
    (4301, 4301, 1, 11565); (5024, 5103, 1, 43888); (5104, 5109, 1, 5112); (7312, 7354, 1, 4304);
    (7357, 7359, 1, 4349); (7680, 7828, 2, 7681); (7838, 7838, 1, 223); (7840, 7934, 2, 7841);
    (7944, 7951, 1, 7936); (7960, 7965, 1, 7952); (7976, 7983, 1, 7968); (7992, 7999, 1, 7984);
    (8008, 8013, 1, 8000); (8025, 8031, 2, 8017); (8040, 8047, 1, 8032); (8072, 8079, 1, 8064);
    (8088, 8095, 1, 8080); (8104, 8111, 1, 8096); (8120, 8121, 1, 8112); (8122, 8123, 1, 8048);
    (8124, 8124, 1, 8115); (8136, 8139, 1, 8050); (8140, 8140, 1, 8131); (8152, 8153, 1, 8144);
    (8154, 8155, 1, 8054); (8168, 8169, 1, 8160); (8170, 8171, 1, 8058); (8172, 8172, 1, 8165);
    (8184, 8185, 1, 8056); (8186, 8187, 1, 8060); (8188, 8188, 1, 8179); (8486, 8486, 1, 969);
    (8490, 8490, 1, 107); (8491, 8491, 1, 229); (8498, 8498, 1, 8526); (8544, 8559, 1, 8560);
    (8579, 8579, 1, 8580); (9398, 9423, 1, 9424); (11264, 11311, 1, 11312); (11360, 11360, 1, 11361);
    (11362, 11362, 1, 619); (11363, 11363, 1, 7549); (11364, 11364, 1, 637); (11367, 11371, 2, 11368);
    (11373, 11373, 1, 593); (11374, 11374, 1, 625); (11375, 11375, 1, 592); (11376, 11376, 1, 594);
    (11378, 11378, 1, 11379); (11381, 11381, 1, 11382); (11390, 11391, 1, 575); (11392, 11490, 2, 11393);
    (11499, 11501, 2, 11500); (11506, 11506, 1, 11507); (42560, 42604, 2, 42561); (42624, 42650, 2, 42625);
    (42786, 42798, 2, 42787); (42802, 42862, 2, 42803); (42873, 42875, 2, 42874); (42877, 42877, 1, 7545);
    (42878, 42886, 2, 42879); (42891, 42891, 1, 42892); (42893, 42893, 1, 613); (42896, 42898, 2, 42897);
    (42902, 42920, 2, 42903); (42922, 42922, 1, 614); (42923, 42923, 1, 604); (42924, 42924, 1, 609);
    (42925, 42925, 1, 620); (42926, 42926, 1, 618); (42928, 42928, 1, 670); (42929, 42929, 1, 647);
    (42930, 42930, 1, 669); (42931, 42931, 1, 43859); (42932, 42946, 2, 42933); (42948, 42948, 1, 42900);
    (42949, 42949, 1, 642); (42950, 42950, 1, 7566); (42951, 42953, 2, 42952); (42960, 42960, 1, 42961);
    (42966, 42968, 2, 42967); (42997, 42997, 1, 42998); (65313, 65338, 1, 65345); (66560, 66599, 1, 66600);
    (66736, 66771, 1, 66776); (66928, 66938, 1, 66967); (66940, 66954, 1, 66979); (66956, 66962, 1, 66995);
    (66964, 66965, 1, 67003); (68736, 68786, 1, 68800); (71840, 71871, 1, 71872); (93760, 93791, 1, 93792);
    (125184, 125217, 1, 125218)
  ].

(** The code points with the property Cased: [(first, last)]. *)
Definition cased_ranges : list (N * N) :=
  [
    (65, 90); (97, 122); (170, 170); (181, 181); (186, 186); (192, 214);
    (216, 246); (248, 442); (444, 447); (452, 659); (661, 696); (704, 705);
    (736, 740); (837, 837); (880, 883); (886, 887); (890, 893); (895, 895);
    (902, 902); (904, 906); (908, 908); (910, 929); (931, 1013); (1015, 1153);
    (1162, 1327); (1329, 1366); (1376, 1416); (4256, 4293); (4295, 4295); (4301, 4301);
    (4304, 4346); (4349, 4351); (5024, 5109); (5112, 5117); (7296, 7304); (7312, 7354);
    (7357, 7359); (7424, 7615); (7680, 7957); (7960, 7965); (7968, 8005); (8008, 8013);
    (8016, 8023); (8025, 8025); (8027, 8027); (8029, 8029); (8031, 8061); (8064, 8116);
    (8118, 8124); (8126, 8126); (8130, 8132); (8134, 8140); (8144, 8147); (8150, 8155);
    (8160, 8172); (8178, 8180); (8182, 8188); (8305, 8305); (8319, 8319); (8336, 8348);
    (8450, 8450); (8455, 8455); (8458, 8467); (8469, 8469); (8473, 8477); (8484, 8484);
    (8486, 8486); (8488, 8488); (8490, 8493); (8495, 8500); (8505, 8505); (8508, 8511);
    (8517, 8521); (8526, 8526); (8544, 8575); (8579, 8580); (9398, 9449); (11264, 11492);
    (11499, 11502); (11506, 11507); (11520, 11557); (11559, 11559); (11565, 11565); (42560, 42605);
    (42624, 42653); (42786, 42887); (42891, 42894); (42896, 42954); (42960, 42961); (42963, 42963);
    (42965, 42969); (42997, 42998); (43000, 43002); (43824, 43866); (43868, 43880); (43888, 43967);
    (64256, 64262); (64275, 64279); (65313, 65338); (65345, 65370); (66560, 66639); (66736, 66771);
    (66776, 66811); (66928, 66938); (66940, 66954); (66956, 66962); (66964, 66965); (66967, 66977);
    (66979, 66993); (66995, 67001); (67003, 67004); (67456, 67456); (67459, 67461); (67463, 67504);
    (67506, 67514); (68736, 68786); (68800, 68850); (71840, 71903); (93760, 93823); (119808, 119892);
    (119894, 119964); (119966, 119967); (119970, 119970); (119973, 119974); (119977, 119980); (119982, 119993);
    (119995, 119995); (119997, 120003); (120005, 120069); (120071, 120074); (120077, 120084); (120086, 120092);
    (120094, 120121); (120123, 120126); (120128, 120132); (120134, 120134); (120138, 120144); (120146, 120485);
    (120488, 120512); (120514, 120538); (120540, 120570); (120572, 120596); (120598, 120628); (120630, 120654);
    (120656, 120686); (120688, 120712); (120714, 120744); (120746, 120770); (120772, 120779); (122624, 122633);
    (122635, 122654); (125184, 125251); (127280, 127305); (127312, 127337); (127344, 127369)
  ].

(** The code points with the property Case_Ignorable. *)
Definition case_ignorable_ranges : list (N * N) :=
  [
    (39, 39); (46, 46); (58, 58); (94, 94); (96, 96); (168, 168);
    (173, 173); (175, 175); (180, 180); (183, 184); (688, 879); (884, 885);
    (890, 890); (900, 901); (903, 903); (1155, 1161); (1369, 1369); (1375, 1375);
    (1425, 1469); (1471, 1471); (1473, 1474); (1476, 1477); (1479, 1479); (1524, 1524);
    (1536, 1541); (1552, 1562); (1564, 1564); (1600, 1600); (1611, 1631); (1648, 1648);
    (1750, 1757); (1759, 1768); (1770, 1773); (1807, 1807); (1809, 1809); (1840, 1866);
    (1958, 1968); (2027, 2037); (2042, 2042); (2045, 2045); (2070, 2093); (2137, 2139);
    (2184, 2184); (2192, 2193); (2200, 2207); (2249, 2306); (2362, 2362); (2364, 2364);
    (2369, 2376); (2381, 2381); (2385, 2391); (2402, 2403); (2417, 2417); (2433, 2433);
    (2492, 2492); (2497, 2500); (2509, 2509); (2530, 2531); (2558, 2558); (2561, 2562);
    (2620, 2620); (2625, 2626); (2631, 2632); (2635, 2637); (2641, 2641); (2672, 2673);
    (2677, 2677); (2689, 2690); (2748, 2748); (2753, 2757); (2759, 2760); (2765, 2765);
    (2786, 2787); (2810, 2815); (2817, 2817); (2876, 2876); (2879, 2879); (2881, 2884);
    (2893, 2893); (2901, 2902); (2914, 2915); (2946, 2946); (3008, 3008); (3021, 3021);
    (3072, 3072); (3076, 3076); (3132, 3132); (3134, 3136); (3142, 3144); (3146, 3149);
    (3157, 3158); (3170, 3171); (3201, 3201); (3260, 3260); (3263, 3263); (3270, 3270);
    (3276, 3277); (3298, 3299); (3328, 3329); (3387, 3388); (3393, 3396); (3405, 3405);
    (3426, 3427); (3457, 3457); (3530, 3530); (3538, 3540); (3542, 3542); (3633, 3633);
    (3636, 3642); (3654, 3662); (3761, 3761); (3764, 3772); (3782, 3782); (3784, 3789);
    (3864, 3865); (3893, 3893); (3895, 3895); (3897, 3897); (3953, 3966); (3968, 3972);
    (3974, 3975); (3981, 3991); (3993, 4028); (4038, 4038); (4141, 4144); (4146, 4151);
    (4153, 4154); (4157, 4158); (4184, 4185); (4190, 4192); (4209, 4212); (4226, 4226);
    (4229, 4230); (4237, 4237); (4253, 4253); (4348, 4348); (4957, 4959); (5906, 5908);
    (5938, 5939); (5970, 5971); (6002, 6003); (6068, 6069); (6071, 6077); (6086, 6086);
    (6089, 6099); (6103, 6103); (6109, 6109); (6155, 6159); (6211, 6211); (6277, 6278);
    (6313, 6313); (6432, 6434); (6439, 6440); (6450, 6450); (6457, 6459); (6679, 6680);
    (6683, 6683); (6742, 6742); (6744, 6750); (6752, 6752); (6754, 6754); (6757, 6764);
    (6771, 6780); (6783, 6783); (6823, 6823); (6832, 6862); (6912, 6915); (6964, 6964);
    (6966, 6970); (6972, 6972); (6978, 6978); (7019, 7027); (7040, 7041); (7074, 7077);
    (7080, 7081); (7083, 7085); (7142, 7142); (7144, 7145); (7149, 7149); (7151, 7153);
    (7212, 7219); (7222, 7223); (7288, 7293); (7376, 7378); (7380, 7392); (7394, 7400);
    (7405, 7405); (7412, 7412); (7416, 7417); (7468, 7530); (7544, 7544); (7579, 7679);
    (8125, 8125); (8127, 8129); (8141, 8143); (8157, 8159); (8173, 8175); (8189, 8190);
    (8203, 8207); (8216, 8217); (8228, 8228); (8231, 8231); (8234, 8238); (8288, 8292);
    (8294, 8303); (8305, 8305); (8319, 8319); (8336, 8348); (8400, 8432); (11388, 11389);
    (11503, 11505); (11631, 11631); (11647, 11647); (11744, 11775); (11823, 11823); (12293, 12293);
    (12330, 12333); (12337, 12341); (12347, 12347); (12441, 12446); (12540, 12542); (40981, 40981);
    (42232, 42237); (42508, 42508); (42607, 42610); (42612, 42621); (42623, 42623); (42652, 42655);
    (42736, 42737); (42752, 42785); (42864, 42864); (42888, 42890); (42994, 42996); (43000, 43001);
    (43010, 43010); (43014, 43014); (43019, 43019); (43045, 43046); (43052, 43052); (43204, 43205);
    (43232, 43249); (43263, 43263); (43302, 43309); (43335, 43345); (43392, 43394); (43443, 43443);
    (43446, 43449); (43452, 43453); (43471, 43471); (43493, 43494); (43561, 43566); (43569, 43570);
    (43573, 43574); (43587, 43587); (43596, 43596); (43632, 43632); (43644, 43644); (43696, 43696);
    (43698, 43700); (43703, 43704); (43710, 43711); (43713, 43713); (43741, 43741); (43756, 43757);
    (43763, 43764); (43766, 43766); (43867, 43871); (43881, 43883); (44005, 44005); (44008, 44008);
    (44013, 44013); (64286, 64286); (64434, 64450); (65024, 65039); (65043, 65043); (65056, 65071);
    (65106, 65106); (65109, 65109); (65279, 65279); (65287, 65287); (65294, 65294); (65306, 65306);
    (65342, 65342); (65344, 65344); (65392, 65392); (65438, 65439); (65507, 65507); (65529, 65531);
    (66045, 66045); (66272, 66272); (66422, 66426); (67456, 67461); (67463, 67504); (67506, 67514);
    (68097, 68099); (68101, 68102); (68108, 68111); (68152, 68154); (68159, 68159); (68325, 68326);
    (68900, 68903); (69291, 69292); (69446, 69456); (69506, 69509); (69633, 69633); (69688, 69702);
    (69744, 69744); (69747, 69748); (69759, 69761); (69811, 69814); (69817, 69818); (69821, 69821);
    (69826, 69826); (69837, 69837); (69888, 69890); (69927, 69931); (69933, 69940); (70003, 70003);
    (70016, 70017); (70070, 70078); (70089, 70092); (70095, 70095); (70191, 70193); (70196, 70196);
    (70198, 70199); (70206, 70206); (70367, 70367); (70371, 70378); (70400, 70401); (70459, 70460);
    (70464, 70464); (70502, 70508); (70512, 70516); (70712, 70719); (70722, 70724); (70726, 70726);
    (70750, 70750); (70835, 70840); (70842, 70842); (70847, 70848); (70850, 70851); (71090, 71093);
    (71100, 71101); (71103, 71104); (71132, 71133); (71219, 71226); (71229, 71229); (71231, 71232);
    (71339, 71339); (71341, 71341); (71344, 71349); (71351, 71351); (71453, 71455); (71458, 71461);
    (71463, 71467); (71727, 71735); (71737, 71738); (71995, 71996); (71998, 71998); (72003, 72003);
    (72148, 72151); (72154, 72155); (72160, 72160); (72193, 72202); (72243, 72248); (72251, 72254);
    (72263, 72263); (72273, 72278); (72281, 72283); (72330, 72342); (72344, 72345); (72752, 72758);
    (72760, 72765); (72767, 72767); (72850, 72871); (72874, 72880); (72882, 72883); (72885, 72886);
    (73009, 73014); (73018, 73018); (73020, 73021); (73023, 73029); (73031, 73031); (73104, 73105);
    (73109, 73109); (73111, 73111); (73459, 73460); (78896, 78904); (92912, 92916); (92976, 92982);
    (92992, 92995); (94031, 94031); (94095, 94111); (94176, 94177); (94179, 94180); (110576, 110579);
    (110581, 110587); (110589, 110590); (113821, 113822); (113824, 113827); (118528, 118573); (118576, 118598);
    (119143, 119145); (119155, 119170); (119173, 119179); (119210, 119213); (119362, 119364); (121344, 121398);
    (121403, 121452); (121461, 121461); (121476, 121476); (121499, 121503); (121505, 121519); (122880, 122886);
    (122888, 122904); (122907, 122913); (122915, 122916); (122918, 122922); (123184, 123197); (123566, 123566);
    (123628, 123631); (125136, 125142); (125252, 125259); (127995, 127999); (917505, 917505); (917536, 917631);
    (917760, 917999)
  ].

Definition in_range (c : char) (r : N * N) : bool :=
  if r.1 <=? c then c <=? r.2 else false.

Definition cased (c : char) : bool := existsb (in_range c) cased_ranges.

Definition case_ignorable (c : char) : bool :=
  existsb (in_range c) case_ignorable_ranges.

(** [c] is one of the code points a range maps. *)
Definition maps (c : char) (r : N * N * N * N) : bool :=
  let '(first, last, step, _) := r in
  if first <=? c then
    if c <=? last then (c - first) mod step =? 0 else false
  else false.

Definition to_lower (c : char) : char :=
  match find (maps c) lowercase_ranges with
  | Some (first, _, _, target) => target + (c - first)
  | None => c
  end.

(** The full lowercase mapping: U+0130 (capital I with dot above) gives
    [i] and a combining dot above. *)
Definition to_lower_full (c : char) : list char :=
  if c =? 304 then [105; 775] else [to_lower c].

(** The first character of [s] that is not case-ignorable. *)
Fixpoint skip_ignorable (s : str) : option char :=
  match s with
  | [] => None
  | c :: r => if case_ignorable c then skip_ignorable r else Some c
  end.

(** A capital sigma becomes the final sigma U+03C2 when it ends a word:
    going back over case-ignorable characters there is a cased
    character, and going forward over case-ignorable characters there is
    none; otherwise it becomes U+03C3. [before] holds the characters
    before the sigma, the nearest first. *)
Definition handle_capital_sigma (before after : str) : char :=
  let final_sigma :=
    match skip_ignorable before with
    | Some c =>
        if cased c then
          match skip_ignorable after with
          | Some d => negb (cased d)
          | None => true
          end
        else false
    | None => false
    end in
  if final_sigma then 962 else 963.

(** The lowering of the character [c] of a string, [before] and [after]
    being the characters on its two sides. *)
Definition lower_ucs4 (before : str) (c : char) (after : str) : list char :=
  if c =? 931 then [handle_capital_sigma before after]
  else to_lower_full c.

Fixpoint do_lower (before s : str) : str :=
  match s with
  | [] => []
  | c :: r => lower_ucs4 before c r ++ do_lower (c :: before) r
  end.

Definition lower (s : str) : str := do_lower [] s.

Fixpoint lstrip (s : str) : str :=
  match s with
  | [] => []
  | c :: r => if isspace c then lstrip r else s
  end.

Definition rstrip (s : str) : str := rev (lstrip (rev s)).

Definition strip (s : str) : str := rstrip (lstrip s).

(** [s.split(sep)] for a one-character separator: never returns the
    empty list, [''.split(',')] is [['']]. *)
Fixpoint split (sep : char) (s : str) : list str :=
  match s with
  | [] => [[]]
  | c :: r =>
      if c =? sep then [] :: split sep r
      else match split sep r with
           | p :: ps => (c :: p) :: ps
           | [] => [[c]]
           end
  end.

(** Truth value of a string: non-empty. *)
Definition truthy (s : str) : bool :=
  match s with [] => false | _ => true end.

(** ** Vocabulary of the properties of [lower] *)

(** A code point no range of the table maps, other than the two special
    ones, is its own lowering whatever surrounds it. *)
Definition untouched (c : char) : bool :=
  forallb (fun r => negb (maps c r)) lowercase_ranges
  && negb (c =? 304) && negb (c =? 931).

(** A code point outside the image of every range, other than the
    lowerings of the two special code points, is the lowering of itself
    only. *)
Definition in_image (d : char) (r : N * N * N * N) : bool :=
  let '(first, last, _, target) := r in
  (target <=? d) && (d <=? target + (last - first)).

Definition unreached (d : char) : bool :=
  forallb (fun r => negb (in_image d r)) lowercase_ranges
  && negb (d =? 105) && negb (d =? 775) && negb (d =? 962) && negb (d =? 963).

(** The image of a range of the table meets no range of the table, nor
    one of the two special code points: a lowered code point is not
    lowered again. *)
Definition image_untouched (r r' : N * N * N * N) : bool :=
  let '(first, last, step, target) := r in
  let '(first', last', step', _) := r' in
  (target + (last - first) <? first') || (last' <? target)
  || ((step' =? 2) && ((step =? 2) || (first =? last))
      && negb (target mod 2 =? first' mod 2)).

Definition image_avoids (d : char) (r : N * N * N * N) : bool :=
  let '(first, last, _, target) := r in
  (d <? target) || (target + (last - first) <? d).

Definition table_closed : bool :=
  forallb (fun r => forallb (image_untouched r) lowercase_ranges
                    && image_avoids 304 r && image_avoids 931 r)
          lowercase_ranges.

(** A code point is inert when lowering leaves it alone, produces it
    from no other code point, and when it is neither cased nor
    case-ignorable, so that the search around a capital sigma stops at
    it without finding a cased character. White space and the comma are
    inert. *)
Definition inert (c : char) : bool :=
  untouched c && unreached c && negb (case_ignorable c) && negb (cased c).

(** The two searches of [handle_capital_sigma]. *)
Definition cased_before (before : str) : bool :=
  match skip_ignorable before with Some c => cased c | None => false end.

Definition uncased_after (after : str) : bool :=
  match skip_ignorable after with Some d => negb (cased d) | None => true end.

End PyStr.

Abbreviation u := PyStr.utf8.

(* ===================================================================== *)
(** * Answer normalisation (learning_test.py) *)
(* ===================================================================== *)

(** [ALLOWED_TYPOS]: known misspellings and their canonical forms. *)
Definition ALLOWED_TYPOS : gmap str str :=
  list_to_map
    [ (u "прстите", u "простите");
      (u "извните", u "извините");
      (u "сори", u "sorry");
      (u "вада", u "вода");
      (u "ватер", u "water");
      (u "йес", u "yes");
      (u "ноу", u "no");
      (u "хелло", u "hello");
      (u "санкс", u "thanks");
      (u "тхак ю", u "thank you") ].

(** The normalisation of [handle_test_response]:
    [user_answer = user_answer.strip().lower()] followed by
    [user_answer = ALLOWED_TYPOS.get(user_answer, user_answer)]. *)
Definition normalize_answer (user_answer : str) : str :=
  let user_answer := PyStr.lower (PyStr.strip user_answer) in
  default user_answer (ALLOWED_TYPOS !! user_answer).


(* ===================================================================== *)
(** * Dictionary lookup (translator.py) *)
(* ===================================================================== *)

(** The [<entry>] elements of [dictionary.xml], in file order, as the texts
    of their [<en>] and [<ru>] children. *)
Definition xml_entries := list (str * str).

Module Translator.

(** [entry.find('en').text.strip().lower()] and the same for [ru]. *)
Definition en_of (entry : str * str) : str :=
  PyStr.lower (PyStr.strip entry.1).
Definition ru_of (entry : str * str) : str :=
  PyStr.lower (PyStr.strip entry.2).

(** [load_dictionary]: each entry writes [dictionary[ru] = en] and then
    [dictionary[en] = ru], on the stripped and lowered texts. *)
Definition load_entry (dictionary : gmap str str) (entry : str * str)
  : gmap str str :=
  let en := en_of entry in
  let ru := ru_of entry in
  <[en := ru]> (<[ru := en]> dictionary).

(** An entry writes the key [k] when one of its two words is [k]. *)
Definition mentions (k : str) (entry : str * str) : Prop :=
  en_of entry = k \/ ru_of entry = k.

Definition load_dictionary (file : xml_entries) : gmap str str :=
  fold_left load_entry file ∅.

(** [translate_word] and [is_in_dictionary], with the module-level cache
    [_translation_dict = load_dictionary()] passed as [file]. *)
Definition translate_word (file : xml_entries) (word : str) : option str :=
  let word := PyStr.lower (PyStr.strip word) in
  load_dictionary file !! word.

Definition is_in_dictionary (file : xml_entries) (word : str) : bool :=
  let word := PyStr.lower (PyStr.strip word) in
  bool_decide (is_Some (load_dictionary file !! word)).

End Translator.

(* ===================================================================== *)
(** * Python numbers used by the results summary *)
(* ===================================================================== *)

Module PyNum.
Local Open Scope Z_scope.

Inductive exn := ZeroDivisionError | OverflowError | ValueError.

Inductive result (A : Type) :=
| Ok (a : A)
| Raise (e : exn).
Arguments Ok {A} a.
Arguments Raise {A} e.

(** Python floats are IEEE 754 binary64 numbers. *)
Definition prec : Z := 53.
Definition emax : Z := 1024.
Definition float := spec_float.

(** An [int] as an exact (unrounded) binary number. *)
Definition of_int (z : Z) : float :=
  match z with
  | Z0 => S754_zero false
  | Zpos p => S754_finite false p 0
  | Zneg p => S754_finite true p 0
  end.

(** [a / b] on two [int]s: the correctly rounded quotient;
    [ZeroDivisionError] for a zero divisor, [OverflowError] when the
    quotient is too large for a float. *)
Definition truediv (a b : Z) : result float :=
  if b =? 0 then Raise ZeroDivisionError
  else match SFdiv prec emax (of_int a) (of_int b) with
       | S754_infinity _ => Raise OverflowError
       | q => Ok q
       end.

(** [x * n] for a float [x] and an [int] [n] that is exactly
    representable. *)
Definition mul_int (x : float) (n : Z) : float :=
  SFmul prec emax x (of_int n).

(** [round(x)] with one argument: the nearest integer, ties to even. *)
Definition round (x : float) : result Z :=
  match x with
  | S754_nan => Raise ValueError
  | S754_infinity _ => Raise OverflowError
  | S754_zero _ => Ok 0
  | S754_finite s m e =>
      let n :=
        match e with
        | Zneg k =>
            let q := Z.shiftr (Zpos m) (Zpos k) in
            let r := Zpos m - Z.shiftl q (Zpos k) in
            match Z.compare (2 * r) (Z.shiftl 1 (Zpos k)) with
            | Lt => q
            | Gt => q + 1
            | Eq => if Z.even q then q else q + 1
            end
        | _ => Z.shiftl (Zpos m) e
        end in
      Ok (if s then - n else n)
  end.

End PyNum.

(** The first line of [_format_results_message]:
    [round((correct_answers / questions_answered) * 100)
       if questions_answered > 0 else 0]. *)
Definition percentage (correct_answers questions_answered : Z)
  : PyNum.result Z :=
  if (questions_answered >? 0)%Z then
    match PyNum.truediv correct_answers questions_answered with
    | PyNum.Ok q => PyNum.round (PyNum.mul_int q 100)
    | PyNum.Raise e => PyNum.Raise e
    end
  else PyNum.Ok 0%Z.

(* ===================================================================== *)
(** * The relational store (database.py) *)
(* ===================================================================== *)

Module DB.
Local Open Scope Z_scope.

(** Rows of [user_words], [tests], [test_results] and [leaderboard].
    Time stamps are kept only as far as the code reads them: [t_ended]
    says that [end_time] is set. *)
Record user_word := {
  uw_user : Z;
  uw_english : str;
  uw_russian : str }.

Record test_row := {
  t_user : Z;
  t_ended : bool;
  t_total : option Z;
  t_correct : option Z;
  t_incorrect : option Z }.

Record test_result := {
  r_test : positive;
  r_word : str;
  r_correct_answer : str;
  r_user_answer : str;
  r_is_correct : bool }.

Record leader := {
  total_tests : Z;
  total_correct : Z;
  total_incorrect : Z }.

(** The tables created by [initialize_database]. [users] keeps the
    primary keys only; [default_words] is in [word_id] order,
    [user_words] in [added_date] order, [test_results] in [id] order;
    [tests] is keyed by its serial [test_id], whose sequence is
    [tests_seq]. Integer columns are taken as unbounded. The rows hold
    values the store has taken; a query with a parameter that is no
    [text] raises, which the methods answer like a query that matches
    no row. *)
Record Database := {
  users : gset Z;
  default_words : list (str * str);
  user_words : list user_word;
  tests : gmap positive test_row;
  tests_seq : positive;
  test_results : list test_result;
  leaderboard : gmap Z leader }.

(** [add_user]: [INSERT ... ON CONFLICT (user_id) DO NOTHING]. *)
Definition add_user (user_id : Z) (db : Database) : Database :=
  {| users := {[user_id]} ∪ users db;
     default_words := default_words db;
     user_words := user_words db;
     tests := tests db;
     tests_seq := tests_seq db;
     test_results := test_results db;
     leaderboard := leaderboard db |}.

(** The tables as [CREATE TABLE] leaves them, without any row. *)
Definition empty_tables : Database :=
  {| users := ∅;
     default_words := [];
     user_words := [];
     tests := ∅;
     tests_seq := 1%positive;
     test_results := [];
     leaderboard := ∅ |}.

(** The row [create_test_session] inserts. *)
Definition new_session (user_id : Z) : test_row :=
  {| t_user := user_id; t_ended := false; t_total := None;
     t_correct := None; t_incorrect := None |}.

(** The store after [initialize_database]: every table dropped and
    created again, and the twelve standard words inserted. *)
Definition initialize_database : Database :=
  {| users := ∅;
     default_words :=
       [ (u "hello", u "привет"); (u "goodbye", u "пока");
         (u "thank you", u "спасибо"); (u "please", u "пожалуйста");
         (u "yes", u "да"); (u "no", u "нет");
         (u "sorry", u "извините"); (u "help", u "помощь");
         (u "water", u "вода"); (u "food", u "еда");
         (u "time", u "время"); (u "day", u "день") ];
     user_words := [];
     tests := ∅;
     tests_seq := 1%positive;
     test_results := [];
     leaderboard := ∅ |}.

(** A [str] the store takes as a text value: the driver sends it as
    UTF-8, which has no encoding for a surrogate code point, and the
    store refuses the character NUL. *)
Definition text (s : str) : bool :=
  forallb (fun c => negb (c =? 0)%N
                    && negb ((55296 <=? c)%N && (c <=? 57343)%N)) s.

(** Assignment to a [VARCHAR(n)] column: a value that is no text is an
    error, and so is a value longer than [n] characters, unless the
    excess characters are all spaces, which are cut off. *)
Definition varchar (n : nat) (s : str) : option str :=
  if negb (text s) then None
  else if (length s <=? n)%nat then Some s
  else if forallb (N.eqb 32) (drop n s) then Some (take n s)
  else None.

Definition has_user_word (user_id : Z) (english : str) (db : Database)
  : bool :=
  existsb (fun w => bool_decide (uw_user w = user_id /\ uw_english w = english))
          (user_words db).

(** [add_user_word]: [INSERT ... ON CONFLICT (user_id, english_word) DO
    NOTHING] of the lowered words; [True] only for ["INSERT 0 1"]. A value
    that [VARCHAR(255)] does not take or a [user_id] absent from [users]
    raises in the store, which is logged and answered with [False]. *)
Definition add_user_word (user_id : Z) (english_word russian_translation : str)
    (db : Database) : bool * Database :=
  match varchar 255 (PyStr.lower english_word),
        varchar 255 (PyStr.lower russian_translation) with
  | Some en, Some ru =>
      if has_user_word user_id en db then (false, db)
      else if bool_decide (user_id ∈ users db) then
        (true,
         {| users := users db;
            default_words := default_words db;
            user_words := user_words db ++
              [{| uw_user := user_id; uw_english := en; uw_russian := ru |}];
            tests := tests db;
            tests_seq := tests_seq db;
            test_results := test_results db;
            leaderboard := leaderboard db |})
      else (false, db)
  | _, _ => (false, db)
  end.

(** [get_user_words]: the user's pairs, newest first. *)
Definition get_user_words (user_id : Z) (db : Database) : list (str * str) :=
  map (fun w => (uw_english w, uw_russian w))
      (rev (filter (fun w => uw_user w = user_id) (user_words db))).

(** [get_default_words(limit=12)]. *)
Definition get_default_words (limit : nat) (db : Database)
  : list (str * str) :=
  take limit (default_words db).

(** [get_possible_translations]: the translations stored for the lowered
    word in [default_words] and in the user's [user_words], without
    repetitions ([list(set(translations))], in no particular order). *)
Definition get_possible_translations (en_word : str) (user_id : Z)
    (db : Database) : list str :=
  let default_rows :=
    filter (fun p => p.1 = PyStr.lower en_word) (default_words db) in
  let user_rows :=
    filter (fun w => uw_user w = user_id /\ uw_english w = PyStr.lower en_word)
           (user_words db) in
  let translations := map snd default_rows ++ map uw_russian user_rows in
  elements (list_to_set translations : gset str).

(** [update_user_progress] selects the word's id and, when there is one,
    upserts into [user_progress], a table [initialize_database] drops and
    never creates: the statement raises, the error is logged, and the
    store is as before. *)
Definition update_user_progress (user_id : Z) (word : str) (is_default : bool)
    (is_correct : bool) (db : Database) : Database := db.

(** [update_leaderboard]: additive upsert; a [user_id] absent from
    [users] raises in the store and is logged. *)
Definition update_leaderboard (user_id : Z) (correct incorrect : Z)
    (db : Database) : Database :=
  if bool_decide (user_id ∈ users db) then
    let row :=
      match leaderboard db !! user_id with
      | Some l => {| total_tests := total_tests l + 1;
                     total_correct := total_correct l + correct;
                     total_incorrect := total_incorrect l + incorrect |}
      | None => {| total_tests := 1;
                   total_correct := correct;
                   total_incorrect := incorrect |}
      end in
    {| users := users db;
       default_words := default_words db;
       user_words := user_words db;
       tests := tests db;
       tests_seq := tests_seq db;
       test_results := test_results db;
       leaderboard := <[user_id := row]> (leaderboard db) |}
  else db.

(** [create_test_session]: inserts a row for the user and returns its
    serial id; [None] when the insert raises (a [user_id] absent from
    [users]), the sequence value being consumed all the same. *)
Definition create_test_session (user_id : Z) (db : Database)
  : option positive * Database :=
  let test_id := tests_seq db in
  let row := new_session user_id in
  if bool_decide (user_id ∈ users db) then
    (Some test_id,
     {| users := users db;
        default_words := default_words db;
        user_words := user_words db;
        tests := <[test_id := row]> (tests db);
        tests_seq := Pos.succ test_id;
        test_results := test_results db;
        leaderboard := leaderboard db |})
  else
    (None,
     {| users := users db;
        default_words := default_words db;
        user_words := user_words db;
        tests := tests db;
        tests_seq := Pos.succ test_id;
        test_results := test_results db;
        leaderboard := leaderboard db |}).

(** [add_test_result]: appends one row; [False] when the insert raises:
    a value that its [VARCHAR(100)] column does not take, or a [test_id]
    absent from [tests]. *)
Definition add_test_result (test_id : positive)
    (word correct_answer user_answer : str) (is_correct : bool)
    (db : Database) : bool * Database :=
  match varchar 100 word, varchar 100 correct_answer,
        varchar 100 user_answer with
  | Some w, Some c, Some a =>
      if bool_decide (is_Some (tests db !! test_id)) then
        (true,
         {| users := users db;
            default_words := default_words db;
            user_words := user_words db;
            tests := tests db;
            tests_seq := tests_seq db;
            test_results := test_results db ++
              [{| r_test := test_id; r_word := w; r_correct_answer := c;
                  r_user_answer := a; r_is_correct := is_correct |}];
            leaderboard := leaderboard db |})
      else (false, db)
  | _, _, _ => (false, db)
  end.

(** [update_test_session]: sets the end time and the three counts of the
    row with this id, if there is one. *)
Definition update_test_session (test_id : positive)
    (questions_answered correct_answers incorrect_answers : Z)
    (db : Database) : bool * Database :=
  (true,
   {| users := users db;
      default_words := default_words db;
      user_words := user_words db;
      tests :=
        alter (fun row => {| t_user := t_user row; t_ended := true;
                             t_total := Some questions_answered;
                             t_correct := Some correct_answers;
                             t_incorrect := Some incorrect_answers |})
              test_id (tests db);
      tests_seq := tests_seq db;
      test_results := test_results db;
      leaderboard := leaderboard db |}).

(** [get_test_results]: the rows of one session, in [id] order. *)
Definition get_test_results (test_id : positive) (db : Database)
  : list test_result :=
  filter (fun r => r_test r = test_id) (test_results db).

(** [get_user_test_stats], as far as the summary depends on it:
    [AVG(correct_answers)] over the user's sessions is [NULL] exactly
    when none of them has a correct-answer count. *)
Definition avg_score_is_null (user_id : Z) (db : Database) : bool :=
  bool_decide
    (map_Forall (fun _ row => t_user row = user_id -> t_correct row = None)
                (tests db)).

(** The number of [user_words] rows of a user for an english key, and
    the [UNIQUE(user_id, english_word)] constraint of the table. *)
Definition count_user_word (user_id : Z) (english : str) (db : Database)
  : nat :=
  length (filter (fun w => uw_user w = user_id /\ uw_english w = english)
                 (user_words db)).

Definition unique_user_words (db : Database) : Prop :=
  forall user_id english, (count_user_word user_id english db <= 1)%nat.

End DB.

(* ===================================================================== *)
(** * The quiz engine (learning_test.py) *)
(* ===================================================================== *)

(** ** Insertion-ordered dictionaries

    A Python [dict] whose order of keys is observed: assigning to a key
    that is present replaces its value in place, a new key goes last. *)
Module PyDict.
Section dict.
Context {K V : Type} `{EqDecision K}.

Fixpoint set (k : K) (v : V) (d : list (K * V)) : list (K * V) :=
  match d with
  | [] => [(k, v)]
  | (k', v') :: r =>
      if decide (k = k') then (k, v) :: r else (k', v') :: set k v r
  end.

Fixpoint get (k : K) (d : list (K * V)) : option V :=
  match d with
  | [] => None
  | (k', v') :: r => if decide (k = k') then Some v' else get k r
  end.

Definition values (d : list (K * V)) : list V := map snd d.
Definition keys (d : list (K * V)) : list K := map fst d.

End dict.
End PyDict.

Inductive WordType := user_word | default_word | xml_word.
Inductive QuestionType := en_to_ru | ru_to_en.

#[global] Instance WordType_eq_dec : EqDecision WordType.
Proof. solve_decision. Defined.
#[global] Instance QuestionType_eq_dec : EqDecision QuestionType.
Proof. solve_decision. Defined.

(** An entry of the [test_questions] history kept in the state bag. *)
Record question_log := {
  q_question : str;
  q_correct_answer : str;
  q_user_answer : str;
  q_is_correct : bool }.

(** The keys the quiz keeps in the conversation's state bag; [None] is
    an absent key. ([test_start_time] is written and never read.) *)
Record FSMData := {
  test_id : option positive;
  test_in_progress : option bool;
  questions_answered : option Z;
  correct_answers : option Z;
  incorrect_answers : option Z;
  test_questions : option (list question_log);
  current_question : option str;
  test_correct_answer : option str;
  current_word : option str;
  word_type : option WordType;
  question_type : option QuestionType;
  original_ru_word : option str }.

Definition no_data : FSMData :=
  {| test_id := None; test_in_progress := None; questions_answered := None;
     correct_answers := None; incorrect_answers := None;
     test_questions := None; current_question := None;
     test_correct_answer := None; current_word := None; word_type := None;
     question_type := None; original_ru_word := None |}.

(** The states of the conversation ([Form] in bot.py). *)
Inductive Form :=
  ADDING_WORD | REMOVING_WORD | TRANSLATING_WORD | ADDING_TRANSLATION | TEST.

(** What the code acts on: the store, and the conversation's [FSMContext]
    (its state and its data). *)
Record World := {
  db : DB.Database;
  form : option Form;
  data : FSMData }.

(** ** A state monad for the coroutines *)

Definition M (A : Type) : Type := World -> A * World.

Definition ret {A} (a : A) : M A := fun w => (a, w).

Definition bind {A B} (m : M A) (k : A -> M B) : M B :=
  fun w => let (a, w') := m w in k a w'.

Notation "'let*' x ':=' m 'in' k" := (bind m (fun x => k))
  (at level 10, x name, m at level 100, k at level 200, only parsing).

(** [await state.get_data()], [await state.update_data(...)],
    [await state.clear()], [await state.set_state(...)]. *)
Definition get_data : M FSMData := fun w => (data w, w).

Definition update_data (f : FSMData -> FSMData) : M unit :=
  fun w => (tt, {| db := db w; form := form w; data := f (data w) |}).

Definition clear : M unit :=
  fun w => (tt, {| db := db w; form := None; data := no_data |}).

Definition set_state (s : Form) : M unit :=
  fun w => (tt, {| db := db w; form := Some s; data := data w |}).

(** [await db.method(...)] for a method that writes, and for a query. *)
Definition call {A} (f : DB.Database -> A * DB.Database) : M A :=
  fun w => let (a, d) := f (db w) in
           (a, {| db := d; form := form w; data := data w |}).

Definition query {A} (f : DB.Database -> A) : M A :=
  fun w => (f (db w), w).

(** Truth value of [data.get(key)] for a Boolean key. *)
Definition truth (b : option bool) : bool := default false b.

(** ** Words of the quiz *)

(** [load_words_from_xml]: the stripped and lowered pairs of the
    dictionary file, those with an empty side left out. *)
Definition load_words_from_xml (file : xml_entries) : list (str * str) :=
  omap (fun entry =>
          let en_word := Translator.en_of entry in
          let ru_word := Translator.ru_of entry in
          if PyStr.truthy en_word && PyStr.truthy ru_word
          then Some (en_word, ru_word) else None)
       file.

(** [list({word[0]: word for word in words}.values())]. *)
Definition by_english (words : list (str * str)) : list (str * (str * str)) :=
  fold_left (fun d word => PyDict.set word.1 word d) words [].

Definition all_words (user_words default_words xml_words : list (str * str))
  : list (str * str) :=
  PyDict.values (by_english (user_words ++ default_words ++ xml_words)).

(** The pool of question words [start_learning_test] draws from. *)
Definition quiz_pool (file : xml_entries) (user_id : Z) (d : DB.Database)
  : list (str * str) :=
  all_words (DB.get_user_words user_id d) (DB.get_default_words 12 d)
            (load_words_from_xml file).

(** [random.choice(seq)] on a non-empty sequence, with the random index
    supplied by the caller; [first] is the head of the sequence. *)
Definition choice {A} (rnd : nat) (first : A) (rest : list A) : A :=
  nth (rnd mod S (length rest)) (first :: rest) first.

(** ** Starting a quiz and asking a question *)

(** The keys written when a quiz begins. *)
Definition begin_test (new_id : positive) (d : FSMData) : FSMData :=
  {| test_id := Some new_id;
     test_in_progress := Some true;
     questions_answered := Some 0%Z;
     correct_answers := Some 0%Z;
     incorrect_answers := Some 0%Z;
     test_questions := Some [];
     current_question := current_question d;
     test_correct_answer := test_correct_answer d;
     current_word := current_word d;
     word_type := word_type d;
     question_type := question_type d;
     original_ru_word := original_ru_word d |}.

(** The keys written for each question. *)
Definition ask (question correct_answer en_word : str) (wt : WordType)
    (qt : QuestionType) (ru_word : str) (d : FSMData) : FSMData :=
  {| test_id := test_id d;
     test_in_progress := test_in_progress d;
     questions_answered := questions_answered d;
     correct_answers := correct_answers d;
     incorrect_answers := incorrect_answers d;
     test_questions := test_questions d;
     current_question := Some question;
     test_correct_answer := Some correct_answer;
     current_word := Some en_word;
     word_type := Some wt;
     question_type := Some qt;
     original_ru_word := Some ru_word |}.

(** [start_learning_test]: returns the question and its expected answer,
    or [None] for the triple of [None]s. The two random draws are the
    arguments [rnd_word] and [rnd_type]. *)
Definition start_learning_test (file : xml_entries) (user_id : Z)
    (rnd_word : nat) (rnd_type : QuestionType) : M (option (str * str)) :=
  let* d := get_data in
  let* started :=
    if negb (truth (test_in_progress d)) then
      let* new_id := call (DB.create_test_session user_id) in
      match new_id with
      | None => ret false
      | Some new_id =>
          let* _ := update_data (begin_test new_id) in
          ret true
      end
    else ret true in
  if negb started then ret None
  else
    let* user_words := query (DB.get_user_words user_id) in
    let* default_words := query (DB.get_default_words 12) in
    let xml_words := load_words_from_xml file in
    match all_words user_words default_words xml_words with
    | [] => ret None
    | first :: rest =>
        let '(en_word, ru_word) := choice rnd_word first rest in
        let wt :=
          if bool_decide ((en_word, ru_word) ∈ user_words) then user_word
          else if bool_decide ((en_word, ru_word) ∈ default_words)
               then default_word
               else xml_word in
        let '(question, correct_answer) :=
          match rnd_type with
          | en_to_ru => (u "Переведите слово: " ++ en_word, ru_word)
          | ru_to_en =>
              (u "Как будет '" ++ ru_word ++ u "' по-английски?", en_word)
          end in
        let* _ := update_data
                    (ask question correct_answer en_word wt rnd_type ru_word) in
        ret (Some (question, correct_answer))
    end.

(** ** Checking an answer *)

(** [_get_possible_translations]: the alternatives of the dictionary
    translation and the translations of the store. *)
Definition _get_possible_translations (file : xml_entries) (word : str)
    (user_id : Z) (d : DB.Database) : gset str :=
  let translations : gset str := ∅ in
  let translations :=
    if Translator.is_in_dictionary file word then
      match Translator.translate_word file word with
      | Some translated =>
          if PyStr.truthy translated then
            translations ∪
            list_to_set
              (map (fun t => PyStr.lower (PyStr.strip t))
                   (List.filter (fun t => PyStr.truthy (PyStr.strip t))
                                (PyStr.split 44 translated)))
          else translations
      | None => translations
      end
    else translations in
  let db_translations := DB.get_possible_translations word user_id d in
  if bool_decide (db_translations <> []) then
    translations ∪
    list_to_set
      (map PyStr.lower
           (List.filter (fun t => PyStr.truthy (PyStr.strip t))
                        db_translations))
  else translations.

(** [_check_answer]: the verdict and the accepted translations. *)
Definition _check_answer (file : xml_entries) (user_answer correct_answer : str)
    (qt : QuestionType) (word : str) (user_id : Z) (d : DB.Database)
  : bool * list str :=
  match qt with
  | ru_to_en =>
      (bool_decide (user_answer = correct_answer), [correct_answer])
  | en_to_ru =>
      let possible_translations :=
        elements (_get_possible_translations file word user_id d) in
      (bool_decide (user_answer ∈ possible_translations),
       possible_translations)
  end.

(** [_save_test_results]: the counters, the result row, the history. *)
Definition count_answer (is_correct : bool) (q : question_log) (d : FSMData)
  : FSMData :=
  {| test_id := test_id d;
     test_in_progress := test_in_progress d;
     questions_answered := Some (default 0 (questions_answered d) + 1)%Z;
     correct_answers :=
       Some (default 0 (correct_answers d) + (if is_correct then 1 else 0))%Z;
     incorrect_answers :=
       Some (default 0 (incorrect_answers d) + (if is_correct then 0 else 1))%Z;
     test_questions := Some (default [] (test_questions d) ++ [q]);
     current_question := current_question d;
     test_correct_answer := test_correct_answer d;
     current_word := current_word d;
     word_type := word_type d;
     question_type := question_type d;
     original_ru_word := original_ru_word d |}.

Definition _save_test_results (session : positive) (user_id : Z) (word : str)
    (wt : WordType) (correct_answer user_answer : str) (is_correct : bool)
  : M unit :=
  let* d := get_data in
  let* _ := call (DB.add_test_result session word correct_answer user_answer
                                     is_correct) in
  let* _ := call (fun s =>
                    (tt, DB.update_user_progress
                           user_id word (bool_decide (wt = default_word))
                           is_correct s)) in
  update_data
    (count_answer is_correct
       {| q_question := default [] (current_question d);
          q_correct_answer := correct_answer;
          q_user_answer := user_answer;
          q_is_correct := is_correct |}).

(** [handle_test_response]: the verdict; [None] when the session id is
    missing from the state bag and the error message is returned. *)
Definition handle_test_response (file : xml_entries) (user_id : Z)
    (user_answer correct_answer : str) : M (option bool) :=
  let* d := get_data in
  match test_id d with
  | None => ret None
  | Some session =>
      let wt := default default_word (word_type d) in
      let qt := default en_to_ru (question_type d) in
      let word := default [] (current_word d) in
      let user_answer := normalize_answer user_answer in
      let correct_answer_lower := PyStr.lower correct_answer in
      let* checked := query (_check_answer file user_answer correct_answer_lower
                                           qt word user_id) in
      let is_correct := checked.1 in
      let* _ := _save_test_results session user_id word wt correct_answer
                                   user_answer is_correct in
      ret (Some is_correct)
  end.

(** ** Ending a quiz *)

(** [end_test_and_show_results]: the percentage of the summary; [None]
    when the error message is returned instead: no session id in the
    state bag, or an exception while the summary is formatted (the
    percentage, or an average score that is [NULL]). *)
Definition end_test_and_show_results (user_id : Z) : M (option Z) :=
  let* d := get_data in
  match test_id d with
  | None => ret None
  | Some session =>
      let answered := default 0%Z (questions_answered d) in
      let correct := default 0%Z (correct_answers d) in
      let incorrect := default 0%Z (incorrect_answers d) in
      let* _ := call (DB.update_test_session session answered correct
                                             incorrect) in
      let* avg_null := query (DB.avg_score_is_null user_id) in
      match percentage correct answered with
      | PyNum.Raise _ => ret None
      | PyNum.Ok p =>
          if avg_null then ret None
          else
            let* _ := call (fun s =>
                              (tt, DB.update_leaderboard user_id correct
                                                         incorrect s)) in
            let* _ := clear in
            ret (Some p)
      end
  end.

(* ===================================================================== *)
(** * The quiz handlers of the conversation controller (bot.py) *)
(* ===================================================================== *)

Definition set_test_correct_answer (correct_answer : str) (d : FSMData)
  : FSMData :=
  {| test_id := test_id d;
     test_in_progress := test_in_progress d;
     questions_answered := questions_answered d;
     correct_answers := correct_answers d;
     incorrect_answers := incorrect_answers d;
     test_questions := test_questions d;
     current_question := current_question d;
     test_correct_answer := Some correct_answer;
     current_word := current_word d;
     word_type := word_type d;
     question_type := question_type d;
     original_ru_word := original_ru_word d |}.

(** [start_test_handler]: the question shown, or [None] for the alert
    "Нет доступных слов для теста." (no words available). *)
Definition start_test_handler (file : xml_entries) (user_id : Z)
    (rnd_word : nat) (rnd_type : QuestionType) : M (option str) :=
  let* asked := start_learning_test file user_id rnd_word rnd_type in
  match asked with
  | None => ret None
  | Some (question, _) =>
      let* _ := set_state TEST in
      ret (Some question)
  end.

(** [test_answer_handler], for a text message in state [TEST]: checks
    the answer and asks the next question. Reading
    [data['test_correct_answer']] raises when the key is absent, and the
    handler then clears the state. *)
Definition test_answer_handler (file : xml_entries) (user_id : Z)
    (text : str) (rnd_word : nat) (rnd_type : QuestionType) : M unit :=
  let* d := get_data in
  if negb (truth (test_in_progress d)) then ret tt
  else
    match test_correct_answer d with
    | None => clear
    | Some expected =>
        let user_response := PyStr.strip text in
        let* _ := handle_test_response file user_id user_response expected in
        let* asked := start_learning_test file user_id rnd_word rnd_type in
        match asked with
        | None =>
            let* _ := end_test_and_show_results user_id in
            clear
        | Some (_, correct_answer) =>
            update_data (set_test_correct_answer correct_answer)
        end
    end.

(** [end_test_handler]: the "end test" button. *)
Definition end_test_handler (user_id : Z) : M (option Z) :=
  let* results := end_test_and_show_results user_id in
  let* _ := clear in
  ret results.

(** [cancel_handler]: the "back" button. A quiz in progress with at
    least one answer has its counters written to the session row; the
    state is cleared in every case. The answer is [None] when no quiz
    was in progress, and otherwise whether the progress was saved. *)
Definition cancel_handler (user_id : Z) : M (option bool) :=
  let* d := get_data in
  let* saved :=
    if truth (test_in_progress d) then
      match test_id d with
      | Some session =>
          if (default 0 (questions_answered d) >? 0)%Z then
            let* _ := call (DB.update_test_session session
                              (default 0%Z (questions_answered d))
                              (default 0%Z (correct_answers d))
                              (default 0%Z (incorrect_answers d))) in
            ret (Some true)
          else ret (Some false)
      | None => ret (Some false)
      end
    else ret None in
  let* _ := clear in
  ret saved.

(** One answer of the user together with the random draws of the
    question that follows it. *)
Record answer := {
  a_text : str;
  a_rnd_word : nat;
  a_rnd_type : QuestionType }.

Fixpoint answer_all (file : xml_entries) (user_id : Z) (answers : list answer)
  : M unit :=
  match answers with
  | [] => ret tt
  | a :: rest =>
      let* _ := test_answer_handler file user_id (a_text a) (a_rnd_word a)
                                    (a_rnd_type a) in
      answer_all file user_id rest
  end.

(** A whole quiz of one user: the start button, the answers, the end
    button. *)
Definition quiz (file : xml_entries) (user_id : Z) (rnd_word : nat)
    (rnd_type : QuestionType) (answers : list answer) : M (option Z) :=
  let* _ := start_test_handler file user_id rnd_word rnd_type in
  let* _ := answer_all file user_id answers in
  end_test_handler user_id.

(** What a user does in a quiz: pressing the start button, sending an
    answer, pressing the end button, pressing the back button. The
    events that ask a question come with its random draws. *)
Inductive quiz_event :=
| press_start (rnd_word : nat) (rnd_type : QuestionType)
| send_answer (a : answer)
| press_end
| press_back.

Definition on_event (file : xml_entries) (user_id : Z) (e : quiz_event)
  : M unit :=
  match e with
  | press_start rnd_word rnd_type =>
      let* _ := start_test_handler file user_id rnd_word rnd_type in
      ret tt
  | send_answer a =>
      test_answer_handler file user_id (a_text a) (a_rnd_word a)
                          (a_rnd_type a)
  | press_end =>
      let* _ := end_test_handler user_id in
      ret tt
  | press_back =>
      let* _ := cancel_handler user_id in
      ret tt
  end.

Fixpoint on_events (file : xml_entries) (user_id : Z)
    (events : list quiz_event) : M unit :=
  match events with
  | [] => ret tt
  | e :: rest =>
      let* _ := on_event file user_id e in
      on_events file user_id rest
  end.

(** The conversation of a user who has no quiz running. *)
Definition idle (d : DB.Database) : World :=
  {| db := d; form := None; data := no_data |}.

(** The result rows persisted for a session. *)
Definition persisted_results (session : positive) (w : World) : nat :=
  length (DB.get_test_results session (db w)).

(* ===================================================================== *)
(** * Vocabulary of the properties *)
(* ===================================================================== *)

(** The first and the last pair with a given english key in a list of
    word pairs. *)
Definition first_with_key (key : str) (words : list (str * str))
  : option (str * str) :=
  find (fun p => bool_decide (p.1 = key)) words.

Definition last_with_key (key : str) (words : list (str * str))
  : option (str * str) :=
  find (fun p => bool_decide (p.1 = key)) (rev words).

(** Entries of the comprehension's dictionary are keyed by their own
    english word, once each. *)
Definition well_keyed (d : list (str * (str * str))) : Prop :=
  NoDup (PyDict.keys d) /\ forall k w, (k, w) ∈ d -> w.1 = k.

(** A string of white space, a string without white space at its two
    ends, and [t] as what is left of [s] when the white space at its two
    ends is taken away. *)
Definition blank (s : str) : Prop :=
  Forall (fun c => PyStr.isspace c = true) s.

Definition trimmed (s : str) : Prop :=
  (forall c, head s = Some c -> PyStr.isspace c = false) /\
  (forall c, last s = Some c -> PyStr.isspace c = false).

Definition trim_of (t s : str) : Prop :=
  trimmed t /\
  exists left right, s = left ++ t ++ right /\ blank left /\ blank right.

(** [t] is one of the comma-separated alternatives of [s]: a part of [s]
    without a comma that reaches, on each side, to a comma or to the end
    of [s]. *)
Definition alternative (t s : str) : Prop :=
  (44%N ∉ t) /\
  exists before after,
    s = before ++ t ++ after /\
    (before = [] \/ exists b, before = b ++ [44%N]) /\
    (after = [] \/ exists a, after = 44%N :: a).

(** The translations stored for an english word: those of the rows of
    [default_words] and of the user's rows of [user_words] whose english
    word is the lowered word. *)
Definition stored_translation (t word : str) (user_id : Z) (d : DB.Database)
  : Prop :=
  (PyStr.lower word, t) ∈ DB.default_words d \/
  {| DB.uw_user := user_id; DB.uw_english := PyStr.lower word;
     DB.uw_russian := t |} ∈ DB.user_words d.

(** The set of accepted translations as the specification words it: the
    dictionary translation split on commas, and all the translations
    stored for the word. *)
Definition translations_as_specified (file : xml_entries) (word : str)
    (user_id : Z) (d : DB.Database) : list str :=
  let alternatives :=
    match Translator.translate_word file word with
    | Some translated => PyStr.split 44 translated
    | None => []
    end in
  alternatives ++ DB.get_possible_translations word user_id d.

(** The counters of the state bag as the code reads them, with 0 for an
    absent key. *)
Definition answered (d : FSMData) : Z := default 0%Z (questions_answered d).
Definition correct (d : FSMData) : Z := default 0%Z (correct_answers d).
Definition incorrect (d : FSMData) : Z := default 0%Z (incorrect_answers d).

(** A store without any word for the user: no row of [user_words] for
    the user, no row of [default_words]. *)
Definition no_words (user_id : Z) (d : DB.Database) : Prop :=
  DB.get_user_words user_id d = [] /\ DB.default_words d = [].

(** A store whose sessions and result rows are below the next value of
    the [tests] sequence. *)
Definition sessions_below_seq (d : DB.Database) : Prop :=
  (forall i, is_Some (DB.tests d !! i) -> (i < DB.tests_seq d)%positive) /\
  (forall r, r ∈ DB.test_results d -> (DB.r_test r < DB.tests_seq d)%positive).

(** A text the store can hold: it has no NUL character and no surrogate
    code point. *)
Definition storable (s : str) : Prop :=
  Forall (fun c => c <> 0%N /\ ~ (55296 <= c <= 57343)%N) s.

(** A [VARCHAR(n)] column takes [s]: [s] is storable and has nothing but
    spaces after its first [n] characters. What is stored is
    [take n s]. *)
Definition fits (n : nat) (s : str) : Prop :=
  storable s /\ Forall (fun c => c = 32%N) (drop n s).

(** The counts of every finalized session add up to the number of its
    result rows. *)
Definition counts_match (d : DB.Database) : Prop :=
  forall session row,
    DB.tests d !! session = Some row ->
    DB.t_ended row = true ->
    exists c i,
      DB.t_correct row = Some c /\ DB.t_incorrect row = Some i /\
      (c + i)%Z = Z.of_nat (length (DB.get_test_results session d)).

(** The world in which [start_learning_test] looks for a question: the
    world it is called in when a quiz is in progress, and otherwise the
    world after the attempt to create a session. *)
Definition started (user_id : Z) (w : World) : World :=
  if truth (test_in_progress (data w)) then w
  else
    {| db := (DB.create_test_session user_id (db w)).2;
       form := form w;
       data := if bool_decide (user_id ∈ DB.users (db w))
               then begin_test (DB.tests_seq (db w)) (data w)
               else data w |}.

(** The world after a quiz is left: the store as it is, the state
    cleared. *)
Definition cleared (w : World) : World :=
  {| db := db w; form := None; data := no_data |}.

(** The worlds a conversation of quizzes goes through when it starts on
    the store [d0]: the sessions are below the sequence, the finalized
    sessions have matching counts, the word tables are those of [d0],
    the session of the state bag, if there is one, is open and the
    counters of the state bag add up to the number of its result rows,
    and the result columns take the word and the expected answer of the
    state bag. *)
Record consistent (d0 : DB.Database) (w : World) : Prop := {
  con_below : sessions_below_seq (db w);
  con_counts : counts_match (db w);
  con_user_words : DB.user_words (db w) = DB.user_words d0;
  con_default_words : DB.default_words (db w) = DB.default_words d0;
  con_session :
    forall session, test_id (data w) = Some session ->
      (exists row, DB.tests (db w) !! session = Some row /\
                   DB.t_ended row = false) /\
      (correct (data w) + incorrect (data w))%Z =
        Z.of_nat (persisted_results session w);
  con_word : fits 100 (default [] (current_word (data w)));
  con_expected :
    forall expected, test_correct_answer (data w) = Some expected ->
                     fits 100 expected }.

From Stdlib Require DecimalString.

(* ===================================================================== *)
(** * Further methods of the store (database.py) *)
(* ===================================================================== *)

Module DBOps.
Import DB.

(** ["DELETE 1" in result] for the status tag ["DELETE n"] of a statement
    that deleted [n] rows: the decimal writing of [n] starts with 1. *)
Definition delete_1_in_status (deleted : nat) : bool :=
  match Nat.to_uint deleted with
  | Decimal.D1 _ => true
  | _ => false
  end.

(** [remove_user_word]: deletes the user's rows for the lowered word and
    answers whether the status tag contains ["DELETE 1"]. *)
Definition remove_user_word (user_id : Z) (english_word : str)
    (db : Database) : bool * Database :=
  let key := PyStr.lower english_word in
  (delete_1_in_status (count_user_word user_id key db),
   {| users := users db;
      default_words := default_words db;
      user_words :=
        filter (fun w => ~ (uw_user w = user_id /\ uw_english w = key))
               (user_words db);
      tests := tests db;
      tests_seq := tests_seq db;
      test_results := test_results db;
      leaderboard := leaderboard db |}).

(** [conn.fetchrow] on a query without [ORDER BY]: one of the rows that
    match, [None] when there is none. Which row comes first is not fixed
    by the query; the caller of the model supplies the draw. *)
Definition fetchrow {A} (draw : nat) (rows : list A) : option A :=
  match rows with
  | [] => None
  | first :: rest => Some (choice draw first rest)
  end.

(** [get_word_translation]: for ['default'] the translation of the
    lowered word in [default_words]; for any other scope a translation of
    the lowered word in [user_words], of whichever user. *)
Definition get_word_translation (draw : nat) (word : str) (scope : WordType)
    (db : Database) : option str :=
  match scope with
  | default_word =>
      fetchrow draw
        (map snd (filter (fun p => p.1 = PyStr.lower word) (default_words db)))
  | _ =>
      fetchrow draw
        (map uw_russian
             (filter (fun w => uw_english w = PyStr.lower word)
                     (user_words db)))
  end.

End DBOps.

(* ===================================================================== *)
(** * Further handlers of the conversation controller (bot.py) *)
(* ===================================================================== *)

(** [s.split(sep, 1)]: cut at the first separator, if there is one. *)
Fixpoint split1 (sep : char) (s : str) : list str :=
  match s with
  | [] => [[]]
  | c :: r =>
      if (c =? sep)%N then [[]; r]
      else match split1 sep r with
           | p :: ps => (c :: p) :: ps
           | [] => [[c]]
           end
  end.

(** [start_add_word]: the "add word" button. *)
Definition start_add_word : M unit := set_state ADDING_WORD.

(** The replies of [process_add_word]. *)
Inductive add_reply :=
| add_cancelled
| add_bad_format
| add_done (en_word ru_translation : str)
| add_exists (en_word : str).

(** [process_add_word], for a text message in state [ADDING_WORD]. *)
Definition process_add_word (user_id : Z) (message_text : str) : M add_reply :=
  let text := PyStr.strip message_text in
  if bool_decide (text = u "⬅ Назад") then
    let* _ := clear in
    ret add_cancelled
  else if negb (bool_decide (45%N ∈ text)) then ret add_bad_format
  else
    match split1 45 text with
    | before :: after :: _ =>
        let en_word := PyStr.strip before in
        let ru_translation := PyStr.strip after in
        let* added := call (DB.add_user_word user_id en_word ru_translation) in
        let* _ := clear in
        ret (if added then add_done en_word ru_translation
             else add_exists en_word)
    | _ => ret add_bad_format
    end.

(** An inline button: its label and the data it sends back. *)
Record button := {
  label : str;
  callback_data : str }.

(** [start_remove_word]: one button for each word of the user, or [None]
    for the message that there are no words. *)
Definition start_remove_word (user_id : Z) : M (option (list button)) :=
  let* user_words := query (DB.get_user_words user_id) in
  match user_words with
  | [] => ret None
  | _ =>
      let buttons :=
        map (fun p => {| label := p.1 ++ u " - " ++ p.2;
                         callback_data := u "remove_" ++ p.1 |})
            user_words in
      let* _ := set_state REMOVING_WORD in
      ret (Some buttons)
  end.

(** [remove_word], for the data of a "remove_..." button that the
    dispatcher gives to it: the word that was removed; [None] when the
    data has no underscore and indexing the split raises. *)
Definition remove_word (user_id : Z) (data : str) : M (option str) :=
  match split1 95 data with
  | _ :: word :: _ =>
      let* _ := call (DBOps.remove_user_word user_id word) in
      let* _ := clear in
      ret (Some word)
  | _ => ret None
  end.

(** ** The dispatcher of button presses *)

(** [s.startswith(prefix)]. *)
Fixpoint startswith (prefix s : str) : bool :=
  match prefix, s with
  | [], _ => true
  | p :: prefix, c :: s => if (c =? p)%N then startswith prefix s else false
  | _ :: _, [] => false
  end.

#[global] Instance Form_eq_dec : EqDecision Form.
Proof. solve_decision. Defined.

(** The handlers of button presses ([@dp.callback_query]). *)
Inductive callback_handler :=
| to_show_word_translation
| to_change_page
| to_start_add_word
| to_start_remove_word
| to_remove_word
| to_start_translate
| to_start_test_handler
| to_end_test_handler
| to_cancel_handler
| to_show_test_history_handler
| to_show_last_test_details
| to_back_to_menu.

(** The dispatcher gives a button press to the first handler, in the
    order in which bot.py registers them, whose filters hold for the
    data of the button and the state of the conversation; [None] when
    no handler takes it. *)
Definition dispatch_callback (data : str) (state : option Form)
  : option callback_handler :=
  if startswith (u "word_") data then Some to_show_word_translation
  else if startswith (u "page_") data then Some to_change_page
  else if bool_decide (data = u "add_word") then Some to_start_add_word
  else if bool_decide (data = u "remove_word") then Some to_start_remove_word
  else if startswith (u "remove_") data
          && bool_decide (state = Some REMOVING_WORD)
       then Some to_remove_word
  else if bool_decide (data = u "translate") then Some to_start_translate
  else if bool_decide (data = u "start_test") then Some to_start_test_handler
  else if bool_decide (data = u "end_test") then Some to_end_test_handler
  else if bool_decide (data = u "cancel") then Some to_cancel_handler
  else if bool_decide (data = u "test_history")
       then Some to_show_test_history_handler
  else if bool_decide (data = u "last_test_details")
       then Some to_show_last_test_details
  else if bool_decide (data = u "menu") then Some to_back_to_menu
  else None.

(** [show_word_translation], for the data of a "word_..." button: the
    translation shown, [None] for "not found". The default words are
    asked first, then the user words. *)
Definition show_word_translation (draw draw' : nat) (data : str)
    (d : DB.Database) : option str :=
  match split1 95 data with
  | _ :: word :: _ =>
      let translation :=
        match DBOps.get_word_translation draw word default_word d with
        | Some t =>
            if PyStr.truthy t then Some t
            else DBOps.get_word_translation draw' word user_word d
        | None => DBOps.get_word_translation draw' word user_word d
        end in
      match translation with
      | Some t => if PyStr.truthy t then Some t else None
      | None => None
      end
  | _ => None
  end.

(** ** The keyboard of words *)

Module Keyboard.

(** [seq[start:stop]] with Python's treatment of negative and
    out-of-range indices. *)
Definition slice_index (len i : Z) : Z :=
  if (i <? 0)%Z then Z.max (i + len) 0 else Z.min i len.

Definition slice {A} (l : list A) (start stop : Z) : list A :=
  let len := Z.of_nat (length l) in
  let a := slice_index len start in
  let b := slice_index len stop in
  take (Z.to_nat (b - a)) (drop (Z.to_nat a) l).

(** The rows of the loop [for i in range(0, len(page_words), 2)]. *)
Fixpoint rows_of_two {A} (l : list A) : list (list A) :=
  match l with
  | [] => []
  | [a] => [[a]]
  | a :: b :: r => [a; b] :: rows_of_two r
  end.

(** [f"{n}"] for an [int]. *)
Definition decimal (n : Z) : str :=
  u (DecimalString.NilEmpty.string_of_int (Z.to_int n)).

Definition word_button (en_word : str) : button :=
  {| label := en_word; callback_data := u "word_" ++ en_word |}.

Definition back_button (page : Z) : button :=
  {| label := u "⬅️ Назад"; callback_data := u "page_" ++ decimal (page - 1) |}.

Definition forward_button (page : Z) : button :=
  {| label := u "Вперёд ➡️"; callback_data := u "page_" ++ decimal (page + 1) |}.

Definition add_word_button : button :=
  {| label := u "➕ Добавить слово"; callback_data := u "add_word" |}.

Definition action_row : list button :=
  [ add_word_button;
    {| label := u "🔙 Удалить слово"; callback_data := u "remove_word" |};
    {| label := u "📘 Перевести слово"; callback_data := u "translate" |};
    {| label := u "🧠 Тест"; callback_data := u "start_test" |} ].

(** The words listed: default words, then the user's words. *)
Definition listed_words (user_id : Z) (d : DB.Database) : list (str * str) :=
  DB.get_default_words 12 d ++ DB.get_user_words user_id d.

Definition page_words (all_words : list (str * str)) (page : Z)
  : list (str * str) :=
  let words_per_page := 6%Z in
  let start_idx := (page * words_per_page)%Z in
  let end_idx := (start_idx + words_per_page)%Z in
  slice all_words start_idx end_idx.

Definition nav_buttons (all_words : list (str * str)) (page : Z)
  : list button :=
  let end_idx := (page * 6 + 6)%Z in
  (if (page >? 0)%Z then [back_button page] else []) ++
  (if (end_idx <? Z.of_nat (length all_words))%Z then [forward_button page]
   else []).

(** [create_words_keyboard]. *)
Definition create_words_keyboard (user_id : Z) (page : Z) (d : DB.Database)
  : list (list button) :=
  let all_words := listed_words user_id d in
  match all_words with
  | [] => [[add_word_button]]
  | _ =>
      let buttons :=
        map (map (fun p : str * str => word_button p.1))
            (rows_of_two (page_words all_words page)) in
      let nav := nav_buttons all_words page in
      buttons ++ (match nav with [] => [] | _ => [nav] end) ++ [action_row]
  end.

End Keyboard.

(* ===================================================================== *)
(** * Vocabulary of the further properties *)
(* ===================================================================== *)

(** A property of the store that a coroutine keeps. *)
Definition keeps (P : DB.Database -> Prop) {A} (m : M A) : Prop :=
  forall w, P (db w) -> P (db (m w).2).

(** A property of the store that every method a quiz calls keeps. *)
Record quiz_closed (P : DB.Database -> Prop) : Prop := {
  closed_create : forall user_id d, P d -> P (DB.create_test_session user_id d).2;
  closed_result : forall session word expected given ok d,
      P d -> P (DB.add_test_result session word expected given ok d).2;
  closed_update : forall session n c i d,
      P d -> P (DB.update_test_session session n c i d).2;
  closed_leaderboard : forall user_id c i d,
      P d -> P (DB.update_leaderboard user_id c i d) }.

(** The world in the middle of a quiz of [user_id], started on the store
    [d0] as session [session], after [n] answers, whatever the length of
    the texts: the counters are balanced, the word tables, the users and
    the leaderboard are those of [d0], the session row is open, and at
    most [n] result rows are persisted for the session. *)
Record running (user_id : Z) (d0 : DB.Database) (session : positive)
    (n : nat) (w : World) : Prop := {
  run_id : test_id (data w) = Some session;
  run_progress : test_in_progress (data w) = Some true;
  run_answered : answered (data w) = Z.of_nat n;
  run_balanced : (correct (data w) + incorrect (data w))%Z = Z.of_nat n;
  run_nonneg : (0 <= correct (data w))%Z /\ (0 <= incorrect (data w))%Z;
  run_users : DB.users (db w) = DB.users d0;
  run_user_words : DB.user_words (db w) = DB.user_words d0;
  run_default_words : DB.default_words (db w) = DB.default_words d0;
  run_leaderboard : DB.leaderboard (db w) = DB.leaderboard d0;
  run_tests :
    DB.tests (db w) = <[session := DB.new_session user_id]> (DB.tests d0);
  run_results : (persisted_results session w <= n)%nat;
  run_question : is_Some (test_correct_answer (data w)) }.

(** A quiz that is left with the back button instead of the end
    button. *)
Definition cancelled_quiz (file : xml_entries) (user_id : Z) (rnd_word : nat)
    (rnd_type : QuestionType) (answers : list answer) : M (option bool) :=
  let* _ := start_test_handler file user_id rnd_word rnd_type in
  let* _ := answer_all file user_id answers in
  cancel_handler user_id.

(** A quiz that is interrupted by the "add word" button and a
    "word - translation" message. *)
Definition interrupted_quiz (file : xml_entries) (user_id : Z)
    (rnd_word : nat) (rnd_type : QuestionType) (answers : list answer)
    (message_text : str) : M add_reply :=
  let* _ := start_test_handler file user_id rnd_word rnd_type in
  let* _ := answer_all file user_id answers in
  let* _ := start_add_word in
  process_add_word user_id message_text.

(** The session row once its counters are written. *)
Definition ended_session (user_id : Z) (n c i : Z) : DB.test_row :=
  {| DB.t_user := user_id; DB.t_ended := true; DB.t_total := Some n;
     DB.t_correct := Some c; DB.t_incorrect := Some i |}.

(** The leaderboard row after one more quiz with the given counts. *)
Definition one_more_test (old : option DB.leader) (c i : Z) : DB.leader :=
  match old with
  | Some l => {| DB.total_tests := DB.total_tests l + 1;
                 DB.total_correct := DB.total_correct l + c;
                 DB.total_incorrect := DB.total_incorrect l + i |}
  | None => {| DB.total_tests := 1; DB.total_correct := c;
               DB.total_incorrect := i |}
  end.
(* ===================================================================== *)
(** * Properties *)
(* ===================================================================== *)

(** ** Strings *)

Example utf8_hello : u "Hello" = [72; 101; 108; 108; 111].
Proof. reflexivity. Qed.

Example utf8_privet : u "привет" = [1087; 1088; 1080; 1074; 1077; 1090].
Proof. reflexivity. Qed.

Example lower_Privet : PyStr.lower (u "  Привет") = u "  привет".
Proof. reflexivity. Qed.

Example strip_Privet : PyStr.strip (u "  Привет, мир ") = u "Привет, мир".
Proof. reflexivity. Qed.

Example split_commas :
  PyStr.split 44 (u "a, b,,c") = [u "a"; u " b"; u ""; u "c"].
Proof. reflexivity. Qed.

Example normalize_typo : normalize_answer (u "  Хелло ") = u "hello".
Proof. vm_compute. reflexivity. Qed.

Example normalize_plain : normalize_answer (u " Привет") = u "привет".
Proof. vm_compute. reflexivity. Qed.

Module PyStrFacts.
Import PyStr.

(** Turns boolean comparisons of code points in the context into
    arithmetic facts. *)
Ltac char_cases :=
  repeat match goal with
         | H : _ && _ = true |- _ => apply andb_true_iff in H as [? ?]
         | H : _ && _ = false |- _ => apply andb_false_iff in H as [?|?]
         | H : negb _ = true |- _ => apply negb_true_iff in H
         | H : negb _ = false |- _ => apply negb_false_iff in H
         | H : (_ <=? _) = true |- _ => apply N.leb_le in H
         | H : (_ <=? _) = false |- _ => apply N.leb_gt in H
         | H : (_ =? _) = true |- _ => apply N.eqb_eq in H
         | H : (_ =? _) = false |- _ => apply N.eqb_neq in H
         end.

Lemma isspace_spec c :
  isspace c = true <->
  (9 <= c <= 13 \/ 28 <= c <= 32 \/ c = 133 \/ c = 160 \/ c = 5760 \/
   8192 <= c <= 8202 \/ c = 8232 \/ c = 8233 \/ c = 8239 \/ c = 8287 \/
   c = 12288).
Proof.
  unfold isspace.
  rewrite !orb_true_iff, !andb_true_iff, !N.leb_le, !N.eqb_eq. tauto.
Qed.

(** ** The lowercase tables *)

Lemma find_maps c :
  match find (maps c) lowercase_ranges with
  | Some r => r ∈ lowercase_ranges /\ maps c r = true
  | None => forallb (fun r => negb (maps c r)) lowercase_ranges = true
  end.
Proof.
  destruct (find (maps c) lowercase_ranges) as [r|] eqn:E.
  - apply find_some in E as [Hin Hm]. split; [now apply list_elem_of_In|exact Hm].
  - apply forallb_forall. intros r Hin. now rewrite (find_none _ _ E r Hin).
Qed.

Lemma untouched_to_lower c : untouched c = true -> to_lower c = c.
Proof.
  unfold untouched, to_lower. rewrite !andb_true_iff. intros [[Hall _] _].
  destruct (find (maps c) lowercase_ranges) as [r|] eqn:E; [|reflexivity].
  apply find_some in E as [Hin Hm].
  rewrite forallb_forall in Hall. specialize (Hall r Hin).
  now rewrite Hm in Hall.
Qed.

Lemma untouched_lower_ucs4 (c : N) (before after : list N) :
  untouched c = true -> lower_ucs4 before c after = [c].
Proof.
  intros H. pose proof (untouched_to_lower c H) as Hc.
  unfold untouched in H. rewrite !andb_true_iff, !negb_true_iff in H.
  destruct H as [[_ H304] H931].
  unfold lower_ucs4, to_lower_full. now rewrite H931, H304, Hc.
Qed.

Lemma maps_spec c first last step target :
  maps c (first, last, step, target) = true ->
  first <= c <= last /\ (c - first) mod step = 0.
Proof.
  unfold maps.
  destruct (N.leb_spec first c) as [Hlo|]; [|discriminate].
  destruct (N.leb_spec c last) as [Hhi|]; [|discriminate].
  intros Hmod. apply N.eqb_eq in Hmod. auto.
Qed.

Lemma unreached_lower_ucs4 (d c : N) (before after : list N) :
  unreached d = true -> d ∈ lower_ucs4 before c after -> c = d.
Proof.
  unfold unreached. rewrite !andb_true_iff, !negb_true_iff, !N.eqb_neq.
  intros [[[[H H105] H775] H962] H963] Hin.
  unfold lower_ucs4, to_lower_full, handle_capital_sigma in Hin.
  destruct (c =? 931).
  { apply list_elem_of_singleton in Hin.
    repeat match type of Hin with
           | context [if ?b then _ else _] => destruct b
           | context [match ?b with _ => _ end] => destruct b
           end; congruence. }
  destruct (c =? 304).
  { apply elem_of_cons in Hin as [Hin|Hin]; [congruence|].
    apply list_elem_of_singleton in Hin. congruence. }
  apply list_elem_of_singleton in Hin. unfold to_lower in Hin.
  pose proof (find_maps c) as Hf.
  destruct (find (maps c) lowercase_ranges) as [[[[first last] step] target]|];
    [|congruence].
  destruct Hf as [Hr Hm]. apply maps_spec in Hm as [Hc _].
  rewrite forallb_forall in H.
  specialize (H _ (proj1 (list_elem_of_In _ _) Hr)).
  apply negb_true_iff in H. unfold in_image in H.
  apply andb_false_iff in H. rewrite !N.leb_gt in H. lia.
Qed.

Lemma table_closed_true : table_closed = true.
Proof. vm_compute. reflexivity. Qed.

Lemma image_untouched_spec c first last step target r' :
  image_untouched (first, last, step, target) r' = true ->
  maps c (first, last, step, target) = true ->
  maps (target + (c - first)) r' = false.
Proof.
  destruct r' as [[[first' last'] step'] target'].
  intros Hcheck Hm. apply maps_spec in Hm as [Hc Hmod].
  destruct (maps _ _) eqn:Hm'; [|reflexivity]. exfalso.
  apply maps_spec in Hm' as [Hd Hmod'].
  unfold image_untouched in Hcheck.
  rewrite !orb_true_iff, !andb_true_iff, orb_true_iff, !N.ltb_lt,
    negb_true_iff, !N.eqb_eq, N.eqb_neq in Hcheck.
  destruct Hcheck as [[Hlt|Hlt]|[[-> Hstep] Hpar]]; [lia|lia|].
  assert (Heven : (target + (c - first)) mod 2 = target mod 2).
  { destruct Hstep as [->| ->].
    - rewrite <- N.Div0.add_mod_idemp_r, Hmod. now rewrite N.add_0_r.
    - f_equal. lia. }
  apply Hpar. rewrite <- Heven.
  replace (target + (c - first)) with (first' + (target + (c - first) - first'))
    at 1 by lia.
  rewrite <- N.Div0.add_mod_idemp_r, Hmod'. now rewrite N.add_0_r.
Qed.

Lemma to_lower_untouched c :
  c <> 304 -> c <> 931 -> untouched (to_lower c) = true.
Proof.
  intros H304 H931. unfold to_lower.
  pose proof (find_maps c) as Hf.
  destruct (find (maps c) lowercase_ranges) as [[[[first last] step] target]|].
  - destruct Hf as [Hr Hm]. apply list_elem_of_In in Hr.
    pose proof table_closed_true as Hall. unfold table_closed in Hall.
    rewrite forallb_forall in Hall. specialize (Hall _ Hr).
    rewrite !andb_true_iff in Hall. destruct Hall as [[Hrs Ha] Hb].
    pose proof (maps_spec _ _ _ _ _ Hm) as [Hc _].
    unfold image_avoids in Ha, Hb.
    rewrite orb_true_iff, !N.ltb_lt in Ha, Hb.
    unfold untouched. rewrite !andb_true_iff, !negb_true_iff, !N.eqb_neq.
    repeat split; [|lia|lia].
    apply forallb_forall. intros r' Hr'. apply negb_true_iff.
    rewrite forallb_forall in Hrs.
    exact (image_untouched_spec _ _ _ _ _ _ (Hrs r' Hr') Hm).
  - unfold untouched. rewrite Hf. cbn [andb].
    now rewrite !andb_true_iff, !negb_true_iff, !N.eqb_neq.
Qed.

Lemma lower_ucs4_untouched (before : list N) (c : N) (after : list N) :
  forallb untouched (lower_ucs4 before c after) = true.
Proof.
  unfold lower_ucs4, to_lower_full, handle_capital_sigma.
  destruct (N.eqb_spec c 931) as [->|H931].
  { repeat match goal with
           | |- context [if ?b then _ else _] => destruct b
           | |- context [match ?b with _ => _ end] => destruct b
           end; vm_compute; reflexivity. }
  destruct (N.eqb_spec c 304) as [->|H304]; [vm_compute; reflexivity|].
  cbn [forallb]. now rewrite to_lower_untouched.
Qed.

Lemma lower_ucs4_not_nil (before : list N) (c : N) (after : list N) : lower_ucs4 before c after <> [].
Proof.
  unfold lower_ucs4, to_lower_full.
  destruct (c =? 931); [discriminate|]. destruct (c =? 304); discriminate.
Qed.

Lemma do_lower_untouched (before s : list N) :
  forallb untouched s = true -> do_lower before s = s.
Proof.
  revert before. induction s as [|c r IH]; intros before H; [reflexivity|].
  cbn [forallb] in H. apply andb_true_iff in H as [Hc Hr].
  cbn [do_lower]. now rewrite untouched_lower_ucs4, IH.
Qed.

Lemma untouched_do_lower (before s : list N) :
  forallb untouched (do_lower before s) = true.
Proof.
  revert before. induction s as [|c r IH]; intros before; [reflexivity|].
  cbn [do_lower]. now rewrite forallb_app, lower_ucs4_untouched, IH.
Qed.

Lemma lower_idem (s : list N) : lower (lower s) = lower s.
Proof. apply do_lower_untouched, untouched_do_lower. Qed.

Lemma lower_nil (s : list N) : lower s = [] <-> s = [].
Proof.
  split; [|now intros ->]. destruct s as [|c r]; [reflexivity|].
  unfold lower. cbn [do_lower]. intros H. apply app_eq_nil in H as [H _].
  now apply lower_ucs4_not_nil in H.
Qed.

(** ** Code points that the lowering of a string does not see through *)

Lemma inert_spec c :
  inert c = true ->
  untouched c = true /\ unreached c = true /\
  case_ignorable c = false /\ cased c = false.
Proof.
  unfold inert. rewrite !andb_true_iff, !negb_true_iff. tauto.
Qed.

Lemma isspace_inert c : isspace c = true -> inert c = true.
Proof.
  intros H. apply isspace_spec in H.
  assert (c = 9 \/ c = 10 \/ c = 11 \/ c = 12 \/ c = 13 \/ c = 28 \/ c = 29 \/
          c = 30 \/ c = 31 \/ c = 32 \/ c = 133 \/ c = 160 \/ c = 5760 \/
          c = 8192 \/ c = 8193 \/ c = 8194 \/ c = 8195 \/ c = 8196 \/
          c = 8197 \/ c = 8198 \/ c = 8199 \/ c = 8200 \/ c = 8201 \/
          c = 8202 \/ c = 8232 \/ c = 8233 \/ c = 8239 \/ c = 8287 \/
          c = 12288) as Hc by lia.
  clear H.
  repeat (destruct Hc as [->|Hc]; [vm_compute; reflexivity|]).
  subst c. vm_compute. reflexivity.
Qed.

Lemma comma_inert : inert 44 = true.
Proof. vm_compute. reflexivity. Qed.

Lemma handle_capital_sigma_eq before after :
  handle_capital_sigma before after =
  if cased_before before && uncased_after after then 962 else 963.
Proof.
  unfold handle_capital_sigma, cased_before, uncased_after.
  destruct (skip_ignorable before) as [c|]; [|reflexivity].
  destruct (cased c); reflexivity.
Qed.

Lemma cased_before_inert (b : list N) (x : N) (b' : list N) :
  inert x = true -> cased_before (b ++ x :: b') = cased_before b.
Proof.
  intros Hx. apply inert_spec in Hx as (_ & _ & Hi & Hc).
  unfold cased_before.
  induction b as [|c b IH]; cbn [app skip_ignorable].
  - now rewrite Hi, Hc.
  - destruct (case_ignorable c); [exact IH|reflexivity].
Qed.

Lemma uncased_after_inert (a : list N) (x : N) (a' : list N) :
  inert x = true -> uncased_after (a ++ x :: a') = uncased_after a.
Proof.
  intros Hx. apply inert_spec in Hx as (_ & _ & Hi & Hc).
  unfold uncased_after.
  induction a as [|c a IH]; cbn [app skip_ignorable].
  - now rewrite Hi, Hc.
  - destruct (case_ignorable c); [exact IH|reflexivity].
Qed.

Lemma lower_ucs4_before_inert (b : list N) (x : N) (b' : list N) c after :
  inert x = true ->
  lower_ucs4 (b ++ x :: b') c after = lower_ucs4 b c after.
Proof.
  intros Hx. unfold lower_ucs4.
  now rewrite !handle_capital_sigma_eq, cased_before_inert.
Qed.

Lemma lower_ucs4_after_inert before c (a : list N) (x : N) (a' : list N) :
  inert x = true ->
  lower_ucs4 before c (a ++ x :: a') = lower_ucs4 before c a.
Proof.
  intros Hx. unfold lower_ucs4.
  now rewrite !handle_capital_sigma_eq, uncased_after_inert.
Qed.

Lemma do_lower_before_inert (b : list N) (x : N) (b' s : list N) :
  inert x = true -> do_lower (b ++ x :: b') s = do_lower b s.
Proof.
  intros Hx. revert b. induction s as [|c r IH]; intros b; [reflexivity|].
  cbn [do_lower]. rewrite lower_ucs4_before_inert by exact Hx.
  f_equal. exact (IH (c :: b)).
Qed.

(** Lowering works on the two sides of an inert character separately. *)
Lemma do_lower_inert (b s : list N) (x : N) (t : list N) :
  inert x = true ->
  do_lower b (s ++ x :: t) = do_lower b s ++ x :: do_lower [] t.
Proof.
  intros Hx. revert b. induction s as [|c r IH]; intros b.
  - cbn [app do_lower].
    rewrite untouched_lower_ucs4 by (apply inert_spec in Hx; tauto).
    cbn [app]. f_equal. exact (do_lower_before_inert [] x b t Hx).
  - cbn [app do_lower]. rewrite lower_ucs4_after_inert by exact Hx.
    now rewrite IH, app_assoc.
Qed.

Lemma lower_inert (s : list N) (x : N) (t : list N) :
  inert x = true -> lower (s ++ x :: t) = lower s ++ x :: lower t.
Proof. apply do_lower_inert. Qed.

(** An inert character is in the lowered string where it was. *)
Lemma lower_ucs4_inert (x : N) (before : list N) (c : N) (after : list N) :
  inert x = true -> x ∈ lower_ucs4 before c after -> c = x.
Proof.
  intros Hx. apply unreached_lower_ucs4. apply inert_spec in Hx. tauto.
Qed.

Lemma elem_of_lower_inert (x : N) (s : list N) :
  inert x = true -> x ∈ lower s <-> x ∈ s.
Proof.
  intros Hx. unfold lower.
  enough (forall b, x ∈ do_lower b s <-> x ∈ s) as H by apply H.
  induction s as [|c r IH]; intros b; [reflexivity|].
  cbn [do_lower]. rewrite elem_of_app, elem_of_cons, IH. split.
  - intros [H|H]; [left; symmetry; eapply lower_ucs4_inert; eauto|now right].
  - intros [->|H]; [left|now right].
    rewrite untouched_lower_ucs4 by (apply inert_spec in Hx; tauto).
    now apply list_elem_of_singleton.
Qed.

(** ** Trimming and lowering *)

Lemma lower_ucs4_isspace (before : list N) (c : N) (after : list N) (d : N) :
  d ∈ lower_ucs4 before c after -> isspace d = isspace c.
Proof.
  intros Hin. destruct (isspace d) eqn:Hd.
  - pose proof (isspace_inert d Hd) as Hi.
    now rewrite (lower_ucs4_inert d before c after Hi Hin).
  - destruct (isspace c) eqn:Hc; [|reflexivity].
    pose proof (isspace_inert c Hc) as Hi. apply inert_spec in Hi as [Hi _].
    rewrite untouched_lower_ucs4 in Hin by exact Hi.
    apply list_elem_of_singleton in Hin. congruence.
Qed.

Lemma lstrip_keep s :
  match s with [] => True | c :: _ => isspace c = false end -> lstrip s = s.
Proof. destruct s as [|c r]; [reflexivity|]. cbn [lstrip]. now intros ->. Qed.

Lemma lstrip_lower s : lstrip (lower s) = lower (lstrip s).
Proof.
  induction s as [|c r IH]; [reflexivity|].
  cbn [lstrip]. destruct (isspace c) eqn:Hc.
  - change (c :: r) with ([] ++ c :: r) at 1.
    rewrite lower_inert by now apply isspace_inert.
    cbn [lower do_lower app lstrip]. now rewrite Hc.
  - apply lstrip_keep. unfold lower. cbn [do_lower].
    pose proof (lower_ucs4_not_nil [] c r) as Hne.
    pose proof (lower_ucs4_isspace [] c r) as Hsp.
    destruct (lower_ucs4 [] c r) as [|d l]; [contradiction|].
    cbn [app]. rewrite (Hsp d) by apply list_elem_of_here. exact Hc.
Qed.

Lemma rstrip_snoc s c :
  rstrip (s ++ [c]) = if isspace c then rstrip s else s ++ [c].
Proof.
  unfold rstrip. rewrite rev_app_distr. cbn [rev app lstrip].
  destruct (isspace c); [reflexivity|].
  cbn [rev]. now rewrite rev_involutive.
Qed.

(** The lowering of a string ends with the lowering of its last
    character. *)
Lemma do_lower_snoc (b s : list N) (c : N) :
  exists l, do_lower b (s ++ [c]) = l ++ lower_ucs4 (rev s ++ b) c [].
Proof.
  revert b. induction s as [|d r IH]; intros b.
  - exists []. cbn [app do_lower rev]. now rewrite app_nil_r.
  - destruct (IH (d :: b)) as [l Hl]. cbn [app do_lower rev].
    exists (lower_ucs4 b d (r ++ [c]) ++ l).
    rewrite Hl, <- !app_assoc. reflexivity.
Qed.

Lemma rstrip_lower s : rstrip (lower s) = lower (rstrip s).
Proof.
  induction s as [|c s IH] using rev_ind; [reflexivity|].
  rewrite rstrip_snoc. destruct (isspace c) eqn:Hc.
  - rewrite (lower_inert s c []) by now apply isspace_inert.
    change (lower []) with (@nil char). rewrite rstrip_snoc, Hc. exact IH.
  - destruct (do_lower_snoc [] s c) as [l Hl]. unfold lower. rewrite Hl.
    pose proof (lower_ucs4_not_nil (rev s ++ []) c []) as Hne.
    pose proof (lower_ucs4_isspace (rev s ++ []) c []) as Hsp.
    destruct (exists_last Hne) as (l' & d & Hd). rewrite Hd in *.
    rewrite app_assoc, rstrip_snoc, (Hsp d), Hc; [reflexivity|].
    apply elem_of_app. right. apply list_elem_of_here.
Qed.

Lemma strip_lower s : strip (lower s) = lower (strip s).
Proof. unfold strip. now rewrite lstrip_lower, rstrip_lower. Qed.

Lemma lstrip_idem s : lstrip (lstrip s) = lstrip s.
Proof.
  induction s as [|c r IH]; [reflexivity|].
  cbn [lstrip]. destruct (isspace c) eqn:E; [exact IH|].
  cbn [lstrip]. now rewrite E.
Qed.

Lemma rstrip_idem s : rstrip (rstrip s) = rstrip s.
Proof. unfold rstrip. now rewrite rev_involutive, lstrip_idem. Qed.

(** What [lstrip] does when a character is appended on the right. *)
Lemma lstrip_snoc s c :
  lstrip (s ++ [c]) =
  match lstrip s with
  | [] => if isspace c then [] else [c]
  | t => t ++ [c]
  end.
Proof.
  induction s as [|d r IH]; [reflexivity|].
  cbn [app lstrip]. destruct (isspace d); [exact IH | reflexivity].
Qed.

(** [rstrip] by recursion from the left. *)
Lemma rstrip_cons c s :
  rstrip (c :: s) =
  match rstrip s with
  | [] => if isspace c then [] else [c]
  | t => c :: t
  end.
Proof.
  unfold rstrip. cbn [rev]. rewrite lstrip_snoc.
  destruct (lstrip (rev s)) as [|d t] eqn:E.
  - cbn [rev]. now destruct (isspace c).
  - rewrite rev_app_distr. change (rev [c] ++ rev (d :: t)) with (c :: rev (d :: t)).
    remember (rev (d :: t)) as x eqn:E'. destruct x as [|d' t']; [|reflexivity].
    apply (f_equal (@length _)) in E'. rewrite length_rev in E'. discriminate.
Qed.

Lemma lstrip_rstrip s : lstrip (rstrip s) = rstrip (lstrip s).
Proof.
  induction s as [|c r IH]; [reflexivity|].
  rewrite rstrip_cons. cbn [lstrip].
  destruct (isspace c) eqn:E.
  - rewrite <- IH. destruct (rstrip r) as [|d t]; [reflexivity|].
    cbn [lstrip]. now rewrite E.
  - rewrite rstrip_cons.
    destruct (rstrip r) as [|d t]; rewrite ?E; cbn [lstrip]; now rewrite E.
Qed.

Lemma strip_idem s : strip (strip s) = strip s.
Proof.
  unfold strip.
  now rewrite lstrip_rstrip, rstrip_idem, lstrip_idem.
Qed.

(** ** What trimming is *)

Lemma lstrip_blank (left s : list N) :
  blank left -> lstrip (left ++ s) = lstrip s.
Proof.
  induction 1 as [|c left Hc _ IH]; [reflexivity|].
  cbn [app lstrip]. now rewrite Hc.
Qed.

Lemma lstrip_spec (s : list N) :
  exists left, s = left ++ lstrip s /\ blank left /\
               forall c, head (lstrip s) = Some c -> isspace c = false.
Proof.
  induction s as [|d r (left & IH & Hleft & Hhead)].
  - exists []. split; [reflexivity|]. split; [constructor|discriminate].
  - cbn [lstrip]. destruct (isspace d) eqn:Hd.
    + exists (d :: left). split; [cbn [app]; now f_equal|].
      split; [now constructor|exact Hhead].
    + exists []. split; [reflexivity|]. split; [constructor|].
      now intros c [= <-].
Qed.

Lemma rstrip_blank (s right : list N) :
  blank right -> rstrip (s ++ right) = rstrip s.
Proof.
  induction right as [|c right IH] using rev_ind; intros Hb.
  - now rewrite app_nil_r.
  - apply Forall_app in Hb as [Hb Hc]. apply Forall_inv in Hc.
    now rewrite app_assoc, rstrip_snoc, Hc, IH.
Qed.

Lemma rstrip_spec (s : list N) :
  exists right, s = rstrip s ++ right /\ blank right /\
                forall c, last (rstrip s) = Some c -> isspace c = false.
Proof.
  induction s as [|d s (right & IH & Hright & Hlast)] using rev_ind.
  - exists []. split; [reflexivity|]. split; [constructor|discriminate].
  - rewrite rstrip_snoc. destruct (isspace d) eqn:Hd.
    + exists (right ++ [d]). split; [|split; [|exact Hlast]].
      * rewrite app_assoc. now f_equal.
      * apply Forall_app. split; [exact Hright|]. now repeat constructor.
    + exists []. split; [now rewrite app_nil_r|]. split; [constructor|].
      intros c. rewrite last_snoc. now intros [= <-].
Qed.

Lemma rstrip_trimmed (t : list N) :
  (forall c, last t = Some c -> isspace c = false) -> rstrip t = t.
Proof.
  intros Hlast. destruct t as [|c t _] using rev_ind; [reflexivity|].
  rewrite rstrip_snoc, (Hlast c); [reflexivity|apply last_snoc].
Qed.

(** [strip] takes the white space at the two ends away, and what it
    returns is the only string that is left in this way. *)
Lemma strip_trim_of (s : list N) : trim_of (strip s) s.
Proof.
  unfold strip.
  destruct (lstrip_spec s) as (left & Hs & Hleft & Hhead).
  destruct (rstrip_spec (lstrip s)) as (right & Hl & Hright & Hlast).
  split; [split; [|exact Hlast]|].
  - intros c Hc. apply Hhead. rewrite Hl.
    destruct (rstrip (lstrip s)); [discriminate|exact Hc].
  - exists left, right. split; [now rewrite <- Hl|]. now split.
Qed.

Lemma trim_of_strip (t s : list N) : trim_of t s -> strip s = t.
Proof.
  intros [[Hhead Hlast] (left & right & -> & Hleft & Hright)].
  unfold strip. rewrite lstrip_blank by exact Hleft.
  destruct t as [|c t].
  - cbn [app]. replace (lstrip right) with (@nil N); [reflexivity|].
    symmetry. rewrite <- (app_nil_r right). now rewrite lstrip_blank.
  - cbn [app lstrip]. rewrite (Hhead c) by reflexivity.
    change (c :: t ++ right) with ((c :: t) ++ right).
    rewrite rstrip_blank by exact Hright. now apply rstrip_trimmed.
Qed.

Lemma strip_nil_blank (s : list N) : strip s = [] <-> blank s.
Proof.
  split.
  - intros H. destruct (strip_trim_of s) as [_ (left & right & Hs & Hl & Hr)].
    rewrite H in Hs. rewrite Hs. cbn [app]. now apply Forall_app.
  - intros H. apply trim_of_strip. split; [split; discriminate|].
    exists [], s. split; [reflexivity|]. split; [constructor|exact H].
Qed.

Lemma strip_trimmed (s : list N) : trimmed s -> strip s = s.
Proof.
  intros H. apply trim_of_strip. split; [exact H|].
  exists [], []. rewrite app_nil_r. split; [reflexivity|].
  split; constructor.
Qed.

(** A stripped and lowered string is a fixed point of both operations. *)
Lemma lower_strip_fixed s :
  lower (strip (lower (strip s))) = lower (strip s).
Proof. now rewrite strip_lower, strip_idem, lower_idem. Qed.

End PyStrFacts.

(** ** Answer normalisation *)

(** The canonical forms of the typo table are themselves normal: they are
    stripped, lower case, and none of them is a key of the table. *)
Lemma typo_value_normal k v :
  ALLOWED_TYPOS !! k = Some v -> normalize_answer v = v.
Proof.
  intros H. apply elem_of_list_to_map_2 in H.
  repeat (apply elem_of_cons in H as [H|H];
          [injection H as -> ->; vm_compute; reflexivity|]).
  inversion H.
Qed.

(** C7: answer normalisation (trim, lower case, one application of the
    typo table) is idempotent: normalising a normalised answer gives the
    same string. *)
Theorem normalize_answer_idempotent (s : str) :
  normalize_answer (normalize_answer s) = normalize_answer s.
Proof.
  unfold normalize_answer at 2 3.
  destruct (ALLOWED_TYPOS !! PyStr.lower (PyStr.strip s)) as [v|] eqn:E;
    cbn [default from_option id].
  - eapply typo_value_normal, E.
  - unfold normalize_answer. rewrite PyStrFacts.lower_strip_fixed, E.
    reflexivity.
Qed.

(** ** Dictionary lookup *)

Module TranslatorFacts.
Import Translator.

Example translate_Hello :
  translate_word [(u "hello", u "привет")] (u "Hello") = Some (u "привет").
Proof. vm_compute. reflexivity. Qed.

Example translate_missing :
  translate_word [(u "hello", u "привет")] (u "cat") = None.
Proof. vm_compute. reflexivity. Qed.









End TranslatorFacts.

(** ** The percentage of the results summary *)

Example percentage_half : percentage 1 2 = PyNum.Ok 50%Z.
Proof. vm_compute. reflexivity. Qed.

Example percentage_third : percentage 2 3 = PyNum.Ok 67%Z.
Proof. vm_compute. reflexivity. Qed.

(** 1/8 is 12.5 exactly, and ties go to the even integer. *)
Example percentage_tie : percentage 1 8 = PyNum.Ok 12%Z.
Proof. vm_compute. reflexivity. Qed.

(** 23/40*100 is 57.49999999999999 in binary64, not 57.5. *)
Example percentage_float : percentage 23 40 = PyNum.Ok 57%Z.
Proof. vm_compute. reflexivity. Qed.

Example percentage_all : percentage 7 7 = PyNum.Ok 100%Z.
Proof. vm_compute. reflexivity. Qed.

Lemma round_no_zero_division x :
  PyNum.round x <> PyNum.Raise PyNum.ZeroDivisionError.
Proof. destruct x; discriminate. Qed.

Lemma truediv_nonzero (c a : Z) :
  a <> 0%Z -> PyNum.truediv c a <> PyNum.Raise PyNum.ZeroDivisionError.
Proof.
  intros Ha. unfold PyNum.truediv.
  destruct (Z.eqb_spec a 0) as [E|_]; [contradiction|].
  destruct (SFdiv PyNum.prec PyNum.emax (PyNum.of_int c) (PyNum.of_int a));
    discriminate.
Qed.

(** C10: the percentage of the results summary never divides by zero:
    it is 0 when no question was answered, and otherwise the rounding of
    (correct / answered) * 100, a division whose divisor is not zero. *)
Theorem percentage_never_divides_by_zero (correct answered : Z) :
  percentage correct answered <> PyNum.Raise PyNum.ZeroDivisionError /\
  (answered = 0%Z -> percentage correct answered = PyNum.Ok 0%Z) /\
  ((0 < answered)%Z ->
   PyNum.truediv correct answered <> PyNum.Raise PyNum.ZeroDivisionError /\
   percentage correct answered =
     match PyNum.truediv correct answered with
     | PyNum.Ok q => PyNum.round (PyNum.mul_int q 100)
     | PyNum.Raise e => PyNum.Raise e
     end).
Proof.
  unfold percentage. split; [|split].
  - destruct (Z.gtb_spec answered 0) as [Hpos|_]; [|discriminate].
    pose proof (truediv_nonzero correct answered ltac:(lia)) as Hd.
    destruct (PyNum.truediv correct answered) as [q|e].
    + apply round_no_zero_division.
    + intros [= ->]. now apply Hd.
  - intros ->. reflexivity.
  - intros Hpos. split; [apply truediv_nonzero; lia|].
    destruct (Z.gtb_spec answered 0) as [_|Hle]; [reflexivity|lia].
Qed.

Lemma percentage_never_divides_by_zero_witness :
  percentage 5 0 = PyNum.Ok 0%Z /\ percentage 3 4 = PyNum.Ok 75%Z.
Proof.
  split.
  - apply (percentage_never_divides_by_zero 5 0). reflexivity.
  - destruct (percentage_never_divides_by_zero 3 4) as (_ & _ & H).
    destruct (H ltac:(lia)) as [_ ->]. vm_compute. reflexivity.
Defined.

(** ** The word store *)

Module DBFacts.
Import DB.

Lemma text_storable s : text s = true <-> storable s.
Proof.
  unfold text, storable. rewrite forallb_forall, Forall_forall.
  split; intros H c Hc.
  - apply list_elem_of_In in Hc. specialize (H c Hc).
    rewrite andb_true_iff, !negb_true_iff, andb_false_iff, N.eqb_neq,
      !N.leb_gt in H. lia.
  - apply list_elem_of_In in Hc. specialize (H c Hc).
    rewrite andb_true_iff, !negb_true_iff, andb_false_iff, N.eqb_neq,
      !N.leb_gt. lia.
Qed.

Lemma spaces_forallb (l : list N) :
  forallb (N.eqb 32) l = true <-> Forall (fun c => c = 32%N) l.
Proof.
  rewrite forallb_forall, Forall_forall. split; intros H c Hc.
  - apply list_elem_of_In in Hc. specialize (H c Hc).
    apply N.eqb_eq in H. congruence.
  - apply list_elem_of_In in Hc. rewrite (H c Hc). reflexivity.
Qed.

(** What a column takes, and what it stores of it. *)
Lemma varchar_fits n s : fits n s -> varchar n s = Some (take n s).
Proof.
  intros [Ht Hsp]. apply text_storable in Ht. apply spaces_forallb in Hsp.
  unfold varchar. rewrite Ht, Hsp. cbn [negb].
  destruct (Nat.leb_spec (length s) n); [|reflexivity].
  now rewrite take_ge.
Qed.

Lemma varchar_Some n s k :
  varchar n s = Some k -> fits n s /\ k = take n s.
Proof.
  unfold varchar, fits. rewrite <- text_storable, <- spaces_forallb.
  destruct (text s); [|discriminate]. cbn [negb].
  destruct (Nat.leb_spec (length s) n) as [Hle|Hlt].
  - intros [= <-]. rewrite drop_ge, take_ge by exact Hle. auto.
  - destruct (forallb _ _); [|discriminate]. intros [= <-]. auto.
Qed.

Lemma varchar_None n s : varchar n s = None <-> ~ fits n s.
Proof.
  split.
  - intros H Hf. apply varchar_fits in Hf. congruence.
  - intros H. destruct (varchar n s) as [k|] eqn:E; [|reflexivity].
    apply varchar_Some in E as [Hf _]. contradiction.
Qed.

Lemma varchar_short n s k :
  varchar n s = Some k -> (length s <= n)%nat -> k = s.
Proof.
  intros H Hle. apply varchar_Some in H as [_ ->]. now apply take_ge.
Qed.

Example varchar_rejects_long : varchar 100 (repeat 97%N 101) = None.
Proof. vm_compute. reflexivity. Qed.

Example varchar_cuts_spaces :
  varchar 3 (u "abc  ") = Some (u "abc").
Proof. vm_compute. reflexivity. Qed.

Example varchar_rejects_nul : varchar 100 [97; 0; 98]%N = None.
Proof. vm_compute. reflexivity. Qed.

(** Lowering can lengthen a string: the capital I with dot above becomes
    two code points. *)
Example lower_lengthens :
  PyStr.lower (u "İ") = [105; 775]%N /\
  length (PyStr.lower (repeat 304%N 128)) = 256%nat.
Proof. vm_compute. split; reflexivity. Qed.



Lemma has_user_word_count user_id english db :
  has_user_word user_id english db = true <->
  (0 < count_user_word user_id english db)%nat.
Proof.
  unfold has_user_word, count_user_word.
  induction (user_words db) as [|w l IH]; cbn [existsb].
  - cbn. lia.
  - rewrite filter_cons. rewrite orb_true_iff, IH.
    case_bool_decide as Hw; destruct (decide _) as [Hd|Hd];
      try contradiction; cbn; intuition (try lia; try discriminate).
Qed.

Lemma has_user_word_zero user_id english db :
  has_user_word user_id english db = false ->
  count_user_word user_id english db = 0%nat.
Proof.
  intros H. destruct (count_user_word user_id english db) eqn:E; [reflexivity|].
  assert (has_user_word user_id english db = true) as H'
    by (apply has_user_word_count; lia).
  congruence.
Qed.

(** A successful insert keeps the uniqueness constraint. *)
Lemma add_user_word_unique user_id en ru db :
  unique_user_words db -> unique_user_words (add_user_word user_id en ru db).2.
Proof.
  intros U. unfold add_user_word.
  destruct (varchar 255 (PyStr.lower en)) as [k|]; [|exact U].
  destruct (varchar 255 (PyStr.lower ru)) as [v|]; [|exact U].
  destruct (has_user_word user_id k db) eqn:Hh; [exact U|].
  case_bool_decide; [|exact U].
  intros u' e'. unfold count_user_word. cbn [snd user_words].
  rewrite filter_app, length_app, filter_cons, filter_nil.
  destruct (decide _) as [[Hu He]|Hn]; cbn in *.
  - subst. apply has_user_word_zero in Hh. unfold count_user_word in Hh.
    rewrite Hh. cbn. lia.
  - specialize (U u' e'). unfold count_user_word in U. lia.
Qed.

Example add_word_stores_lowercase :
  user_words (add_user_word 7 (u "Cat") (u "Кот")
                (add_user 7 initialize_database)).2
  = [{| uw_user := 7; uw_english := u "cat"; uw_russian := u "кот" |}].
Proof. vm_compute. reflexivity. Qed.





(** The same happens to a word of 128 letters that lowering makes 256
    characters long, to a word with a NUL character, and for a user
    that is not in [users]. *)
Example add_lengthened_word_stores_nothing :
  let db := add_user 7 initialize_database in
  let en := repeat 304%N 128 in
  (add_user_word 7 en (u "кот") db).1 = false /\
  user_words (add_user_word 7 en (u "кот") db).2 = [].
Proof. vm_compute. split; reflexivity. Qed.

Example add_nul_word_stores_nothing :
  let db := add_user 7 initialize_database in
  (add_user_word 7 [99; 0; 116]%N (u "кот") db).1 = false /\
  user_words (add_user_word 7 [99; 0; 116]%N (u "кот") db).2 = [].
Proof. vm_compute. split; reflexivity. Qed.

Example add_word_of_stranger_stores_nothing :
  (add_user_word 7 (u "cat") (u "кот") initialize_database).1 = false /\
  user_words (add_user_word 7 (u "cat") (u "кот") initialize_database).2 = [].
Proof. vm_compute. split; reflexivity. Qed.

End DBFacts.

(** ** The quiz *)

Example quiz_one_answer :
  let d := DB.add_user 7 DB.initialize_database in
  let w := (quiz [] 7 0 en_to_ru
              [{| a_text := u "Привет"; a_rnd_word := 1; a_rnd_type := ru_to_en |}]
              (idle d)).2 in
  DB.tests (db w) !! 1%positive =
    Some {| DB.t_user := 7; DB.t_ended := true; DB.t_total := Some 1%Z;
            DB.t_correct := Some 1%Z; DB.t_incorrect := Some 0%Z |}
  /\ persisted_results 1 w = 1%nat.
Proof. vm_compute. split; reflexivity. Qed.

Module PyDictFacts.
Import PyDict.
Section dict.
Context {K V : Type} `{EqDecision K}.
Implicit Types (d : list (K * V)) (k : K) (v : V).

Lemma get_set k k' v d :
  get k (set k' v d) = if decide (k = k') then Some v else get k d.
Proof.
  induction d as [|[k0 v0] d IH]; cbn.
  - destruct (decide (k = k')); reflexivity.
  - destruct (decide (k' = k0)) as [->|Hne]; cbn.
    + destruct (decide (k = k0)); reflexivity.
    + rewrite IH. destruct (decide (k = k0)) as [->|]; [|reflexivity].
      destruct (decide (k0 = k')); [congruence|reflexivity].
Qed.

Lemma elem_of_keys_set k k' v d :
  k ∈ keys (set k' v d) <-> k = k' \/ k ∈ keys d.
Proof.
  unfold keys. induction d as [|[k0 v0] d IH]; cbn.
  - rewrite list_elem_of_singleton, elem_of_nil. tauto.
  - destruct (decide (k' = k0)) as [->|Hne]; cbn.
    + rewrite !elem_of_cons. tauto.
    + rewrite !elem_of_cons, IH. tauto.
Qed.

Lemma keys_set_NoDup k v d : NoDup (keys d) -> NoDup (keys (set k v d)).
Proof.
  unfold keys. induction d as [|[k0 v0] d IH]; cbn; intros Hd.
  - apply NoDup_singleton.
  - apply NoDup_cons in Hd as [Hk0 Hd].
    destruct (decide (k = k0)) as [->|Hne]; cbn.
    + now apply NoDup_cons.
    + apply NoDup_cons. split; [|now apply IH].
      intros Hin. apply (elem_of_keys_set k0 k v d) in Hin as [?|?];
        [congruence|contradiction].
Qed.

Lemma get_Some_elem_of k v d : get k d = Some v -> (k, v) ∈ d.
Proof.
  induction d as [|[k0 v0] d IH]; cbn; [discriminate|].
  destruct (decide (k = k0)) as [->|Hne].
  - intros [= ->]. apply elem_of_cons. now left.
  - intros Hg. apply elem_of_cons. right. now apply IH.
Qed.

Lemma elem_of_get_Some k v d : NoDup (keys d) -> (k, v) ∈ d -> get k d = Some v.
Proof.
  unfold keys. induction d as [|[k0 v0] d IH]; cbn; intros Hd Hin.
  - now apply elem_of_nil in Hin.
  - apply NoDup_cons in Hd as [Hk0 Hd].
    apply elem_of_cons in Hin as [[= -> ->]|Hin].
    + destruct (decide (k0 = k0)); [reflexivity|congruence].
    + destruct (decide (k = k0)) as [->|Hne]; [|now apply IH].
      exfalso. apply Hk0. apply list_elem_of_fmap. now exists (k0, v).
Qed.

End dict.
End PyDictFacts.

(** ** The pool of question words *)

Module PoolFacts.
Import PyDict PyDictFacts.

Lemma find_app_first {A} (f : A -> bool) (l1 l2 : list A) :
  find f (l1 ++ l2) =
  match find f l1 with
  | Some x => Some x
  | None => find f l2
  end.
Proof.
  induction l1 as [|a l1 IH]; [reflexivity|].
  cbn. destruct (f a); [reflexivity|exact IH].
Qed.

Lemma elem_of_set (k k' : str) (v v' : str * str) d :
  (k, v) ∈ set k' v' d -> (k = k' /\ v = v') \/ (k, v) ∈ d.
Proof.
  induction d as [|[k0 v0] d IH]; cbn.
  - rewrite list_elem_of_singleton. intros [= -> ->]. now left.
  - destruct (decide (k' = k0)) as [->|Hne]; rewrite !elem_of_cons.
    + intros [[= -> ->]|Hin]; [now left|right; now right].
    + intros [Heq|Hin]; [right; now left|].
      destruct (IH Hin) as [?|?]; [now left|right; now right].
Qed.

Lemma set_well_keyed (w : str * str) d :
  well_keyed d -> well_keyed (set w.1 w d).
Proof.
  intros [Hnd Hk]. split; [now apply keys_set_NoDup|].
  intros k v Hin. apply elem_of_set in Hin as [[-> ->]|Hin]; [reflexivity|].
  now apply Hk.
Qed.

Lemma fold_well_keyed words d :
  well_keyed d ->
  well_keyed (fold_left (fun d word => set word.1 word d) words d).
Proof.
  revert d. induction words as [|w ws IH]; intros d Hd; [exact Hd|].
  cbn [fold_left]. apply IH. now apply set_well_keyed.
Qed.

Lemma by_english_well_keyed words : well_keyed (by_english words).
Proof.
  apply fold_well_keyed. split; [apply NoDup_nil_2|].
  intros k w Hin. now apply elem_of_nil in Hin.
Qed.

Lemma fold_get (key : str) words (d : list (str * (str * str))) :
  get key (fold_left (fun d word => set word.1 word d) words d) =
  match last_with_key key words with
  | Some p => Some p
  | None => get key d
  end.
Proof.
  revert d. induction words as [|w ws IH]; intros d; [reflexivity|].
  cbn [fold_left]. rewrite IH. unfold last_with_key. cbn [rev].
  rewrite find_app_first.
  destruct (find _ (rev ws)) as [p|]; [reflexivity|].
  cbn [find]. rewrite get_set.
  destruct (decide (key = w.1)) as [->|Hne].
  - now rewrite bool_decide_eq_true_2.
  - rewrite bool_decide_eq_false_2 by congruence. reflexivity.
Qed.

Lemma fold_keys (key : str) words (d : list (str * (str * str))) :
  key ∈ keys (fold_left (fun d word => set word.1 word d) words d) <->
  key ∈ map fst words \/ key ∈ keys d.
Proof.
  revert d. induction words as [|w ws IH]; intros d; cbn [fold_left map].
  - rewrite elem_of_nil. tauto.
  - rewrite IH, elem_of_keys_set, elem_of_cons. tauto.
Qed.

Lemma values_keys d : well_keyed d -> map fst (values d) = keys d.
Proof.
  intros [_ Hk]. unfold values, keys. rewrite map_map.
  apply map_ext_in. intros [k w] Hin. cbn.
  apply Hk. now apply list_elem_of_In.
Qed.

(** C1, as the code has it: the pool of question words holds one pair
    for each english key of user words ++ default words ++ dictionary
    words, and the pair kept for a key is the last pair with that key in
    this concatenation (a dict comprehension: later pairs overwrite). *)
Theorem pool_last_occurrence_wins
    (user_words default_words xml_words : list (str * str)) :
  let words := user_words ++ default_words ++ xml_words in
  let pool := all_words user_words default_words xml_words in
  NoDup (map fst pool) /\
  (forall key, key ∈ map fst pool <-> key ∈ map fst words) /\
  (forall p, p ∈ pool <-> last_with_key p.1 words = Some p).
Proof.
  intros words pool. subst pool. unfold all_words. fold words.
  pose proof (by_english_well_keyed words) as Hwk.
  rewrite (values_keys _ Hwk). split; [apply Hwk|]. split.
  - intros key. unfold by_english. rewrite fold_keys.
    cbn. rewrite elem_of_nil. tauto.
  - intros p.
    assert (Hget : get p.1 (by_english words) =
                   match last_with_key p.1 words with
                   | Some q => Some q
                   | None => None
                   end) by apply fold_get.
    split.
    + intros Hin. unfold values in Hin.
      apply list_elem_of_fmap in Hin as [[k w] [-> Hin]]. cbn in *.
      pose proof (proj2 Hwk k w Hin) as <-.
      apply (elem_of_get_Some _ _ _ (proj1 Hwk)) in Hin.
      rewrite Hin in Hget. now destruct (last_with_key w.1 words).
    + intros Hlast. rewrite Hlast in Hget.
      apply get_Some_elem_of in Hget. unfold values.
      apply list_elem_of_fmap. now exists (p.1, p).
Qed.

(** C1 as stated fails: a user's pair whose english word is also a
    default word loses to the default pair, which comes later. *)
Lemma pool_first_occurrence_loses :
  let d := (DB.add_user_word 7 (u "hello") (u "здравствуйте")
              (DB.add_user 7 DB.initialize_database)).2 in
  let words := DB.get_user_words 7 d ++ DB.get_default_words 12 d ++
               load_words_from_xml [] in
  first_with_key (u "hello") words = Some (u "hello", u "здравствуйте") /\
  filter (fun p => p.1 = u "hello") (quiz_pool [] 7 d) =
    [(u "hello", u "привет")].
Proof. vm_compute. split; reflexivity. Qed.

End PoolFacts.

(** ** Counters of a session *)

Module QuizFacts.

(** What [_save_test_results] leaves in the world: the store after the
    insert, the counters and the history updated. *)
Lemma save_test_results_world session user_id word wt expected given ok w :
  (_save_test_results session user_id word wt expected given ok w).2 =
  {| db := (DB.add_test_result session word expected given ok (db w)).2;
     form := form w;
     data := count_answer ok
               {| q_question := default [] (current_question (data w));
                  q_correct_answer := expected;
                  q_user_answer := given;
                  q_is_correct := ok |}
               (data w) |}.
Proof.
  unfold _save_test_results, bind, get_data, call, update_data,
    DB.update_user_progress.
  cbn [db form data].
  destruct (DB.add_test_result session word expected given ok (db w)).
  reflexivity.
Qed.

(** C9: each answered question adds one to [questions_answered] and one
    to exactly one of [correct_answers] and [incorrect_answers], so the
    equation answered = correct + incorrect is kept by every answer. *)
Theorem save_test_results_counters
    (session : positive) (user_id : Z) (word : str) (wt : WordType)
    (expected given : str) (ok : bool) (w : World) :
  let d := data w in
  let d' := data (_save_test_results session user_id word wt expected
                                     given ok w).2 in
  answered d' = (answered d + 1)%Z /\
  correct d' = (correct d + (if ok then 1 else 0))%Z /\
  incorrect d' = (incorrect d + (if ok then 0 else 1))%Z /\
  (answered d = (correct d + incorrect d)%Z ->
   answered d' = (correct d' + incorrect d')%Z).
Proof.
  intros d d'. subst d'. rewrite save_test_results_world.
  unfold answered, correct, incorrect. cbn. fold d.
  repeat split; try reflexivity.
  destruct ok; lia.
Qed.

Lemma begin_test_balanced new_id d :
  answered (begin_test new_id d) = 0%Z /\
  correct (begin_test new_id d) = 0%Z /\
  incorrect (begin_test new_id d) = 0%Z.
Proof. repeat split. Qed.

Lemma save_test_results_counters_witness :
  let w := {| db := DB.initialize_database; form := Some TEST;
              data := begin_test 1 no_data |} in
  let d' := data (_save_test_results 1 7 (u "hello") default_word
                    (u "привет") (u "привет") true w).2 in
  answered d' = (correct d' + incorrect d')%Z.
Proof.
  intros w d'.
  apply (save_test_results_counters 1 7 (u "hello") default_word
           (u "привет") (u "привет") true w).
  reflexivity.
Defined.

(** ** Checking answers *)

Lemma truthy_true s : PyStr.truthy s = true <-> s <> [].
Proof. destruct s; cbn; split; congruence. Qed.

Lemma is_in_dictionary_translate file word :
  Translator.is_in_dictionary file word = true <->
  is_Some (Translator.translate_word file word).
Proof.
  unfold Translator.is_in_dictionary, Translator.translate_word.
  apply bool_decide_eq_true.
Qed.

(** The translations the store has for a word and a user. *)
Lemma db_translations_spec (t word : str) user_id d :
  t ∈ DB.get_possible_translations word user_id d <->
  stored_translation t word user_id d.
Proof.
  unfold DB.get_possible_translations, stored_translation.
  rewrite elem_of_elements, elem_of_list_to_set, elem_of_app.
  change (@map) with (@fmap list _). rewrite !list_elem_of_fmap.
  split.
  - intros [[[e r] [-> Hin]]|[[i e r] [-> Hin]]];
      apply list_elem_of_filter in Hin as [Hp Hin]; cbn in *.
    + left. now subst.
    + right. destruct Hp as [-> ->]. exact Hin.
  - intros [Hin|Hin].
    + left. exists (PyStr.lower word, t). split; [reflexivity|].
      apply list_elem_of_filter. now split.
    + right. eexists. split; [|apply list_elem_of_filter; split; [|exact Hin]];
        cbn; auto.
Qed.

Lemma elem_of_filter_truthy (f : str -> str) (x : str) (l : list str) :
  x ∈ map f (List.filter (fun t => PyStr.truthy (PyStr.strip t)) l) <->
  exists t, t ∈ l /\ PyStr.strip t <> [] /\ x = f t.
Proof.
  change (@map) with (@fmap list _). rewrite list_elem_of_fmap. split.
  - intros [t [-> Hin]]. apply list_elem_of_In, filter_In in Hin as [Hin Ht].
    exists t. repeat split; [now apply list_elem_of_In|now apply truthy_true].
  - intros [t (Hin & Ht & ->)]. exists t. split; [reflexivity|].
    apply list_elem_of_In, filter_In. split; [now apply list_elem_of_In|].
    now apply truthy_true.
Qed.

(** [split] gives the parts of the string between its separators. *)
Lemma split_not_nil (sep : N) (s : list N) : PyStr.split sep s <> [].
Proof.
  destruct s as [|c r]; cbn [PyStr.split]; [discriminate|].
  destruct (c =? sep)%N; [discriminate|].
  destruct (PyStr.split sep r); discriminate.
Qed.

Lemma split_cons_sep (sep : N) (r : list N) :
  PyStr.split sep (sep :: r) = [] :: PyStr.split sep r.
Proof. cbn [PyStr.split]. now rewrite N.eqb_refl. Qed.

Lemma split_cons_other (sep c : N) (r : list N) :
  c <> sep ->
  exists p ps, PyStr.split sep r = p :: ps /\
               PyStr.split sep (c :: r) = (c :: p) :: ps.
Proof.
  intros Hne. cbn [PyStr.split].
  rewrite (proj2 (N.eqb_neq c sep)) by exact Hne.
  pose proof (split_not_nil sep r) as Hnil.
  destruct (PyStr.split sep r) as [|p ps]; [contradiction|]. eauto.
Qed.

Lemma split_no_sep (sep : N) (s t : list N) : t ∈ PyStr.split sep s -> sep ∉ t.
Proof.
  revert t. induction s as [|c r IH]; intros t.
  - cbn [PyStr.split]. intros H. apply list_elem_of_singleton in H. subst t.
    apply not_elem_of_nil.
  - destruct (N.eq_dec c sep) as [->|Hne].
    + rewrite split_cons_sep. intros H. apply elem_of_cons in H as [->|H];
        [apply not_elem_of_nil|now apply IH].
    + destruct (split_cons_other sep c r Hne) as (p & ps & Hr & ->).
      rewrite Hr in IH. intros H. apply elem_of_cons in H as [->|H].
      * intros Hin. apply elem_of_cons in Hin as [Heq|Hin]; [congruence|].
        revert Hin. apply IH, elem_of_cons. now left.
      * apply IH, elem_of_cons. now right.
Qed.

(** The head of the split is the part before the first separator. *)
Lemma split_head (sep : N) (t s : list N) :
  sep ∉ t ->
  (exists ps, PyStr.split sep (t ++ sep :: s) = t :: PyStr.split sep s /\
              ps = PyStr.split sep s) /\
  PyStr.split sep t = [t].
Proof.
  induction t as [|c t IH]; intros Hno.
  - split; [|reflexivity]. eexists. split; [|reflexivity].
    cbn [app]. apply split_cons_sep.
  - assert (Hc : c <> sep) by (intros ->; apply Hno, elem_of_cons; now left).
    assert (Hno' : sep ∉ t) by (intros H; apply Hno, elem_of_cons; now right).
    destruct (IH Hno') as [(ps & Happ & _) Hone]. split.
    + eexists. split; [|reflexivity]. cbn [app PyStr.split].
      rewrite (proj2 (N.eqb_neq c sep)) by exact Hc. now rewrite Happ.
    + cbn [PyStr.split]. rewrite (proj2 (N.eqb_neq c sep)) by exact Hc.
      now rewrite Hone.
Qed.

Lemma split_app (sep : N) (t s : list N) :
  sep ∉ t -> PyStr.split sep (t ++ sep :: s) = t :: PyStr.split sep s.
Proof. intros H. now destruct (split_head sep t s H) as [(ps & -> & _) _]. Qed.

Lemma split_one (sep : N) (t : list N) : sep ∉ t -> PyStr.split sep t = [t].
Proof. intros H. now destruct (split_head sep t [] H) as [_ ->]. Qed.

(** A string is its first part, or its first part, a separator and the
    rest. *)
Lemma split_first (sep : N) (s : list N) :
  exists t, (sep ∉ t) /\ (s = t \/ exists r, s = t ++ sep :: r).
Proof.
  induction s as [|c s (t & Hno & IH)].
  - exists []. split; [apply not_elem_of_nil|now left].
  - destruct (N.eq_dec c sep) as [->|Hne].
    + exists []. split; [apply not_elem_of_nil|]. right. now exists s.
    + exists (c :: t). split.
      * intros H. apply elem_of_cons in H as [H|H]; [congruence|contradiction].
      * destruct IH as [->|[r ->]]; [now left|right; now exists r].
Qed.

Lemma elem_of_split_after (sep : N) (t rest : list N) :
  t ∈ PyStr.split sep rest -> forall b, t ∈ PyStr.split sep (b ++ sep :: rest).
Proof.
  intros Hin b. remember (length b) as n eqn:Hn. revert b Hn.
  induction n as [n IH] using lt_wf_ind. intros b Hn.
  destruct (split_first sep b) as (h & Hh & [->|[r ->]]).
  - rewrite split_app by exact Hh. apply elem_of_cons. now right.
  - rewrite <- app_assoc. cbn [app]. rewrite split_app by exact Hh.
    apply elem_of_cons. right. apply (IH (length r)); [|reflexivity].
    subst n. rewrite length_app. cbn [length]. lia.
Qed.

(** The alternatives of a string are the members of its split on
    commas. *)
Lemma split_alternative (t s : list N) :
  t ∈ PyStr.split 44 s <-> alternative t s.
Proof.
  unfold alternative. split.
  - intros Hin. split; [exact (split_no_sep _ _ _ Hin)|].
    remember (length s) as n eqn:Hn. revert s Hn Hin.
    induction n as [n IH] using lt_wf_ind. intros s Hn Hin.
    destruct (split_first 44 s) as (h & Hno & [->|[r ->]]).
    + rewrite split_one in Hin by exact Hno.
      apply list_elem_of_singleton in Hin. subst t.
      exists [], []. rewrite app_nil_r. split; [reflexivity|]. split; now left.
    + rewrite split_app in Hin by exact Hno.
      apply elem_of_cons in Hin as [->|Hin].
      * exists [], (44%N :: r). split; [reflexivity|].
        split; [now left|right; now exists r].
      * destruct (IH (length r)) with (s := r)
          as (before & after & -> & Hb & Ha); [|reflexivity|exact Hin|].
        { subst n. rewrite length_app. cbn [length]. lia. }
        exists (h ++ 44%N :: before), after. split; [|split; [|exact Ha]].
        -- now rewrite <- app_assoc.
        -- right. destruct Hb as [->|[b ->]].
           ++ now exists h.
           ++ exists (h ++ 44%N :: b). now rewrite <- app_assoc.
  - intros (Hno & before & after & -> & Hb & Ha).
    assert (Htail : t ∈ PyStr.split 44 (t ++ after)).
    { destruct Ha as [->|[a ->]].
      - rewrite app_nil_r, split_one by exact Hno.
        now apply list_elem_of_singleton.
      - rewrite split_app by exact Hno. apply elem_of_cons. now left. }
    destruct Hb as [->|[b ->]]; [exact Htail|].
    rewrite <- app_assoc. cbn [app]. now apply elem_of_split_after.
Qed.

(** The accepted translations of an english word: the non-blank
    alternatives of its dictionary translation, trimmed and lowered, and
    the non-blank translations of the store, lowered. *)
Lemma possible_translations_spec file (x word : str) user_id d :
  x ∈ _get_possible_translations file word user_id d <->
  (exists translated t,
     Translator.translate_word file word = Some translated /\
     alternative t translated /\ PyStr.strip t <> [] /\
     x = PyStr.lower (PyStr.strip t)) \/
  (exists t,
     stored_translation t word user_id d /\
     PyStr.strip t <> [] /\ x = PyStr.lower t).
Proof.
  unfold _get_possible_translations.
  set (from_dictionary := if Translator.is_in_dictionary file word then _ else _).
  assert (Hdict : x ∈ from_dictionary <->
            exists translated t,
              Translator.translate_word file word = Some translated /\
              alternative t translated /\ PyStr.strip t <> [] /\
              x = PyStr.lower (PyStr.strip t)).
  { subst from_dictionary.
    destruct (Translator.is_in_dictionary file word) eqn:Hin.
    - apply is_in_dictionary_translate in Hin as [translated Htr].
      rewrite Htr. destruct translated as [|c r]; cbn [PyStr.truthy].
      + rewrite elem_of_empty. split; [tauto|].
        intros (tr & t & [= <-] & Ht & Hs & _).
        apply split_alternative in Ht. cbn in Ht.
        apply list_elem_of_singleton in Ht. subst t. now apply Hs.
      + rewrite elem_of_union, elem_of_empty, elem_of_list_to_set,
          elem_of_filter_truthy. split.
        * intros [[]|(t & Ht & Hrest)]. exists (c :: r), t.
          apply split_alternative in Ht. tauto.
        * intros (tr & t & [= <-] & Ht & Hrest). right. exists t.
          apply split_alternative in Ht. tauto.
    - rewrite elem_of_empty. split; [tauto|].
      intros (tr & t & Htr & _).
      assert (Translator.is_in_dictionary file word = true)
        by (apply is_in_dictionary_translate; eauto).
      congruence. }
  assert (Hdb : x ∈ (list_to_set
                       (map PyStr.lower
                          (List.filter (fun t => PyStr.truthy (PyStr.strip t))
                             (DB.get_possible_translations word user_id d)))
                     : gset str) <->
            exists t,
              stored_translation t word user_id d /\
              PyStr.strip t <> [] /\ x = PyStr.lower t).
  { rewrite elem_of_list_to_set, elem_of_filter_truthy.
    split; intros (t & Ht & Hrest); exists t;
      (split; [now apply db_translations_spec|exact Hrest]). }
  case_bool_decide as Hne.
  - rewrite elem_of_union, Hdict, Hdb. reflexivity.
  - rewrite Hdict. split; [tauto|]. intros [H|H]; [exact H|].
    apply Hdb in H. rewrite Hne in H.
    cbn in H. now apply elem_of_empty in H.
Qed.

(** C4, as the code has it: answer validation is asymmetric. A
    russian→english answer is correct exactly when it equals the
    expected english word. An english→russian answer is correct exactly
    when it is one of the accepted translations, which are: the
    comma-separated alternatives of the dictionary translation of the
    word, each without the white space at its ends and lowered, the
    blank ones left out; and the translations stored for the lowered
    word in the default words and in the user's words, each lowered, the
    blank ones left out. *)
Theorem check_answer_asymmetric (file : xml_entries)
    (user_answer correct_answer word : str) (user_id : Z)
    (d : DB.Database) :
  ((_check_answer file user_answer correct_answer ru_to_en word user_id d).1
     = true <-> user_answer = correct_answer) /\
  ((_check_answer file user_answer correct_answer en_to_ru word user_id d).1
     = true <->
   (exists translated part t,
      Translator.translate_word file word = Some translated /\
      alternative part translated /\ trim_of t part /\ t <> [] /\
      user_answer = PyStr.lower t) \/
   (exists t,
      stored_translation t word user_id d /\ ~ blank t /\
      user_answer = PyStr.lower t)).
Proof.
  unfold _check_answer. cbn [fst]. split.
  - apply bool_decide_eq_true.
  - rewrite bool_decide_eq_true, elem_of_elements,
      possible_translations_spec.
    split; intros [(translated & part & H)|(t & Ht & Hne & ->)].
    + destruct H as (Htr & Hpart & Hne & ->). left.
      exists translated, part, (PyStr.strip part).
      split; [exact Htr|]. split; [exact Hpart|].
      split; [apply PyStrFacts.strip_trim_of|]. now split.
    + right. exists t. split; [exact Ht|]. split; [|reflexivity].
      now rewrite <- PyStrFacts.strip_nil_blank.
    + destruct H as (t & Htr & Hpart & Htrim & Hne & ->). left.
      exists translated, part.
      rewrite (PyStrFacts.trim_of_strip _ _ Htrim). auto.
    + right. exists t. split; [exact Ht|]. split; [|reflexivity].
      now rewrite PyStrFacts.strip_nil_blank.
Qed.

(** C4 as stated fails in both directions. With the dictionary entry
    (good, "хорошо, добрый") the answer "добрый" is marked correct, and
    it is not a member of the translation split on commas (whose second
    part begins with a space), nor is it stored. With the user word
    (apple, "") that the message "apple -" adds, the empty answer is a
    stored translation of the word and is marked incorrect. *)
Lemma check_answer_not_plain_membership :
  let file := [(u "good", u "хорошо, добрый")] in
  let d := DB.add_user 7 DB.initialize_database in
  let d' := (DB.add_user_word 7 (u "apple") (u "") d).2 in
  ((_check_answer file (u "добрый") (u "хорошо, добрый") en_to_ru (u "good")
                  7 d).1 = true /\
   u "добрый" ∉ translations_as_specified file (u "good") 7 d) /\
  ((_check_answer file (u "") (u "") en_to_ru (u "apple") 7 d').1 = false /\
   u "" ∈ translations_as_specified file (u "apple") 7 d').
Proof.
  intros file d d'. split; split.
  - vm_compute. reflexivity.
  - intros H. apply list_elem_of_In in H. vm_compute in H.
    intuition discriminate.
  - vm_compute. reflexivity.
  - apply list_elem_of_In. vm_compute. now left.
Qed.

(** The scenario of the specification: two stored translations of
    "good", the second one is accepted. *)
Example good_has_two_translations :
  let d := (DB.add_user_word 7 (u "good") (u "добрый")
              (DB.add_user 7 DB.initialize_database)).2 in
  (_check_answer [(u "good", u "хорошо")] (u "добрый") (u "хорошо")
                 en_to_ru (u "good") 7 d).1 = true /\
  (_check_answer [(u "good", u "хорошо")] (u "хорошо") (u "good")
                 ru_to_en (u "good") 7 d).1 = false.
Proof. vm_compute. split; reflexivity. Qed.

Lemma elem_of_get_user_words (en ru : str) user_id d :
  (en, ru) ∈ DB.get_user_words user_id d <->
  {| DB.uw_user := user_id; DB.uw_english := en; DB.uw_russian := ru |}
    ∈ DB.user_words d.
Proof.
  unfold DB.get_user_words. change (@map) with (@fmap list _).
  rewrite list_elem_of_fmap. split.
  - intros [[i e r] [[= -> ->] Hin]].
    apply list_elem_of_In, in_rev, list_elem_of_In in Hin.
    apply list_elem_of_filter in Hin as [Hu Hin]. cbn in Hu. now subst.
  - intros Hin. eexists. split; [|apply list_elem_of_In, in_rev, list_elem_of_In;
                                   rewrite rev_involutive;
                                   apply list_elem_of_filter; split;
                                   [|exact Hin]]; reflexivity.
Qed.

Lemma handle_test_response_verdict file user_id given expected w session :
  test_id (data w) = Some session ->
  (handle_test_response file user_id given expected w).1 =
  Some (_check_answer file (normalize_answer given) (PyStr.lower expected)
          (default en_to_ru (question_type (data w)))
          (default [] (current_word (data w))) user_id (db w)).1.
Proof.
  intros Hid. unfold handle_test_response, bind, get_data, query, ret.
  rewrite Hid.
  destruct (_save_test_results _ _ _ _ _ _ _ _). reflexivity.
Qed.

(** C8, as the code has it: in an english→russian question on a pair of
    the default words or of the user's own words whose english word is
    in lower case, the pair's stored translation is marked correct when
    it is not empty, has no white space at its ends, and its lowered
    form is not a key of the typo table. *)
Theorem own_translation_accepted (file : xml_entries) (user_id : Z)
    (en ru : str) (session : positive) (w : World) :
  test_id (data w) = Some session ->
  question_type (data w) = Some en_to_ru ->
  current_word (data w) = Some en ->
  (en, ru) ∈ DB.default_words (db w) \/
    (en, ru) ∈ DB.get_user_words user_id (db w) ->
  PyStr.lower en = en ->
  ru <> [] ->
  trimmed ru ->
  ALLOWED_TYPOS !! PyStr.lower ru = None ->
  (handle_test_response file user_id ru ru w).1 = Some true.
Proof.
  intros Hid Hqt Hword Hstored Hen Hne Htrim Htypo.
  apply PyStrFacts.strip_trimmed in Htrim.
  rewrite (handle_test_response_verdict _ _ _ _ _ session Hid).
  rewrite Hqt, Hword. cbn [default from_option id]. f_equal.
  assert (Hanswer : normalize_answer ru = PyStr.lower ru).
  { unfold normalize_answer. rewrite Htrim, Htypo. reflexivity. }
  rewrite Hanswer. unfold _check_answer. cbn [fst].
  apply bool_decide_eq_true, elem_of_elements, possible_translations_spec.
  right. exists ru. rewrite Htrim. repeat split; [|exact Hne].
  unfold stored_translation. rewrite Hen.
  destruct Hstored as [Hd|Hu]; [now left|right].
  now apply elem_of_get_user_words.
Qed.

Lemma own_translation_accepted_witness :
  let d := (DB.add_user_word 7 (u "cat") (u "Кот")
              (DB.add_user 7 DB.initialize_database)).2 in
  let w := (start_test_handler [] 7 0 en_to_ru (idle d)).2 in
  current_word (data w) = Some (u "cat") /\
  (handle_test_response [] 7 (u "кот") (u "кот") w).1 = Some true.
Proof.
  intros d w. split; [vm_compute; reflexivity|].
  apply (own_translation_accepted [] 7 (u "cat") (u "кот") 1 w).
  - vm_compute. reflexivity.
  - vm_compute. reflexivity.
  - vm_compute. reflexivity.
  - right. apply list_elem_of_In. vm_compute. left. reflexivity.
  - vm_compute. reflexivity.
  - discriminate.
  - split; intros c [= <-]; reflexivity.
  - vm_compute. reflexivity.
Defined.

(** C8 as stated fails when the stored translation is a key of the typo
    table: the answer is rewritten to the canonical form before it is
    looked for among the accepted translations. *)
Lemma own_translation_rejected :
  let d := (DB.add_user_word 7 (u "thanks") (u "санкс")
              (DB.add_user 7 DB.initialize_database)).2 in
  let w := (start_test_handler [] 7 0 en_to_ru (idle d)).2 in
  DB.get_user_words 7 d = [(u "thanks", u "санкс")] /\
  current_word (data w) = Some (u "thanks") /\
  question_type (data w) = Some en_to_ru /\
  test_correct_answer (data w) = Some (u "санкс") /\
  (handle_test_response [] 7 (u "санкс") (u "санкс") w).1 = Some false.
Proof. vm_compute. repeat split; reflexivity. Qed.

(** It fails as well for an empty stored translation, which the message
    "apple -" adds: blank translations are not accepted. *)
Example own_empty_translation_rejected :
  let d := (DB.add_user_word 7 (u "apple") (u "")
              (DB.add_user 7 DB.initialize_database)).2 in
  let w := (start_test_handler [] 7 0 en_to_ru (idle d)).2 in
  DB.get_user_words 7 d = [(u "apple", u "")] /\
  current_word (data w) = Some (u "apple") /\
  test_correct_answer (data w) = Some (u "") /\
  (handle_test_response [] 7 (u "") (u "") w).1 = Some false.
Proof. vm_compute. repeat split; reflexivity. Qed.

(** The other two conditions bear on rows that the handlers of the bot
    do not write: a translation stored with a space around it, and an
    english word stored with a capital letter, are not found by the
    answer, which is trimmed, and by the lookup, which lowers the
    word. A stored translation with a capital letter is accepted. *)
Example own_untrimmed_translation_rejected :
  let d := (DB.add_user_word 7 (u "cat") (u " кот")
              (DB.add_user 7 DB.initialize_database)).2 in
  let w := (start_test_handler [] 7 0 en_to_ru (idle d)).2 in
  current_word (data w) = Some (u "cat") /\
  test_correct_answer (data w) = Some (u " кот") /\
  (handle_test_response [] 7 (u " кот") (u " кот") w).1 = Some false.
Proof. vm_compute. repeat split; reflexivity. Qed.

Example own_translation_of_capital_word_rejected :
  let d := {| DB.users := {[7%Z]};
              DB.default_words := [(u "Hello", u "привет")];
              DB.user_words := [];
              DB.tests := ∅;
              DB.tests_seq := 1%positive;
              DB.test_results := [];
              DB.leaderboard := ∅ |} in
  let w := (start_test_handler [] 7 0 en_to_ru (idle d)).2 in
  current_word (data w) = Some (u "Hello") /\
  test_correct_answer (data w) = Some (u "привет") /\
  (handle_test_response [] 7 (u "привет") (u "привет") w).1 = Some false.
Proof. vm_compute. repeat split; reflexivity. Qed.

Example own_capital_translation_accepted :
  let d := {| DB.users := {[7%Z]};
              DB.default_words := [(u "hello", u "Привет")];
              DB.user_words := [];
              DB.tests := ∅;
              DB.tests_seq := 1%positive;
              DB.test_results := [];
              DB.leaderboard := ∅ |} in
  let w := (start_test_handler [] 7 0 en_to_ru (idle d)).2 in
  test_correct_answer (data w) = Some (u "Привет") /\
  (handle_test_response [] 7 (u "Привет") (u "Привет") w).1 = Some true.
Proof. vm_compute. repeat split; reflexivity. Qed.

(** ** Starting a quiz without words *)

(** C2, as the code has it: with no word of the user, no default word
    and no dictionary word, starting a quiz returns the "no words
    available" outcome. The session record is created before the words
    are looked at: when no quiz is in progress and the user is in
    [users], the [tests] table has gained the new session and the state
    bag says a quiz is in progress; the table is unchanged when a quiz is
    already in progress or the user is not in [users]. *)
Theorem start_without_words (file : xml_entries) (user_id : Z)
    (rnd_word : nat) (rnd_type : QuestionType) (w : World) :
  no_words user_id (db w) ->
  load_words_from_xml file = [] ->
  let r := start_learning_test file user_id rnd_word rnd_type w in
  r.1 = None /\
  (truth (test_in_progress (data w)) = true -> r.2 = w) /\
  (truth (test_in_progress (data w)) = false -> user_id ∈ DB.users (db w) ->
   DB.tests (db r.2) =
     <[DB.tests_seq (db w) := DB.new_session user_id]> (DB.tests (db w)) /\
   data r.2 = begin_test (DB.tests_seq (db w)) (data w)) /\
  (truth (test_in_progress (data w)) = false -> user_id ∉ DB.users (db w) ->
   DB.tests (db r.2) = DB.tests (db w) /\ data r.2 = data w).
Proof.
  intros [Huser Hdefault] Hxml r. subst r.
  unfold start_learning_test, bind, get_data, call, query, update_data, ret.
  unfold DB.get_user_words, DB.get_default_words in *.
  cbn [db form data].
  destruct (truth (test_in_progress (data w))) eqn:Hprog; cbn [negb].
  - rewrite Huser, Hxml, Hdefault.
    cbn. destruct w. repeat split; intros; congruence.
  - unfold DB.create_test_session.
    case_bool_decide as Hreg;
      cbn [negb db form data DB.user_words DB.default_words].
    + rewrite Huser, Hdefault, Hxml. cbn.
      repeat split; intros; try congruence; contradiction.
    + cbn. repeat split; intros; try congruence; contradiction.
Qed.

Lemma start_without_words_witness :
  let d := DB.add_user 7 DB.empty_tables in
  let r := start_learning_test [] 7 0 en_to_ru (idle d) in
  r.1 = None /\
  DB.tests (db r.2) = <[1%positive := DB.new_session 7]> ∅.
Proof.
  intros d r.
  destruct (start_without_words [] 7 0 en_to_ru (idle d))
    as (H1 & _ & H2 & _).
  - split; vm_compute; reflexivity.
  - reflexivity.
  - split; [exact H1|].
    apply H2; [reflexivity|]. vm_compute. reflexivity.
Defined.

(** C2 as stated fails: for a user in [users] who has no quiz running,
    the attempt leaves a new session record behind. *)
Lemma start_without_words_creates_session :
  let d := DB.add_user 7 DB.empty_tables in
  let r := start_test_handler [] 7 0 en_to_ru (idle d) in
  DB.get_user_words 7 d = [] /\ DB.get_default_words 12 d = [] /\
  load_words_from_xml [] = [] /\
  r.1 = None /\
  DB.tests d !! 1%positive = None /\
  DB.tests (db r.2) !! 1%positive = Some (DB.new_session 7) /\
  test_in_progress (data r.2) = Some true.
Proof. vm_compute. repeat split; reflexivity. Qed.

(** ** A whole session *)

Lemma choice_elem_of {A} rnd (first : A) rest :
  choice rnd first rest ∈ first :: rest.
Proof.
  unfold choice. apply list_elem_of_In, nth_In. cbn [length].
  apply Nat.mod_upper_bound. discriminate.
Qed.

(** The next question of a quiz in progress: a pair of the pool, the
    store as it was. *)
Lemma start_learning_test_next file user_id rnd_word rnd_type w :
  truth (test_in_progress (data w)) = true ->
  quiz_pool file user_id (db w) <> [] ->
  exists en ru question wt,
    (en, ru) ∈ quiz_pool file user_id (db w) /\
    let expected := match rnd_type with en_to_ru => ru | ru_to_en => en end in
    start_learning_test file user_id rnd_word rnd_type w =
    (Some (question, expected),
     {| db := db w; form := form w;
        data := ask question expected en wt rnd_type ru (data w) |}).
Proof.
  intros Hprog Hpool.
  unfold start_learning_test, bind, get_data, query, update_data, ret.
  rewrite Hprog. cbn [negb].
  unfold quiz_pool in Hpool |- *.
  destruct (all_words _ _ _) as [|first rest] eqn:Hall; [contradiction|].
  pose proof (choice_elem_of rnd_word first rest) as Hin.
  destruct (choice rnd_word first rest) as [en ru].
  exists en, ru. destruct rnd_type; eexists; eexists; (split; [exact Hin|]);
    reflexivity.
Qed.

Lemma quiz_pool_same_words file user_id d d' :
  DB.user_words d = DB.user_words d' ->
  DB.default_words d = DB.default_words d' ->
  quiz_pool file user_id d = quiz_pool file user_id d'.
Proof.
  intros Hu Hd. unfold quiz_pool, DB.get_user_words, DB.get_default_words.
  now rewrite Hu, Hd.
Qed.

(** The world after [handle_test_response] in a session. *)
Lemma handle_test_response_world file user_id given expected w session :
  test_id (data w) = Some session ->
  exists ok,
    handle_test_response file user_id given expected w =
    (Some ok,
     (_save_test_results session user_id (default [] (current_word (data w)))
        (default default_word (word_type (data w))) expected
        (normalize_answer given) ok w).2).
Proof.
  intros Hid. unfold handle_test_response, bind, get_data, query, ret.
  rewrite Hid.
  exists (_check_answer file (normalize_answer given) (PyStr.lower expected)
            (default en_to_ru (question_type (data w)))
            (default [] (current_word (data w))) user_id (db w)).1.
  destruct (_save_test_results _ _ _ _ _ _ _ _) as [[] w']. reflexivity.
Qed.

(** Starting a quiz when none is running and the user is in [users]
    is creating the session and then asking the first question. *)
Lemma start_learning_test_fresh file user_id rnd_word rnd_type w :
  truth (test_in_progress (data w)) = false ->
  user_id ∈ DB.users (db w) ->
  start_learning_test file user_id rnd_word rnd_type w =
  start_learning_test file user_id rnd_word rnd_type
    {| db := (DB.create_test_session user_id (db w)).2;
       form := form w;
       data := begin_test (DB.tests_seq (db w)) (data w) |}.
Proof.
  intros Hprog Hreg.
  unfold start_learning_test, bind, get_data, call, update_data, ret.
  cbn [db form data begin_test test_in_progress truth default from_option id
       negb].
  rewrite Hprog. cbn [negb]. unfold DB.create_test_session.
  rewrite bool_decide_eq_true_2 by exact Hreg.
  reflexivity.
Qed.

(** ** Finalized sessions *)

Lemma fits_nil n : fits n [].
Proof. split; [constructor|]. rewrite drop_nil. constructor. Qed.

(** An insert whose three texts the columns take, for a session that
    exists, appends one row for the session. *)
Lemma add_test_result_taken session word expected given ok d :
  fits 100 word -> fits 100 expected -> fits 100 given ->
  is_Some (DB.tests d !! session) ->
  exists row,
    DB.r_test row = session /\
    DB.add_test_result session word expected given ok d =
    (true,
     {| DB.users := DB.users d;
        DB.default_words := DB.default_words d;
        DB.user_words := DB.user_words d;
        DB.tests := DB.tests d;
        DB.tests_seq := DB.tests_seq d;
        DB.test_results := DB.test_results d ++ [row];
        DB.leaderboard := DB.leaderboard d |}).
Proof.
  intros Hw He Hg Hs. unfold DB.add_test_result.
  rewrite (DBFacts.varchar_fits _ _ Hw), (DBFacts.varchar_fits _ _ He),
    (DBFacts.varchar_fits _ _ Hg), bool_decide_eq_true_2 by exact Hs.
  eexists. split; [|reflexivity]. reflexivity.
Qed.

(** [start_learning_test] returns nothing and leaves the world as it is
    after the session was created, or asks about a pair of the pool. *)
Lemma start_learning_test_cases file user_id rnd_word rnd_type w :
  let w0 := started user_id w in
  start_learning_test file user_id rnd_word rnd_type w = (None, w0) \/
  exists en ru question wt,
    (en, ru) ∈ quiz_pool file user_id (db w0) /\
    let expected := match rnd_type with en_to_ru => ru | ru_to_en => en end in
    start_learning_test file user_id rnd_word rnd_type w =
    (Some (question, expected),
     {| db := db w0; form := form w0;
        data := ask question expected en wt rnd_type ru (data w0) |}).
Proof.
  intros w0. subst w0. unfold started.
  destruct (truth (test_in_progress (data w))) eqn:Hprog.
  - destruct (quiz_pool file user_id (db w)) as [|p ps] eqn:Hpool.
    + left. unfold start_learning_test, bind, get_data, query, ret.
      rewrite Hprog. cbn [negb]. unfold quiz_pool in Hpool. now rewrite Hpool.
    + right. rewrite <- Hpool.
      apply start_learning_test_next; [exact Hprog|]. now rewrite Hpool.
  - case_bool_decide as Hreg.
    + rewrite start_learning_test_fresh by assumption.
      set (w1 := {| db := _; form := _; data := _ |}).
      destruct (quiz_pool file user_id (db w1)) as [|p ps] eqn:Hpool.
      * left. unfold start_learning_test, bind, get_data, query, ret.
        cbn [w1 data begin_test test_in_progress truth default from_option id
             negb]. unfold quiz_pool in Hpool. cbn [w1 db] in Hpool |- *.
        now rewrite Hpool.
      * right. rewrite <- Hpool.
        apply start_learning_test_next; [reflexivity|]. now rewrite Hpool.
    + left. unfold start_learning_test, bind, get_data, call, ret.
      rewrite Hprog. cbn [negb]. unfold DB.create_test_session.
      rewrite bool_decide_eq_false_2 by exact Hreg. reflexivity.
Qed.

Lemma get_test_results_app session d rows :
  filter (fun r => DB.r_test r = session) (DB.test_results d ++ rows) =
  DB.get_test_results session d ++ filter (fun r => DB.r_test r = session) rows.
Proof. unfold DB.get_test_results. apply filter_app. Qed.

(** A fresh session has no result row. *)
Lemma fresh_session_no_rows d :
  sessions_below_seq d -> DB.get_test_results (DB.tests_seq d) d = [].
Proof.
  intros [_ Hbelow]. unfold DB.get_test_results.
  destruct (filter _ (DB.test_results d)) as [|r rs] eqn:E; [reflexivity|].
  assert (Hr : r ∈ filter (fun r => DB.r_test r = DB.tests_seq d)
                          (DB.test_results d))
    by (rewrite E; apply elem_of_cons; now left).
  apply list_elem_of_filter in Hr as [Heq Hr]. apply Hbelow in Hr. lia.
Qed.

(** Consistency does not depend on the state of the conversation, and a
    cleared state bag is consistent with a consistent store. *)
Lemma consistent_form d0 w f :
  consistent d0 w ->
  consistent d0 {| db := db w; form := f; data := data w |}.
Proof. intros [? ? ? ? ? ? ?]. now split. Qed.

Lemma consistent_cleared d0 w :
  sessions_below_seq (db w) -> counts_match (db w) ->
  DB.user_words (db w) = DB.user_words d0 ->
  DB.default_words (db w) = DB.default_words d0 ->
  consistent d0 (cleared w).
Proof.
  intros Hb Hc Hu Hd. split; cbn [cleared db data no_data test_id current_word
    test_correct_answer default from_option id]; try assumption.
  - discriminate.
  - apply fits_nil.
  - discriminate.
Qed.

Lemma consistent_idle d :
  sessions_below_seq d -> counts_match d -> consistent d (idle d).
Proof. intros Hb Hc. now apply (consistent_cleared d (idle d)). Qed.

(** Creating a session keeps the consistency. *)
Lemma started_consistent d0 user_id w :
  consistent d0 w -> consistent d0 (started user_id w).
Proof.
  intros Hw. unfold started.
  destruct (truth (test_in_progress (data w))); [exact Hw|].
  destruct Hw as [[Hbt Hbr] Hc Hu Hd Hs Hword Hexp].
  unfold DB.create_test_session. case_bool_decide as Hreg; cbn [snd].
  - split; cbn [db data DB.tests DB.tests_seq DB.test_results DB.user_words
                DB.default_words begin_test test_id current_word
                test_correct_answer]; try assumption.
    + split; cbn [DB.tests DB.tests_seq DB.test_results].
      * intros i Hi. destruct (decide (i = DB.tests_seq (db w))) as [->|Hne];
          [lia|]. rewrite lookup_insert_ne in Hi by congruence.
        apply Hbt in Hi. lia.
      * intros r Hr. apply Hbr in Hr. lia.
    + intros session row Hrow Hended. cbn [DB.tests] in Hrow.
      destruct (decide (session = DB.tests_seq (db w))) as [->|Hne].
      * rewrite lookup_insert_eq in Hrow. injection Hrow as <-. discriminate.
      * rewrite lookup_insert_ne in Hrow by congruence.
        exact (Hc session row Hrow Hended).
    + intros session [= <-]. split.
      * exists (DB.new_session user_id). split; [apply lookup_insert_eq|].
        reflexivity.
      * unfold persisted_results. cbn [db].
        change (DB.get_test_results (DB.tests_seq (db w)) _)
          with (DB.get_test_results (DB.tests_seq (db w)) (db w)).
        rewrite fresh_session_no_rows by (split; assumption). reflexivity.
  - split; cbn [db data DB.tests DB.tests_seq DB.test_results DB.user_words
                DB.default_words]; try assumption.
    split; cbn [DB.tests DB.tests_seq DB.test_results].
    + intros i Hi. apply Hbt in Hi. lia.
    + intros r Hr. apply Hbr in Hr. lia.
Qed.

(** Asking a question keeps the consistency when the result columns take
    the word and the expected answer. *)
Lemma ask_consistent d0 w question expected en wt qt ru :
  consistent d0 w -> fits 100 en -> fits 100 expected ->
  consistent d0 {| db := db w; form := form w;
                   data := ask question expected en wt qt ru (data w) |}.
Proof.
  intros [Hb Hc Hu Hd Hs Hword Hexp] Hen Hex.
  split; cbn [db data ask test_id current_word test_correct_answer
              default from_option id]; try assumption.
  intros e [= <-]. exact Hex.
Qed.

Lemma start_learning_test_consistent file user_id rnd_word rnd_type d0 w :
  consistent d0 w ->
  (forall p, p ∈ quiz_pool file user_id d0 -> fits 100 p.1 /\ fits 100 p.2) ->
  let r := start_learning_test file user_id rnd_word rnd_type w in
  consistent d0 r.2 /\
  (forall question expected, r.1 = Some (question, expected) ->
                             fits 100 expected).
Proof.
  intros Hw Hfits r. subst r.
  pose proof (started_consistent d0 user_id w Hw) as H0.
  destruct (start_learning_test_cases file user_id rnd_word rnd_type w)
    as [->|(en & ru & question & wt & Hin & ->)].
  - split; [exact H0|discriminate].
  - rewrite (quiz_pool_same_words file user_id _ d0) in Hin
      by (apply H0).
    apply Hfits in Hin as [Hen Hru]. cbn [fst snd] in *.
    assert (Hex : fits 100 match rnd_type with en_to_ru => ru | ru_to_en => en end)
      by (destruct rnd_type; assumption).
    split; [now apply ask_consistent|].
    intros q e [= _ <-]. exact Hex.
Qed.

(** An answer whose normal form the result column takes keeps the
    consistency: it is counted and its row is written. *)
Lemma handle_test_response_consistent file user_id given expected d0 w :
  consistent d0 w ->
  fits 100 expected ->
  fits 100 (normalize_answer given) ->
  let w1 := (handle_test_response file user_id given expected w).2 in
  consistent d0 w1 /\
  test_in_progress (data w1) = test_in_progress (data w).
Proof.
  intros Hw Hex Hgiven w1. subst w1.
  destruct (test_id (data w)) as [session|] eqn:Hid.
  - destruct (handle_test_response_world file user_id given expected w
                session Hid) as [ok ->].
    cbn [snd]. rewrite save_test_results_world.
    destruct Hw as [[Hbt Hbr] Hc Hu Hd Hs Hword Hexp].
    destruct (Hs session Hid) as [(row & Hrow & Hopen) Hsum].
    destruct (add_test_result_taken session
                (default [] (current_word (data w))) expected
                (normalize_answer given) ok (db w))
      as (new & Hnew & ->); try assumption; [rewrite Hrow; eauto|].
    cbn [snd]. split; [|reflexivity].
    split; cbn [db data count_answer test_id current_word test_correct_answer
                DB.tests DB.tests_seq DB.test_results DB.user_words
                DB.default_words]; try assumption.
    + split; cbn [DB.tests DB.tests_seq DB.test_results]; [exact Hbt|].
      intros r Hr. apply elem_of_app in Hr as [Hr|Hr]; [now apply Hbr|].
      apply list_elem_of_singleton in Hr. subst r. rewrite Hnew.
      apply Hbt. rewrite Hrow. eauto.
    + intros session' row' Hrow' Hended. cbn [DB.tests] in Hrow'.
      destruct (Hc session' row' Hrow' Hended) as (c & i & Hc' & Hi' & Hsum').
      exists c, i. repeat split; try assumption.
      unfold DB.get_test_results at 1. cbn [DB.test_results].
      rewrite get_test_results_app, length_app, filter_cons, filter_nil.
      destruct (decide (DB.r_test new = session')) as [Heq|_];
        [|cbn [length]; lia].
      exfalso. rewrite Hnew in Heq. subst session'.
      rewrite Hrow in Hrow'. injection Hrow' as <-. congruence.
    + intros session' Hid'. rewrite Hid in Hid'. injection Hid' as <-.
      split; [exists row; now split|].
      unfold persisted_results in *. cbn [db].
      unfold DB.get_test_results at 1. cbn [DB.test_results].
      rewrite get_test_results_app, length_app, filter_cons, filter_nil.
      destruct (decide (DB.r_test new = session)) as [_|Hne];
        [|contradiction].
      unfold correct, incorrect in *.
      cbn [count_answer correct_answers incorrect_answers default from_option
           id length].
      destruct ok; lia.
  - unfold handle_test_response, bind, get_data, ret. rewrite Hid.
    cbn [snd]. split; [exact Hw|reflexivity].
Qed.

(** Writing the counters of the state bag to the session of the state
    bag keeps the store consistent. *)
Lemma update_test_session_consistent d0 w session n :
  consistent d0 w ->
  test_id (data w) = Some session ->
  let d' := (DB.update_test_session session n (correct (data w))
                                    (incorrect (data w)) (db w)).2 in
  sessions_below_seq d' /\ counts_match d' /\
  DB.user_words d' = DB.user_words d0 /\
  DB.default_words d' = DB.default_words d0.
Proof.
  intros [[Hbt Hbr] Hc Hu Hd Hs Hword Hexp] Hid d'. subst d'.
  destruct (Hs session Hid) as [(row & Hrow & Hopen) Hsum].
  unfold DB.update_test_session. cbn [snd].
  repeat split; cbn [DB.tests DB.tests_seq DB.test_results DB.user_words
                     DB.default_words]; try assumption.
  - intros i Hi. apply lookup_alter_is_Some in Hi. now apply Hbt.
  - intros session' row' Hrow' Hended. cbn [DB.tests] in Hrow'.
    unfold DB.get_test_results. cbn [DB.test_results].
    destruct (decide (session' = session)) as [->|Hne].
    + rewrite lookup_alter_eq, Hrow in Hrow'. cbn in Hrow'.
      injection Hrow' as <-. cbn [DB.t_correct DB.t_incorrect].
      exists (correct (data w)), (incorrect (data w)).
      repeat split. exact Hsum.
    + rewrite lookup_alter_ne in Hrow' by congruence.
      exact (Hc session' row' Hrow' Hended).
Qed.

Lemma update_leaderboard_consistent d0 user_id c i d :
  sessions_below_seq d /\ counts_match d /\
  DB.user_words d = DB.user_words d0 /\
  DB.default_words d = DB.default_words d0 ->
  let d' := DB.update_leaderboard user_id c i d in
  sessions_below_seq d' /\ counts_match d' /\
  DB.user_words d' = DB.user_words d0 /\
  DB.default_words d' = DB.default_words d0.
Proof.
  intros H d'. subst d'. unfold DB.update_leaderboard.
  case_bool_decide; exact H.
Qed.

(** Ending a quiz and clearing the state keeps the consistency. *)
Lemma end_test_consistent d0 user_id w :
  consistent d0 w ->
  consistent d0 (cleared (end_test_and_show_results user_id w).2).
Proof.
  intros Hw. unfold end_test_and_show_results, bind at 1, get_data.
  destruct (test_id (data w)) as [session|] eqn:Hid.
  - pose proof (update_test_session_consistent d0 w session
                  (answered (data w)) Hw Hid) as Hup.
    cbn zeta in Hup.
    unfold bind, call, query, clear, ret. cbn [db form data].
    fold (answered (data w)) (correct (data w)) (incorrect (data w)).
    destruct (DB.update_test_session session _ _ _ (db w)) as [ok d1].
    cbn [snd] in Hup. cbn [db form data].
    destruct (percentage _ _) as [p|e];
      [destruct (DB.avg_score_is_null user_id d1)|];
      cbn [snd db form data]; unfold cleared; cbn [db];
      try (apply (consistent_cleared d0 {| db := d1; form := form w;
                                           data := data w |}); apply Hup).
    pose proof (update_leaderboard_consistent d0 user_id (correct (data w))
                  (incorrect (data w)) d1 Hup) as Hl. cbn zeta in Hl.
    apply (consistent_cleared d0
             {| db := DB.update_leaderboard user_id (correct (data w))
                        (incorrect (data w)) d1;
                form := None; data := no_data |}); apply Hl.
  - unfold ret. cbn [snd]. destruct Hw. now apply consistent_cleared.
Qed.

Lemma end_test_handler_world user_id w :
  (end_test_handler user_id w).2 =
  cleared (end_test_and_show_results user_id w).2.
Proof.
  unfold end_test_handler, bind, clear, ret.
  destruct (end_test_and_show_results user_id w) as [r w1]. reflexivity.
Qed.

Lemma cancel_handler_consistent d0 user_id w :
  consistent d0 w -> consistent d0 (cancel_handler user_id w).2.
Proof.
  intros Hw. unfold cancel_handler, bind at 1, get_data.
  assert (Hclear : consistent d0 (cleared w))
    by (destruct Hw; now apply consistent_cleared).
  destruct (truth (test_in_progress (data w)));
    [|unfold bind, ret, clear; exact Hclear].
  destruct (test_id (data w)) as [session|] eqn:Hid;
    [|unfold bind, ret, clear; exact Hclear].
  destruct (default 0 (questions_answered (data w)) >? 0)%Z;
    [|unfold bind, ret, clear; exact Hclear].
  pose proof (update_test_session_consistent d0 w session
                (answered (data w)) Hw Hid) as Hup.
  cbn zeta in Hup.
  unfold bind, call, clear, ret. cbn [db form data].
  fold (answered (data w)) (correct (data w)) (incorrect (data w)).
  destruct (DB.update_test_session session _ _ _ (db w)) as [ok d1].
  cbn [snd] in Hup |- *.
  apply (consistent_cleared d0 {| db := d1; form := form w; data := data w |});
    apply Hup.
Qed.

Lemma test_answer_handler_consistent file user_id text rnd_word rnd_type d0 w :
  consistent d0 w ->
  (forall p, p ∈ quiz_pool file user_id d0 -> fits 100 p.1 /\ fits 100 p.2) ->
  fits 100 (normalize_answer (PyStr.strip text)) ->
  consistent d0 (test_answer_handler file user_id text rnd_word rnd_type w).2.
Proof.
  intros Hw Hfits Hgiven. unfold test_answer_handler, bind at 1, get_data.
  destruct (truth (test_in_progress (data w))); cbn [negb]; [|exact Hw].
  destruct (test_correct_answer (data w)) as [expected|] eqn:Hexp.
  2:{ unfold clear. cbn [snd]. destruct Hw. now apply consistent_cleared. }
  unfold bind at 1.
  destruct (handle_test_response_consistent file user_id (PyStr.strip text)
              expected d0 w Hw) as [H1 _];
    [now apply (con_expected d0 w Hw)|exact Hgiven|].
  destruct (handle_test_response _ _ _ _ w) as [verdict w1]. cbn [snd] in H1.
  unfold bind at 1.
  destruct (start_learning_test_consistent file user_id rnd_word rnd_type
              d0 w1 H1 Hfits) as [H2 Hasked].
  destruct (start_learning_test _ _ _ _ w1) as [[[question answer]|] w2];
    cbn [fst snd] in H2, Hasked.
  - unfold update_data. cbn [snd].
    destruct H2 as [Hb Hc Hu Hd Hs Hword Hex2].
    split; cbn [db data set_test_correct_answer test_id current_word
                test_correct_answer]; try assumption.
    intros e [= <-]. now apply (Hasked question).
  - unfold bind, clear.
    pose proof (end_test_consistent d0 user_id w2 H2) as H3.
    destruct (end_test_and_show_results user_id w2) as [r w3]. exact H3.
Qed.

Lemma on_event_consistent file user_id e d0 w :
  consistent d0 w ->
  (forall p, p ∈ quiz_pool file user_id d0 -> fits 100 p.1 /\ fits 100 p.2) ->
  (forall a, e = send_answer a ->
             fits 100 (normalize_answer (PyStr.strip (a_text a)))) ->
  consistent d0 (on_event file user_id e w).2.
Proof.
  intros Hw Hfits Hgiven. destruct e as [rnd_word rnd_type|a| |];
    cbn [on_event].
  - unfold bind, start_test_handler, bind, set_state, ret.
    destruct (start_learning_test_consistent file user_id rnd_word rnd_type
                d0 w Hw Hfits) as [H1 _].
    destruct (start_learning_test _ _ _ _ w) as [[[question answer]|] w1];
      cbn [snd] in H1 |- *; [|exact H1].
    now apply consistent_form.
  - apply test_answer_handler_consistent; auto.
  - unfold bind, ret.
    pose proof (end_test_handler_world user_id w) as Hworld.
    pose proof (end_test_consistent d0 user_id w Hw) as H1.
    destruct (end_test_handler user_id w) as [r w1]. cbn [snd] in *.
    now rewrite Hworld.
  - unfold bind, ret.
    pose proof (cancel_handler_consistent d0 user_id w Hw) as H1.
    destruct (cancel_handler user_id w) as [r w1]. exact H1.
Qed.

Lemma on_events_consistent file user_id events d0 :
  (forall p, p ∈ quiz_pool file user_id d0 -> fits 100 p.1 /\ fits 100 p.2) ->
  (forall a, send_answer a ∈ events ->
             fits 100 (normalize_answer (PyStr.strip (a_text a)))) ->
  forall w, consistent d0 w ->
            consistent d0 (on_events file user_id events w).2.
Proof.
  intros Hfits. induction events as [|e rest IH]; intros Hgiven w Hw;
    [exact Hw|].
  cbn [on_events]. unfold bind.
  pose proof (on_event_consistent file user_id e d0 w Hw Hfits) as H1.
  destruct (on_event file user_id e w) as [[] w1]. cbn [snd] in H1.
  apply IH.
  - intros a Ha. apply Hgiven, elem_of_cons. now right.
  - apply H1. intros a ->. apply Hgiven, elem_of_cons. now left.
Qed.

(** C3, as the code has it. In a conversation of quizzes that starts
    with a store whose finalized sessions have matching counts, whatever
    the user does (start button, answers, end button, back button, in
    any order and any number of times), every session that is finalized
    (by the end button, by the back button after an answer, or because
    no further question could be asked) has its correct and incorrect
    counts add up to the number of its result rows, provided every
    result row could be written: the result columns take the words of
    the pool and the normalised answers. (A row the store rejects is
    counted all the same.) *)
Theorem finalized_counts_match (file : xml_entries) (user_id : Z)
    (events : list quiz_event) (d : DB.Database) :
  sessions_below_seq d ->
  counts_match d ->
  (forall p, p ∈ quiz_pool file user_id d -> fits 100 p.1 /\ fits 100 p.2) ->
  (forall a, send_answer a ∈ events ->
             fits 100 (normalize_answer (PyStr.strip (a_text a)))) ->
  let w := (on_events file user_id events (idle d)).2 in
  forall session row,
    DB.tests (db w) !! session = Some row ->
    DB.t_ended row = true ->
    exists c i,
      DB.t_correct row = Some c /\ DB.t_incorrect row = Some i /\
      (c + i)%Z = Z.of_nat (persisted_results session w).
Proof.
  intros Hbelow Hcounts Hfits Hgiven w. subst w.
  apply (con_counts d).
  apply on_events_consistent; try assumption.
  now apply consistent_idle.
Qed.

Lemma finalized_counts_match_witness :
  let d := DB.add_user 7 DB.initialize_database in
  let events :=
    [ press_start 0 ru_to_en;
      send_answer {| a_text := u "Привет"; a_rnd_word := 4;
                     a_rnd_type := en_to_ru |};
      press_back;
      press_start 3 en_to_ru;
      send_answer {| a_text := u "Пожалуйста "; a_rnd_word := 2;
                     a_rnd_type := ru_to_en |};
      send_answer {| a_text := u "не знаю"; a_rnd_word := 5;
                     a_rnd_type := en_to_ru |};
      press_end ] in
  let w := (on_events [] 7 events (idle d)).2 in
  (exists row c i,
     DB.tests (db w) !! 1%positive = Some row /\ DB.t_ended row = true /\
     DB.t_correct row = Some c /\ DB.t_incorrect row = Some i /\
     (c + i)%Z = Z.of_nat (persisted_results 1 w) /\
     persisted_results 1 w = 1%nat) /\
  (exists row c i,
     DB.tests (db w) !! 2%positive = Some row /\ DB.t_ended row = true /\
     DB.t_correct row = Some c /\ DB.t_incorrect row = Some i /\
     (c + i)%Z = Z.of_nat (persisted_results 2 w) /\
     persisted_results 2 w = 2%nat).
Proof.
  intros d events w.
  assert (H : forall session row,
             DB.tests (db w) !! session = Some row ->
             DB.t_ended row = true ->
             exists c i,
               DB.t_correct row = Some c /\ DB.t_incorrect row = Some i /\
               (c + i)%Z = Z.of_nat (persisted_results session w)).
  { apply (finalized_counts_match [] 7 events d).
    - split.
      + intros j [x Hx]. vm_compute in Hx. discriminate.
      + intros r Hr. apply list_elem_of_In in Hr. vm_compute in Hr.
        contradiction.
    - intros session row Hrow. vm_compute in Hrow. discriminate.
    - apply Forall_forall, (bool_decide_unpack _). vm_compute. exact I.
    - intros a Ha. apply list_elem_of_In in Ha. cbn [events In] in Ha.
      repeat (destruct Ha as [Ha|Ha];
              [try discriminate Ha; injection Ha as <-;
               unfold fits; apply (bool_decide_unpack _); vm_compute;
               exact I|]);
        contradiction. }
  split.
  - assert (exists row, DB.tests (db w) !! 1%positive = Some row /\
                        DB.t_ended row = true) as (row & Hrow & Hend)
      by (eexists; split; vm_compute; reflexivity).
    destruct (H _ _ Hrow Hend) as (c & i & Hc & Hi & Hsum).
    exists row, c, i. split; [exact Hrow|]. split; [exact Hend|].
    split; [exact Hc|]. split; [exact Hi|]. split; [exact Hsum|].
    vm_compute. reflexivity.
  - assert (exists row, DB.tests (db w) !! 2%positive = Some row /\
                        DB.t_ended row = true) as (row & Hrow & Hend)
      by (eexists; split; vm_compute; reflexivity).
    destruct (H _ _ Hrow Hend) as (c & i & Hc & Hi & Hsum).
    exists row, c, i. split; [exact Hrow|]. split; [exact Hend|].
    split; [exact Hc|]. split; [exact Hi|]. split; [exact Hsum|].
    vm_compute. reflexivity.
Defined.

(** C3 as stated fails when a result row cannot be written: an answer of
    101 letters does not fit the [VARCHAR(100)] column, the insert is
    rejected, and the answer is counted nevertheless. *)
Lemma long_answer_counted_not_persisted :
  let d := DB.add_user 7 DB.initialize_database in
  let answers :=
    [ {| a_text := repeat 97%N 101; a_rnd_word := 1; a_rnd_type := en_to_ru |} ]
  in
  let w := (quiz [] 7 0 en_to_ru answers (idle d)).2 in
  DB.tests (db w) !! 1%positive =
    Some {| DB.t_user := 7; DB.t_ended := true; DB.t_total := Some 1%Z;
            DB.t_correct := Some 0%Z; DB.t_incorrect := Some 1%Z |} /\
  persisted_results 1 w = 0%nat.
Proof. vm_compute. split; reflexivity. Qed.

(** The balance of the counters is kept by the whole answer handler, in
    every world: by the answer itself, by the next question, and by the
    end of the quiz when there is no next question. *)
Lemma test_answer_handler_balanced file user_id text rnd_word rnd_type w :
  answered (data w) = (correct (data w) + incorrect (data w))%Z ->
  let d' := data (test_answer_handler file user_id text rnd_word rnd_type w).2 in
  answered d' = (correct d' + incorrect d')%Z.
Proof.
  intros Hbal d'. subst d'.
  destruct (test_answer_handler _ _ _ _ _ w) as [[] w'] eqn:E. cbn [snd].
  unfold test_answer_handler, bind at 1, get_data in E.
  destruct (truth (test_in_progress (data w))) eqn:Hprog; cbn [negb] in E;
    [|injection E as <-; exact Hbal].
  destruct (test_correct_answer (data w)) as [expected|];
    [|injection E as <-; reflexivity].
  unfold bind at 1 in E.
  assert (Hresp : forall r w1,
            handle_test_response file user_id (PyStr.strip text) expected w
              = (r, w1) ->
            answered (data w1) = (correct (data w1) + incorrect (data w1))%Z
            /\ test_in_progress (data w1) = test_in_progress (data w)).
  { intros r w1. unfold handle_test_response, bind at 1, get_data.
    destruct (test_id (data w)) as [session|].
    - unfold bind, query, ret.
      pose proof (save_test_results_world session user_id
                    (default [] (current_word (data w)))
                    (default default_word (word_type (data w))) expected
                    (normalize_answer (PyStr.strip text))) as Hw.
      match goal with
      | |- context [_save_test_results _ _ _ _ _ _ ?ok w] =>
          specialize (Hw ok w); destruct (_save_test_results _ _ _ _ _ _ ok w)
            as [[] w2]
      end.
      cbn [snd] in Hw. intros [= <- <-]. rewrite Hw.
      unfold answered, correct, incorrect in *. cbn [data count_answer
        questions_answered correct_answers incorrect_answers test_in_progress
        default from_option id].
      split; [|reflexivity].
      match goal with |- context [if ?b then _ else _] => destruct b end; lia.
    - intros [= <- <-]. split; [exact Hbal|reflexivity]. }
  destruct (handle_test_response _ _ _ _ w) as [r w1].
  destruct (Hresp r w1 eq_refl) as [Hbal1 Hprog1].
  unfold bind at 1 in E.
  unfold start_learning_test, bind at 1, get_data in E.
  rewrite Hprog1, Hprog in E. cbn [negb] in E.
  unfold bind, query, update_data, ret, clear in E. cbn [negb] in E.
  destruct (all_words _ _ _) as [|first rest].
  - destruct (end_test_and_show_results user_id w1) as [results w2].
    injection E as <-. reflexivity.
  - destruct (choice rnd_word first rest) as [en ru].
    destruct rnd_type; cbv beta iota zeta in E; injection E as <-;
      exact Hbal1.
Qed.

End QuizFacts.

(* ===================================================================== *)
(** * Further properties of the code *)
(* ===================================================================== *)

(** ** Removing words *)

Module DBOpsFacts.
Import DB DBOps.

Example remove_word_example :
  let d := (add_user_word 7 (u "Cat") (u "Кот")
              (add_user 7 initialize_database)).2 in
  (remove_user_word 7 (u "CAT") d).1 = true /\
  user_words (remove_user_word 7 (u "CAT") d).2 = [].
Proof. vm_compute. split; reflexivity. Qed.


Lemma filter_both_none {A} (P : A -> Prop) `{!forall x, Decision (P x)}
    (l : list A) :
  filter P (filter (fun x => ~ P x) l) = [].
Proof.
  induction l as [|a l IH]; [reflexivity|].
  rewrite filter_cons. destruct (decide (~ P a)) as [Ha|Ha]; [|exact IH].
  rewrite filter_cons. destruct (decide (P a)); [contradiction|exact IH].
Qed.

Lemma filter_other_kept {A} (P Q : A -> Prop) `{!forall x, Decision (P x)}
    `{!forall x, Decision (Q x)} (l : list A) :
  (forall x, Q x -> ~ P x) ->
  filter Q (filter (fun x => ~ P x) l) = filter Q l.
Proof.
  intros HQ. induction l as [|a l IH]; [reflexivity|].
  rewrite !filter_cons.
  destruct (decide (~ P a)) as [Ha|Ha].
  - rewrite filter_cons. destruct (decide (Q a)); now rewrite IH.
  - destruct (decide (Q a)) as [Hq|Hq]; [|exact IH].
    exfalso. apply Ha. now apply HQ.
Qed.

Lemma add_user_word_true user_id en ru db :
  (add_user_word user_id en ru db).1 = true ->
  exists k v,
    varchar 255 (PyStr.lower en) = Some k /\
    varchar 255 (PyStr.lower ru) = Some v /\
    count_user_word user_id k db = 0%nat /\
    user_id ∈ users db /\
    (add_user_word user_id en ru db).2 =
      {| users := users db;
         default_words := default_words db;
         user_words := user_words db ++
           [{| uw_user := user_id; uw_english := k; uw_russian := v |}];
         tests := tests db;
         tests_seq := tests_seq db;
         test_results := test_results db;
         leaderboard := leaderboard db |}.
Proof.
  unfold add_user_word.
  destruct (varchar 255 (PyStr.lower en)) as [k|]; [|discriminate].
  destruct (varchar 255 (PyStr.lower ru)) as [v|]; [|discriminate].
  destruct (has_user_word user_id k db) eqn:Hh; [discriminate|].
  case_bool_decide as Hu; [|discriminate].
  intros _. exists k, v. repeat split; try assumption.
  now apply DBFacts.has_user_word_zero.
Qed.



(** A word that is longer only by spaces is stored without them, and
    removing the word as it was given finds no row. *)
Example remove_after_cut_add :
  let db := add_user 7 initialize_database in
  let en := repeat 97%N 255 ++ [32]%N in
  let db' := (add_user_word 7 en (u "кот") db).2 in
  (add_user_word 7 en (u "кот") db).1 = true /\
  (remove_user_word 7 en db').1 = false /\
  (remove_user_word 7 en db').2 = db'.
Proof. vm_compute. repeat split; reflexivity. Qed.

Lemma user_words_of_filter (P : user_word -> Prop)
    `{!forall w, Decision (P w)} (R : str * str -> Prop)
    `{!forall p, Decision (R p)} (user_id : Z) (l : list user_word) :
  (forall w, uw_user w = user_id -> (P w <-> R (uw_english w, uw_russian w))) ->
  map (fun w => (uw_english w, uw_russian w))
      (rev (filter (fun w => uw_user w = user_id) (filter P l))) =
  filter R (map (fun w => (uw_english w, uw_russian w))
                (rev (filter (fun w => uw_user w = user_id) l))).
Proof.
  intros HPR. induction l as [|w l IH]; [reflexivity|].
  rewrite (filter_cons P), (filter_cons (fun w => uw_user w = user_id) w l).
  destruct (decide (uw_user w = user_id)) as [Hu|Hu].
  - cbn [rev]. rewrite map_app, filter_app, <- IH. cbn [map].
    rewrite filter_cons, filter_nil.
    destruct (decide (P w)) as [Hp|Hp].
    + rewrite filter_cons. destruct (decide (uw_user w = user_id)); [|contradiction].
      destruct (decide (R _)) as [_|Hr]; [|exfalso; apply Hr; now apply HPR].
      cbn [rev]. now rewrite map_app.
    + destruct (decide (R _)) as [Hr|_]; [exfalso; apply Hp; now apply HPR|].
      now rewrite app_nil_r.
  - destruct (decide (P w)); [|exact IH].
    rewrite filter_cons. destruct (decide (uw_user w = user_id)); [contradiction|].
    exact IH.
Qed.

(** The same happens to a word of 129 characters that lowering makes 256
    characters long, the last two of them spaces. *)
Example remove_after_lengthened_add :
  let db := add_user 7 initialize_database in
  let en := repeat 304%N 127 ++ [32; 32]%N in
  let db' := (add_user_word 7 en (u "кот") db).2 in
  length en = 129%nat /\
  (add_user_word 7 en (u "кот") db).1 = true /\
  map (fun w => length (uw_english w)) (user_words db') = [255%nat] /\
  (remove_user_word 7 en db').1 = false /\
  (remove_user_word 7 en db').2 = db'.
Proof. vm_compute. repeat split; reflexivity. Qed.

(** The lists read back after a removal. *)
Lemma remove_user_word_lists (db : Database) (user_id : Z) (en : str) :
  let r := remove_user_word user_id en db in
  get_user_words user_id r.2 =
    filter (fun p => p.1 <> PyStr.lower en) (get_user_words user_id db) /\
  (forall other, other <> user_id ->
     get_user_words other r.2 = get_user_words other db).
Proof.
  intros r. subst r. unfold remove_user_word. cbn [snd]. split.
  - unfold get_user_words. cbn [user_words].
    apply (user_words_of_filter _ (fun p => p.1 <> PyStr.lower en)).
    intros w Hu. cbn [fst]. tauto.
  - intros other Hne. unfold get_user_words. cbn [user_words].
    rewrite (user_words_of_filter _ (fun _ => True) other).
    + induction (map _ _) as [|x l IH]; [reflexivity|].
      rewrite filter_cons. destruct (decide True); [|tauto]. now rewrite IH.
    + intros w Hu. split; [tauto|]. intros _ [Hw _]. congruence.
Qed.

(** What a removal does. The rows left are the rows there were, except
    those of the user for the lowered key: read back, the user's list is
    the former list without the pairs of that key, in the same order and
    with the same translations, and the list of every other user is as
    it was. No other table is touched, and on a table that satisfies the
    uniqueness constraint the answer is True exactly when there was a
    row to delete. *)
Theorem remove_user_word_effect (db : Database) (user_id : Z) (en : str) :
  unique_user_words db ->
  let r := remove_user_word user_id en db in
  (forall w, w ∈ user_words r.2 <->
     w ∈ user_words db /\
     ~ (uw_user w = user_id /\ uw_english w = PyStr.lower en)) /\
  get_user_words user_id r.2 =
    filter (fun p => p.1 <> PyStr.lower en) (get_user_words user_id db) /\
  (forall other, other <> user_id ->
     get_user_words other r.2 = get_user_words other db) /\
  (r.1 = true <-> has_user_word user_id (PyStr.lower en) db = true) /\
  users r.2 = users db /\ default_words r.2 = default_words db /\
  tests r.2 = tests db /\ tests_seq r.2 = tests_seq db /\
  test_results r.2 = test_results db /\
  leaderboard r.2 = leaderboard db.
Proof.
  intros U r. subst r. unfold remove_user_word. cbn [fst snd].
  cbn [user_words users default_words tests tests_seq test_results
       leaderboard].
  split; [|split; [|split; [|split; [|repeat split; reflexivity]]]].
  - intros w. rewrite list_elem_of_filter. tauto.
  - apply (remove_user_word_lists db user_id en).
  - apply (remove_user_word_lists db user_id en).
  - rewrite DBFacts.has_user_word_count. unfold count_user_word. split.
    + intros H. destruct (length _); [discriminate|lia].
    + intros H.
      specialize (U user_id (PyStr.lower en)). unfold count_user_word in *.
      assert (length (filter (fun w => uw_user w = user_id /\
                                       uw_english w = PyStr.lower en)
                             (user_words db)) = 1%nat) as -> by lia.
      reflexivity.
Qed.

Lemma remove_user_word_effect_witness :
  let db := (add_user_word 7 (u "dog") (u "собака")
               (add_user_word 7 (u "cat") (u "кот")
                  (add_user 7 initialize_database)).2).2 in
  get_user_words 7 (remove_user_word 7 (u "Cat") db).2 = [(u "dog", u "собака")]
  /\ (remove_user_word 7 (u "Cat") db).1 = true.
Proof.
  intros db.
  destruct (remove_user_word_effect db 7 (u "Cat")) as (_ & H1 & _ & H2 & _).
  - intros user' key. unfold count_user_word. vm_compute user_words.
    rewrite !filter_cons, filter_nil.
    repeat destruct (decide _) as [[_ ?]|?]; subst; cbn; try lia; discriminate.
  - split; [rewrite H1; vm_compute; reflexivity|]. apply H2. vm_compute.
    reflexivity.
Defined.



(** The uniqueness constraint of [user_words] is an invariant of the two
    operations that write the table. *)
Theorem unique_user_words_kept (db : Database) (user_id : Z) (en ru : str) :
  unique_user_words db ->
  unique_user_words (add_user_word user_id en ru db).2 /\
  unique_user_words (remove_user_word user_id en db).2.
Proof.
  intros U. split; [now apply DBFacts.add_user_word_unique|].
  intros user' key. unfold count_user_word, remove_user_word.
  cbn [snd user_words].
  destruct (decide ((user', key) = (user_id, PyStr.lower en))) as [[= -> ->]|Hne].
  - rewrite filter_both_none. cbn. lia.
  - rewrite filter_other_kept; [apply (U user' key)|].
    intros w [<- <-] [Hu He]. apply Hne. now rewrite Hu, He.
Qed.

Lemma unique_user_words_kept_witness :
  unique_user_words
    (add_user_word 7 (u "cat") (u "кот") (add_user 7 initialize_database)).2.
Proof.
  apply (unique_user_words_kept (add_user 7 initialize_database) 7
           (u "cat") (u "кот")).
  intros user' key. vm_compute. lia.
Defined.

(** The list of a user is newest first: a word that is added becomes the
    head of the user's list, with both sides lowered (for words whose
    lowered forms are at most 255 characters long, so that the columns
    hold the whole of them), and the lists of the other users stay as
    they are. *)
Theorem added_word_is_first (db : Database) (user_id : Z) (en ru : str) :
  (add_user_word user_id en ru db).1 = true ->
  (length (PyStr.lower en) <= 255)%nat ->
  (length (PyStr.lower ru) <= 255)%nat ->
  let db' := (add_user_word user_id en ru db).2 in
  get_user_words user_id db' =
    (PyStr.lower en, PyStr.lower ru) :: get_user_words user_id db /\
  (forall other, other <> user_id ->
     get_user_words other db' = get_user_words other db).
Proof.
  intros Hadd Hen Hru db'. subst db'.
  destruct (add_user_word_true _ _ _ _ Hadd) as (k & v & Hk & Hv & _ & _ & ->).
  apply DBFacts.varchar_short in Hk; [|exact Hen].
  apply DBFacts.varchar_short in Hv; [|exact Hru]. subst k v.
  unfold get_user_words. cbn [user_words]. split.
  - rewrite filter_app, filter_cons, filter_nil.
    destruct (decide _) as [_|Hn]; [|now exfalso].
    rewrite rev_app_distr. reflexivity.
  - intros other Hne. rewrite filter_app, filter_cons, filter_nil.
    destruct (decide _) as [He|_]; [cbn in He; congruence|].
    now rewrite app_nil_r.
Qed.

Lemma added_word_is_first_witness :
  let db := (add_user_word 7 (u "cat") (u "кот")
               (add_user 7 initialize_database)).2 in
  get_user_words 7 (add_user_word 7 (u "Dog") (u "Собака") db).2 =
  [(u "dog", u "собака"); (u "cat", u "кот")].
Proof.
  intros db.
  destruct (added_word_is_first db 7 (u "Dog") (u "Собака")) as [H _].
  - vm_compute. reflexivity.
  - vm_compute. lia.
  - vm_compute. lia.
  - rewrite H. vm_compute. reflexivity.
Defined.

(** A translation that is longer only by spaces is stored without them:
    the head of the list is then not the lowered pair. *)
Example added_word_cut :
  let db := add_user 7 initialize_database in
  let ru := repeat 1072%N 255 ++ [32]%N in
  (add_user_word 7 (u "a") ru db).1 = true /\
  get_user_words 7 (add_user_word 7 (u "a") ru db).2 =
    [(u "a", repeat 1072%N 255)].
Proof. vm_compute. split; reflexivity. Qed.

End DBOpsFacts.

(** ** The dictionary *)

Module DictionaryFacts.
Import Translator.

Lemma load_dictionary_snoc file entry :
  load_dictionary (file ++ [entry]) = load_entry (load_dictionary file) entry.
Proof. unfold load_dictionary. now rewrite fold_left_app. Qed.

Lemma load_entry_lookup d entry k :
  load_entry d entry !! k =
  if decide (en_of entry = k) then Some (ru_of entry)
  else if decide (ru_of entry = k) then Some (en_of entry)
  else d !! k.
Proof.
  unfold load_entry. rewrite !lookup_insert.
  destruct (decide (en_of entry = k)); [reflexivity|].
  destruct (decide (ru_of entry = k)); reflexivity.
Qed.

Lemma load_dictionary_lookup (file : xml_entries) (key : str) :
  (forall t, load_dictionary file !! key = Some t ->
     exists entry, entry ∈ file /\
       ((en_of entry = key /\ ru_of entry = t) \/
        (ru_of entry = key /\ en_of entry = t))) /\
  (load_dictionary file !! key = None <->
   forall entry, entry ∈ file -> ~ mentions key entry).
Proof.
  induction file as [|entry file IH] using rev_ind.
  - split.
    + intros t H. unfold load_dictionary in H. cbn in H.
      rewrite lookup_empty in H. discriminate.
    + split; [intros _ entry H; now apply elem_of_nil in H|reflexivity].
  - rewrite load_dictionary_snoc, load_entry_lookup.
    destruct IH as [IHs IHn]. split.
    + intros t. destruct (decide (en_of entry = key)) as [He|He].
      * intros [= <-]. exists entry. split; [apply elem_of_app; right;
          now apply list_elem_of_singleton|now left].
      * destruct (decide (ru_of entry = key)) as [Hr|Hr].
        -- intros [= <-]. exists entry. split; [apply elem_of_app; right;
             now apply list_elem_of_singleton|now right].
        -- intros H. destruct (IHs t H) as (e & Hin & Hcase).
           exists e. split; [apply elem_of_app; now left|exact Hcase].
    + destruct (decide (en_of entry = key)) as [He|He];
        [|destruct (decide (ru_of entry = key)) as [Hr|Hr]].
      * split; [discriminate|]. intros H. exfalso.
        apply (H entry); [apply elem_of_app; right;
                          now apply list_elem_of_singleton|now left].
      * split; [discriminate|]. intros H. exfalso.
        apply (H entry); [apply elem_of_app; right;
                          now apply list_elem_of_singleton|now right].
      * rewrite IHn. split.
        -- intros H e Hin. apply elem_of_app in Hin as [Hin|Hin];
             [now apply H|].
           apply list_elem_of_singleton in Hin. subst e. now intros [?|?].
        -- intros H e Hin. apply H. apply elem_of_app. now left.
Qed.

(** Lookup never invents a translation, and "not found" means absent:
    a word that is found is a word of some entry of the file (after trim
    and lower case) and its translation is the other word of that entry;
    a word is not found exactly when no entry of the file has it. *)
Theorem translate_word_sound (file : xml_entries) (word : str) :
  let key := PyStr.lower (PyStr.strip word) in
  (forall t, translate_word file word = Some t ->
     exists entry, entry ∈ file /\
       ((en_of entry = key /\ ru_of entry = t) \/
        (ru_of entry = key /\ en_of entry = t))) /\
  (translate_word file word = None <->
   forall entry, entry ∈ file -> ~ mentions key entry).
Proof. intros key. apply load_dictionary_lookup. Qed.

(** Every word pair the quiz takes from the dictionary file is trimmed,
    lower case and without an empty side, and both of its words are
    known to the dictionary lookup. *)
Theorem xml_words_in_dictionary (file : xml_entries) (en ru : str) :
  (en, ru) ∈ load_words_from_xml file ->
  en <> [] /\ ru <> [] /\
  PyStr.lower (PyStr.strip en) = en /\ PyStr.lower (PyStr.strip ru) = ru /\
  is_in_dictionary file en = true /\ is_in_dictionary file ru = true.
Proof.
  intros Hin. unfold load_words_from_xml in Hin.
  apply list_elem_of_omap in Hin as (entry & Hentry & Hsome).
  destruct (PyStr.truthy (en_of entry) && PyStr.truthy (ru_of entry)) eqn:Ht;
    [|discriminate].
  injection Hsome as <- <-.
  apply andb_true_iff in Ht as [Hen Hru].
  apply QuizFacts.truthy_true in Hen, Hru.
  assert (Hfe : PyStr.lower (PyStr.strip (en_of entry)) = en_of entry)
    by (unfold en_of; apply PyStrFacts.lower_strip_fixed).
  assert (Hfr : PyStr.lower (PyStr.strip (ru_of entry)) = ru_of entry)
    by (unfold ru_of; apply PyStrFacts.lower_strip_fixed).
  repeat split; try assumption.
  - apply not_false_iff_true. intros Hno.
    unfold is_in_dictionary in Hno. apply bool_decide_eq_false in Hno.
    apply Hno, not_eq_None_Some. intros Hnone.
    unfold translate_word in Hnone. rewrite Hfe in Hnone.
    destruct (load_dictionary_lookup file (en_of entry)) as [_ [Hn _]].
    apply (Hn Hnone entry Hentry). now left.
  - apply not_false_iff_true. intros Hno.
    unfold is_in_dictionary in Hno. apply bool_decide_eq_false in Hno.
    apply Hno, not_eq_None_Some. intros Hnone.
    unfold translate_word in Hnone. rewrite Hfr in Hnone.
    destruct (load_dictionary_lookup file (ru_of entry)) as [_ [Hn _]].
    apply (Hn Hnone entry Hentry). now right.
Qed.

Lemma xml_words_in_dictionary_witness :
  Translator.is_in_dictionary [(u " Hello", u "Привет ")] (u "привет") = true.
Proof.
  apply (xml_words_in_dictionary [(u " Hello", u "Привет ")]
           (u "hello") (u "привет")).
  apply list_elem_of_In. vm_compute. left. reflexivity.
Defined.

End DictionaryFacts.

(** ** What the quiz handlers keep *)

Module KeepFacts.

Section keeps.
Variable P : DB.Database -> Prop.

Lemma keeps_ret {A} (a : A) : keeps P (ret a).
Proof. intros w H. exact H. Qed.

Lemma keeps_bind {A B} (m : M A) (k : A -> M B) :
  keeps P m -> (forall a, keeps P (k a)) -> keeps P (bind m k).
Proof.
  intros Hm Hk w H. unfold bind. specialize (Hm w H).
  destruct (m w) as [a w1]. now apply Hk.
Qed.

Lemma keeps_get_data : keeps P get_data.
Proof. intros w H. exact H. Qed.

Lemma keeps_update_data f : keeps P (update_data f).
Proof. intros w H. exact H. Qed.

Lemma keeps_clear : keeps P clear.
Proof. intros w H. exact H. Qed.

Lemma keeps_set_state s : keeps P (set_state s).
Proof. intros w H. exact H. Qed.

Lemma keeps_query {A} (f : DB.Database -> A) : keeps P (query f).
Proof. intros w H. exact H. Qed.

Lemma keeps_call {A} (f : DB.Database -> A * DB.Database) :
  (forall d, P d -> P (f d).2) -> keeps P (call f).
Proof.
  intros Hf w H. unfold call. specialize (Hf (db w) H).
  destruct (f (db w)) as [a d]. exact Hf.
Qed.

Hypothesis closed : quiz_closed P.

(** Breaks a coroutine into its steps. *)
Ltac keeps_steps :=
  repeat first
    [ apply keeps_ret | apply keeps_get_data | apply keeps_update_data
    | apply keeps_clear | apply keeps_set_state | apply keeps_query
    | apply keeps_bind; [|intros ?]
    | apply keeps_call; intros ? ?; cbn [snd];
      first [ now apply (closed_create P closed)
            | now apply (closed_result P closed)
            | now apply (closed_update P closed)
            | now apply (closed_leaderboard P closed)
            | assumption ]
    | match goal with
      | |- keeps _ (if ?b then _ else _) => destruct b
      | |- keeps _ (match ?x with _ => _ end) => destruct x
      | |- keeps _ (let (_, _) := ?x in _) => destruct x
      end ].

Lemma keeps_start_learning_test file user_id rnd_word rnd_type :
  keeps P (start_learning_test file user_id rnd_word rnd_type).
Proof. unfold start_learning_test. keeps_steps. Qed.

Lemma keeps_save_test_results session user_id word wt expected given ok :
  keeps P (_save_test_results session user_id word wt expected given ok).
Proof. unfold _save_test_results, DB.update_user_progress. keeps_steps. Qed.

Lemma keeps_handle_test_response file user_id given expected :
  keeps P (handle_test_response file user_id given expected).
Proof.
  unfold handle_test_response. keeps_steps.
Qed.

Lemma keeps_end_test_and_show_results user_id :
  keeps P (end_test_and_show_results user_id).
Proof. unfold end_test_and_show_results. keeps_steps. Qed.

Lemma keeps_start_test_handler file user_id rnd_word rnd_type :
  keeps P (start_test_handler file user_id rnd_word rnd_type).
Proof.
  unfold start_test_handler.
  apply keeps_bind; [apply keeps_start_learning_test|intros ?]. keeps_steps.
Qed.

Lemma keeps_test_answer_handler file user_id text rnd_word rnd_type :
  keeps P (test_answer_handler file user_id text rnd_word rnd_type).
Proof.
  unfold test_answer_handler.
  apply keeps_bind; [apply keeps_get_data|intros d].
  destruct (negb _); [apply keeps_ret|].
  destruct (test_correct_answer d); [|apply keeps_clear].
  apply keeps_bind; [apply keeps_handle_test_response|intros ?].
  apply keeps_bind; [apply keeps_start_learning_test|intros asked].
  destruct asked as [[? ?]|]; [apply keeps_update_data|].
  apply keeps_bind; [apply keeps_end_test_and_show_results|intros ?].
  apply keeps_clear.
Qed.

Lemma keeps_end_test_handler user_id : keeps P (end_test_handler user_id).
Proof.
  unfold end_test_handler.
  apply keeps_bind; [apply keeps_end_test_and_show_results|intros ?].
  keeps_steps.
Qed.

Lemma keeps_cancel_handler user_id : keeps P (cancel_handler user_id).
Proof. unfold cancel_handler. keeps_steps. Qed.

Lemma keeps_answer_all file user_id answers :
  keeps P (answer_all file user_id answers).
Proof.
  induction answers as [|a rest IH]; cbn [answer_all]; [apply keeps_ret|].
  apply keeps_bind; [apply keeps_test_answer_handler|intros ?]. exact IH.
Qed.

Lemma keeps_quiz file user_id rnd_word rnd_type answers :
  keeps P (quiz file user_id rnd_word rnd_type answers).
Proof.
  unfold quiz.
  apply keeps_bind; [apply keeps_start_test_handler|intros ?].
  apply keeps_bind; [apply keeps_answer_all|intros ?].
  apply keeps_end_test_handler.
Qed.

End keeps.

End KeepFacts.

Module FrameFacts.
Import KeepFacts.

Lemma words_closed U UW DW :
  quiz_closed (fun d => DB.users d = U /\ DB.user_words d = UW /\
                        DB.default_words d = DW).
Proof.
  split.
  - intros user_id d H. unfold DB.create_test_session.
    case_bool_decide; exact H.
  - intros session word expected given ok d H. unfold DB.add_test_result.
    repeat (match goal with
            | |- context [match ?x with _ => _ end] => destruct x
            end); exact H.
  - intros session n c i d H. exact H.
  - intros user_id c i d H. unfold DB.update_leaderboard.
    case_bool_decide; exact H.
Qed.

Lemma prefix_closed R :
  quiz_closed (fun d => R `prefix_of` DB.test_results d).
Proof.
  split.
  - intros user_id d H. unfold DB.create_test_session.
    case_bool_decide; exact H.
  - intros session word expected given ok d H. unfold DB.add_test_result.
    repeat (match goal with
            | |- context [match ?x with _ => _ end] => destruct x
            end); try exact H.
    cbn [snd DB.test_results]. now apply prefix_app_r.
  - intros session n c i d H. exact H.
  - intros user_id c i d H. unfold DB.update_leaderboard.
    case_bool_decide; exact H.
Qed.

Lemma below_seq_closed : quiz_closed sessions_below_seq.
Proof.
  split.
  - intros user_id d [Ht Hr]. unfold DB.create_test_session.
    case_bool_decide; split; cbn [snd DB.tests DB.tests_seq DB.test_results].
    + intros i Hi. rewrite lookup_insert in Hi.
      destruct (decide (DB.tests_seq d = i)) as [<-|_]; [lia|].
      specialize (Ht i Hi). lia.
    + intros r Hin. specialize (Hr r Hin). lia.
    + intros i Hi. specialize (Ht i Hi). lia.
    + intros r Hin. specialize (Hr r Hin). lia.
  - intros session word expected given ok d [Ht Hr]. unfold DB.add_test_result.
    destruct (DB.varchar 100 word); [|now split].
    destruct (DB.varchar 100 expected); [|now split].
    destruct (DB.varchar 100 given); [|now split].
    case_bool_decide as Hs; [|now split].
    split; cbn [snd DB.tests DB.tests_seq DB.test_results]; [exact Ht|].
    intros r Hin. apply elem_of_app in Hin as [Hin|Hin]; [now apply Hr|].
    apply list_elem_of_singleton in Hin. subst r. now apply Ht.
  - intros session n c i d [Ht Hr]. unfold DB.update_test_session.
    split; cbn [snd DB.tests DB.tests_seq DB.test_results]; [|exact Hr].
    intros j Hj. apply Ht. now apply lookup_alter_is_Some in Hj.
  - intros user_id c i d H. unfold DB.update_leaderboard.
    case_bool_decide; exact H.
Qed.

(** A quiz never writes the word lists or the users: after the start
    button, an answer, the end button, the back button, and after a
    whole quiz, the three tables are what they were. *)
Theorem quiz_keeps_words (file : xml_entries) (user_id : Z) (rnd_word : nat)
    (rnd_type : QuestionType) (text : str) (answers : list answer)
    (w : World) :
  let same w' :=
    DB.users (db w') = DB.users (db w) /\
    DB.user_words (db w') = DB.user_words (db w) /\
    DB.default_words (db w') = DB.default_words (db w) in
  same (start_test_handler file user_id rnd_word rnd_type w).2 /\
  same (test_answer_handler file user_id text rnd_word rnd_type w).2 /\
  same (end_test_handler user_id w).2 /\
  same (cancel_handler user_id w).2 /\
  same (quiz file user_id rnd_word rnd_type answers w).2.
Proof.
  intros same. subst same. cbv beta.
  pose proof (words_closed (DB.users (db w)) (DB.user_words (db w))
                (DB.default_words (db w))) as C.
  repeat split;
    first [ apply (keeps_start_test_handler _ C)
          | apply (keeps_test_answer_handler _ C)
          | apply (keeps_end_test_handler _ C)
          | apply (keeps_cancel_handler _ C)
          | apply (keeps_quiz _ C) ]; auto.
Qed.

(** Result rows are append-only: no quiz handler changes or removes a
    row of [test_results]; the table after the handler starts with the
    table before it. *)
Theorem result_rows_append_only (file : xml_entries) (user_id : Z)
    (rnd_word : nat) (rnd_type : QuestionType) (text : str)
    (answers : list answer) (w : World) :
  let grown w' := DB.test_results (db w) `prefix_of` DB.test_results (db w') in
  grown (start_test_handler file user_id rnd_word rnd_type w).2 /\
  grown (test_answer_handler file user_id text rnd_word rnd_type w).2 /\
  grown (end_test_handler user_id w).2 /\
  grown (cancel_handler user_id w).2 /\
  grown (quiz file user_id rnd_word rnd_type answers w).2.
Proof.
  intros grown. subst grown. cbv beta.
  pose proof (prefix_closed (DB.test_results (db w))) as C.
  repeat split;
    first [ apply (keeps_start_test_handler _ C)
          | apply (keeps_test_answer_handler _ C)
          | apply (keeps_end_test_handler _ C)
          | apply (keeps_cancel_handler _ C)
          | apply (keeps_quiz _ C) ]; reflexivity.
Qed.

(** Session ids stay below the sequence: a store whose sessions and
    result rows are below the next value of the [tests] sequence is so
    again after every quiz handler, so that a new session never finds
    rows of an earlier one under its id. *)
Theorem sessions_below_seq_kept (file : xml_entries) (user_id : Z)
    (rnd_word : nat) (rnd_type : QuestionType) (text : str)
    (answers : list answer) (w : World) :
  sessions_below_seq (db w) ->
  sessions_below_seq (db (start_test_handler file user_id rnd_word rnd_type w).2) /\
  sessions_below_seq
    (db (test_answer_handler file user_id text rnd_word rnd_type w).2) /\
  sessions_below_seq (db (end_test_handler user_id w).2) /\
  sessions_below_seq (db (cancel_handler user_id w).2) /\
  sessions_below_seq (db (quiz file user_id rnd_word rnd_type answers w).2).
Proof.
  intros H. pose proof below_seq_closed as C.
  repeat split;
    first [ apply (keeps_start_test_handler _ C _ _ _ _ w H)
          | apply (keeps_test_answer_handler _ C _ _ _ _ _ w H)
          | apply (keeps_end_test_handler _ C _ w H)
          | apply (keeps_cancel_handler _ C _ w H)
          | apply (keeps_quiz _ C _ _ _ _ _ w H) ].
Qed.

Lemma sessions_below_seq_kept_witness :
  let w := idle (DB.add_user 7 DB.initialize_database) in
  sessions_below_seq
    (db (quiz [] 7 0 en_to_ru
           [{| a_text := u "привет"; a_rnd_word := 3; a_rnd_type := ru_to_en |}]
           w).2).
Proof.
  intros w.
  apply (sessions_below_seq_kept [] 7 0 en_to_ru (u "") _ w).
  split.
  - intros j [x Hx]. vm_compute in Hx. discriminate.
  - intros r Hr. apply list_elem_of_In in Hr. vm_compute in Hr. contradiction.
Defined.

End FrameFacts.

(** ** Sessions with answers of any length *)

Module RunFacts.
Import QuizFacts.

Lemma add_test_result_frame session word expected given ok d session' :
  let d' := (DB.add_test_result session word expected given ok d).2 in
  DB.users d' = DB.users d /\ DB.user_words d' = DB.user_words d /\
  DB.default_words d' = DB.default_words d /\ DB.tests d' = DB.tests d /\
  DB.leaderboard d' = DB.leaderboard d /\
  (length (DB.get_test_results session' d') <=
   S (length (DB.get_test_results session' d)))%nat.
Proof.
  unfold DB.add_test_result.
  repeat (match goal with
          | |- context [match ?x with _ => _ end] => destruct x
          end); cbn [snd]; repeat split; try lia.
  unfold DB.get_test_results. cbn [DB.test_results].
  rewrite filter_app, length_app, filter_cons, filter_nil.
  destruct (decide _); cbn; lia.
Qed.

Lemma test_answer_handler_running file user_id d0 session n w text rnd_word
    rnd_type :
  running user_id d0 session n w ->
  quiz_pool file user_id d0 <> [] ->
  running user_id d0 session (S n)
    (test_answer_handler file user_id text rnd_word rnd_type w).2.
Proof.
  intros [Hid Hprog Hans Hbal [Hc Hi] Hus Huw Hdw Hlb Hts Hres [expected Hexp]]
         Hpool.
  unfold test_answer_handler, bind at 1, get_data.
  rewrite Hprog, Hexp. cbn [truth default from_option id negb].
  unfold bind at 1.
  destruct (handle_test_response_world file user_id (PyStr.strip text)
              expected w session Hid) as [ok ->].
  rewrite save_test_results_world.
  destruct (add_test_result_frame session
              (default [] (current_word (data w))) expected
              (normalize_answer (PyStr.strip text)) ok (db w) session)
    as (Fus & Fuw & Fdw & Fts & Flb & Fres).
  set (d1 := (DB.add_test_result _ _ _ _ _ (db w)).2) in *.
  cbn [snd]. unfold bind at 1.
  match goal with
  | |- context [start_learning_test _ _ _ _ ?w1] => set (w1' := w1)
  end.
  assert (Hpool1 : quiz_pool file user_id (db w1') = quiz_pool file user_id d0)
    by (apply quiz_pool_same_words; subst w1'; cbn [db]; congruence).
  destruct (start_learning_test_next file user_id rnd_word rnd_type w1')
    as (en & ru & question & wt & Hin & Hstart).
  { subst w1'. cbn. now rewrite Hprog. }
  { now rewrite Hpool1. }
  cbn zeta in Hstart. rewrite Hstart. clear Hstart.
  unfold update_data. subst w1'. cbn [snd db form data].
  split; cbn [db data form test_id test_in_progress set_test_correct_answer
                ask count_answer current_word test_correct_answer];
    try congruence.
  - unfold answered in *. cbn. lia.
  - unfold correct, incorrect in *. cbn. destruct ok; lia.
  - unfold correct, incorrect in *. cbn. destruct ok; lia.
  - unfold persisted_results in *. cbn [db]. lia.
  - eauto.
Qed.

Lemma start_test_handler_running file user_id d rnd_word rnd_type :
  sessions_below_seq d ->
  user_id ∈ DB.users d ->
  quiz_pool file user_id d <> [] ->
  running user_id d (DB.tests_seq d) 0
    (start_test_handler file user_id rnd_word rnd_type (idle d)).2.
Proof.
  intros [_ Hbelow] Hreg Hpool.
  unfold start_test_handler, bind.
  rewrite start_learning_test_fresh by (try reflexivity; exact Hreg).
  match goal with
  | |- context [start_learning_test _ _ _ _ ?w1] => set (w1' := w1)
  end.
  assert (Hcreate : db w1' =
            {| DB.users := DB.users d;
               DB.default_words := DB.default_words d;
               DB.user_words := DB.user_words d;
               DB.tests := <[DB.tests_seq d := DB.new_session user_id]>
                             (DB.tests d);
               DB.tests_seq := Pos.succ (DB.tests_seq d);
               DB.test_results := DB.test_results d;
               DB.leaderboard := DB.leaderboard d |}).
  { subst w1'. cbn [db idle]. unfold DB.create_test_session.
    now rewrite bool_decide_eq_true_2. }
  assert (Hpool1 : quiz_pool file user_id (db w1') = quiz_pool file user_id d)
    by (apply quiz_pool_same_words; rewrite Hcreate; reflexivity).
  destruct (start_learning_test_next file user_id rnd_word rnd_type w1')
    as (en & ru & question & wt & Hin & Hstart).
  { reflexivity. }
  { now rewrite Hpool1. }
  cbn zeta in Hstart. rewrite Hstart. clear Hstart.
  unfold set_state, ret. cbn [snd db form data]. rewrite Hcreate.
  subst w1'. cbn [data idle].
  split; cbn [db data form test_id test_in_progress ask begin_test
                current_word test_correct_answer DB.users DB.leaderboard
                DB.user_words DB.default_words DB.tests]; try reflexivity.
  - split; reflexivity.
  - unfold persisted_results, DB.get_test_results. cbn [db DB.test_results].
    destruct (filter _ (DB.test_results d)) as [|r rs] eqn:E; [reflexivity|].
    assert (Hr : r ∈ filter (fun r => DB.r_test r = DB.tests_seq d)
                            (DB.test_results d))
      by (rewrite E; apply elem_of_cons; now left).
    apply list_elem_of_filter in Hr as [Heq Hr]. apply Hbelow in Hr. lia.
  - eauto.
Qed.

Lemma answer_all_running file user_id d0 session answers :
  quiz_pool file user_id d0 <> [] ->
  forall n w,
    running user_id d0 session n w ->
    running user_id d0 session (n + length answers)
      (answer_all file user_id answers w).2.
Proof.
  intros Hpool. induction answers as [|a rest IH]; intros n w Hw.
  - cbn. now rewrite Nat.add_0_r.
  - cbn [answer_all length]. unfold bind.
    pose proof (test_answer_handler_running file user_id d0 session n w
                  (a_text a) (a_rnd_word a) (a_rnd_type a) Hw Hpool) as Hs.
    destruct (test_answer_handler _ _ _ _ _ w) as [[] w1]. cbn [snd] in Hs.
    replace (n + S (length rest))%nat with (S n + length rest)%nat by lia.
    now apply IH.
Qed.

Lemma avg_score_not_null user_id session c i n d :
  DB.tests d !! session = Some (ended_session user_id n c i) ->
  DB.avg_score_is_null user_id d = false.
Proof.
  intros Hrow. unfold DB.avg_score_is_null. apply bool_decide_eq_false_2.
  intros Hall. specialize (Hall session _ Hrow eq_refl). discriminate.
Qed.

(** The end button in a running session. *)
Lemma end_test_handler_running user_id d0 session n w :
  running user_id d0 session n w ->
  user_id ∈ DB.users d0 ->
  let c := correct (data w) in
  let i := incorrect (data w) in
  let r := end_test_handler user_id w in
  DB.tests (db r.2) =
    <[session := ended_session user_id (Z.of_nat n) c i]> (DB.tests d0) /\
  persisted_results session r.2 = persisted_results session w /\
  data r.2 = no_data /\ form r.2 = None /\
  r.1 = match percentage c (Z.of_nat n) with
        | PyNum.Ok p => Some p
        | PyNum.Raise _ => None
        end /\
  DB.leaderboard (db r.2) =
    match percentage c (Z.of_nat n) with
    | PyNum.Ok p =>
        <[user_id := one_more_test (DB.leaderboard d0 !! user_id) c i]>
          (DB.leaderboard d0)
    | PyNum.Raise _ => DB.leaderboard d0
    end.
Proof.
  intros [Hid Hprog Hans Hbal _ Hus Huw Hdw Hlb Hts Hres _] Hreg c i r.
  subst r c i.
  unfold end_test_handler, end_test_and_show_results, bind, get_data, call,
    query, clear, ret.
  rewrite Hid. unfold DB.update_test_session. cbn [db form data].
  fold (answered (data w)) (correct (data w)) (incorrect (data w)).
  rewrite Hans, Hts, alter_insert_eq.
  fold (ended_session user_id (Z.of_nat n) (correct (data w))
          (incorrect (data w))).
  rewrite (avg_score_not_null user_id session (correct (data w))
             (incorrect (data w)) (Z.of_nat n))
    by (cbn [DB.tests]; apply lookup_insert_eq).
  unfold persisted_results, DB.get_test_results.
  destruct (percentage _ _) as [p|e];
    cbn [fst snd db data form DB.tests DB.test_results DB.leaderboard];
    [|now rewrite Hlb].
  unfold DB.update_leaderboard. cbn [DB.users DB.leaderboard].
  rewrite Hus, bool_decide_eq_true_2 by exact Hreg.
  cbn [DB.tests DB.test_results DB.leaderboard]. rewrite Hlb.
  repeat split.
Qed.

(** The back button in a running session. *)
Lemma cancel_handler_running user_id d0 session n w :
  running user_id d0 session n w ->
  let c := correct (data w) in
  let i := incorrect (data w) in
  let r := cancel_handler user_id w in
  r.1 = Some (bool_decide (n <> 0%nat)) /\
  DB.tests (db r.2) =
    (if bool_decide (n <> 0%nat)
     then <[session := ended_session user_id (Z.of_nat n) c i]> (DB.tests d0)
     else <[session := DB.new_session user_id]> (DB.tests d0)) /\
  DB.leaderboard (db r.2) = DB.leaderboard d0 /\
  data r.2 = no_data /\ form r.2 = None.
Proof.
  intros [Hid Hprog Hans Hbal _ Hus Huw Hdw Hlb Hts Hres _] c i r.
  subst r c i.
  unfold cancel_handler, bind, get_data, call, clear, ret.
  rewrite Hprog, Hid. cbn [truth default from_option id].
  fold (answered (data w)) (correct (data w)) (incorrect (data w)).
  rewrite Hans.
  destruct (Z.gtb_spec (Z.of_nat n) 0) as [Hpos|Hzero].
  - rewrite bool_decide_eq_true_2 by lia.
    unfold DB.update_test_session.
    cbn [fst snd db data form DB.tests DB.leaderboard].
    rewrite Hts, alter_insert_eq. repeat split. exact Hlb.
  - rewrite bool_decide_eq_false_2 by lia.
    cbn [fst snd db data form]. repeat split; assumption.
Qed.

(** A quiz counts every answer: for a user in [users] and a pool that is
    not empty, the session row written by the end button holds the
    number of answers as its total, and correct and incorrect counts
    that are not negative and add up to it, whatever the answers are;
    the result rows persisted for the session are at most as many. *)
Theorem quiz_counts_every_answer (file : xml_entries) (user_id : Z)
    (rnd_word : nat) (rnd_type : QuestionType) (answers : list answer)
    (d : DB.Database) :
  sessions_below_seq d ->
  user_id ∈ DB.users d ->
  quiz_pool file user_id d <> [] ->
  let w := (quiz file user_id rnd_word rnd_type answers (idle d)).2 in
  let n := Z.of_nat (length answers) in
  exists c i,
    DB.tests (db w) !! DB.tests_seq d = Some (ended_session user_id n c i) /\
    (0 <= c)%Z /\ (0 <= i)%Z /\ (c + i)%Z = n /\
    (persisted_results (DB.tests_seq d) w <= length answers)%nat.
Proof.
  intros Hbelow Hreg Hpool w n. subst w n. unfold quiz, bind.
  pose proof (start_test_handler_running file user_id d rnd_word rnd_type
                Hbelow Hreg Hpool) as Hstart.
  destruct (start_test_handler _ _ _ _ _) as [asked w0]. cbn [snd] in Hstart.
  pose proof (answer_all_running file user_id d (DB.tests_seq d) answers
                Hpool 0 w0 Hstart) as Hall.
  destruct (answer_all _ _ _ w0) as [[] w1]. cbn [snd plus] in Hall.
  destruct (end_test_handler_running user_id d _ _ w1 Hall Hreg)
    as (Hts & Hres & _).
  exists (correct (data w1)), (incorrect (data w1)).
  rewrite Hts, Hres, lookup_insert_eq.
  destruct Hall. repeat split; tauto.
Qed.

Lemma quiz_counts_every_answer_witness :
  let d := DB.add_user 7 DB.initialize_database in
  let answers :=
    [ {| a_text := repeat 97%N 101; a_rnd_word := 1; a_rnd_type := en_to_ru |};
      {| a_text := u "пока"; a_rnd_word := 2; a_rnd_type := ru_to_en |} ] in
  let w := (quiz [] 7 0 en_to_ru answers (idle d)).2 in
  exists c i,
    DB.tests (db w) !! 1%positive = Some (ended_session 7 2 c i) /\
    (c + i)%Z = 2%Z.
Proof.
  intros d answers w.
  destruct (quiz_counts_every_answer [] 7 0 en_to_ru answers d)
    as (c & i & Hrow & _ & _ & Hsum & _).
  - split.
    + intros j [x Hx]. vm_compute in Hx. discriminate.
    + intros r Hr. apply list_elem_of_In in Hr. vm_compute in Hr. contradiction.
  - vm_compute. reflexivity.
  - vm_compute. discriminate.
  - exists c, i. split; [exact Hrow|exact Hsum].
Defined.

(** The leaderboard after a quiz: when the summary is produced, the row
    of the user has one more test and the stored correct and incorrect
    counts added to its totals (a first row starts from them); when the
    summary fails, the leaderboard is as before. The conversation is in
    its initial state again in both cases. *)
Theorem quiz_updates_leaderboard (file : xml_entries) (user_id : Z)
    (rnd_word : nat) (rnd_type : QuestionType) (answers : list answer)
    (d : DB.Database) :
  sessions_below_seq d ->
  user_id ∈ DB.users d ->
  quiz_pool file user_id d <> [] ->
  let r := quiz file user_id rnd_word rnd_type answers (idle d) in
  exists c i,
    DB.tests (db r.2) !! DB.tests_seq d =
      Some (ended_session user_id (Z.of_nat (length answers)) c i) /\
    DB.leaderboard (db r.2) =
      match r.1 with
      | Some _ =>
          <[user_id := one_more_test (DB.leaderboard d !! user_id) c i]>
            (DB.leaderboard d)
      | None => DB.leaderboard d
      end /\
    data r.2 = no_data /\ form r.2 = None.
Proof.
  intros Hbelow Hreg Hpool r. subst r. unfold quiz, bind.
  pose proof (start_test_handler_running file user_id d rnd_word rnd_type
                Hbelow Hreg Hpool) as Hstart.
  destruct (start_test_handler _ _ _ _ _) as [asked w0]. cbn [snd] in Hstart.
  pose proof (answer_all_running file user_id d (DB.tests_seq d) answers
                Hpool 0 w0 Hstart) as Hall.
  destruct (answer_all _ _ _ w0) as [[] w1]. cbn [snd plus] in Hall.
  destruct (end_test_handler_running user_id d _ _ w1 Hall Hreg)
    as (Hts & _ & Hdata & Hform & Hres & Hlb).
  exists (correct (data w1)), (incorrect (data w1)).
  rewrite Hts, Hlb, Hres, lookup_insert_eq.
  destruct (percentage _ _); auto.
Qed.

Lemma quiz_updates_leaderboard_witness :
  let d := DB.add_user 7 DB.initialize_database in
  let answers :=
    [ {| a_text := u "привет"; a_rnd_word := 1; a_rnd_type := en_to_ru |} ] in
  let r := quiz [] 7 0 en_to_ru answers (idle d) in
  r.1 = Some 100%Z /\
  DB.leaderboard (db r.2) !! 7%Z =
    Some {| DB.total_tests := 1; DB.total_correct := 1;
            DB.total_incorrect := 0 |}.
Proof.
  intros d answers r.
  destruct (quiz_updates_leaderboard [] 7 0 en_to_ru answers d)
    as (c & i & Hrow & Hlb & _).
  - split.
    + intros j [x Hx]. vm_compute in Hx. discriminate.
    + intros r' Hr. apply list_elem_of_In in Hr. vm_compute in Hr.
      contradiction.
  - vm_compute. reflexivity.
  - vm_compute. discriminate.
  - split; [vm_compute; reflexivity|].
    fold r in Hrow, Hlb. rewrite Hlb.
    assert (Hc : DB.tests (db r.2) !! DB.tests_seq d =
                 Some (ended_session 7 1 1 0)) by (vm_compute; reflexivity).
    rewrite Hc in Hrow. injection Hrow as <- <-.
    vm_compute. reflexivity.
Defined.

(** A quiz that is ended before any answer is a finished session with
    zero counts, reports 0 percent, and counts as a test on the
    leaderboard. *)
Theorem quiz_without_answers (file : xml_entries) (user_id : Z)
    (rnd_word : nat) (rnd_type : QuestionType) (d : DB.Database) :
  sessions_below_seq d ->
  user_id ∈ DB.users d ->
  quiz_pool file user_id d <> [] ->
  let r := quiz file user_id rnd_word rnd_type [] (idle d) in
  r.1 = Some 0%Z /\
  DB.tests (db r.2) !! DB.tests_seq d = Some (ended_session user_id 0 0 0) /\
  DB.leaderboard (db r.2) =
    <[user_id := one_more_test (DB.leaderboard d !! user_id) 0 0]>
      (DB.leaderboard d).
Proof.
  intros Hbelow Hreg Hpool r. subst r. unfold quiz, bind.
  pose proof (start_test_handler_running file user_id d rnd_word rnd_type
                Hbelow Hreg Hpool) as Hstart.
  destruct (start_test_handler _ _ _ _ _) as [asked w0]. cbn [snd] in Hstart.
  cbn [answer_all]. unfold ret. cbv beta iota zeta.
  destruct (end_test_handler_running user_id d _ _ w0 Hstart Hreg)
    as (Hts & _ & _ & _ & Hres & Hlb).
  destruct Hstart as [_ _ _ Hbal [Hc Hi] _ _ _ _ _ _ _].
  assert (correct (data w0) = 0%Z) as Ec by lia.
  assert (incorrect (data w0) = 0%Z) as Ei by lia.
  rewrite Ec, Ei in *. cbn [Z.of_nat] in *.
  rewrite Hres, Hts, Hlb, lookup_insert_eq. repeat split.
Qed.

Lemma quiz_without_answers_witness :
  let d := DB.add_user 7 DB.initialize_database in
  (quiz [] 7 0 en_to_ru [] (idle d)).1 = Some 0%Z.
Proof.
  intros d. apply (quiz_without_answers [] 7 0 en_to_ru d).
  - split.
    + intros j [x Hx]. vm_compute in Hx. discriminate.
    + intros r' Hr. apply list_elem_of_In in Hr. vm_compute in Hr.
      contradiction.
  - vm_compute. reflexivity.
  - vm_compute. discriminate.
Defined.

(** A quiz left with the back button: with at least one answer the
    counters are written to the session row as by the end button, with
    no answer the session row stays open; the leaderboard is not touched
    in either case, and the conversation is in its initial state. *)
Theorem cancelled_quiz_outcome (file : xml_entries) (user_id : Z)
    (rnd_word : nat) (rnd_type : QuestionType) (answers : list answer)
    (d : DB.Database) :
  sessions_below_seq d ->
  user_id ∈ DB.users d ->
  quiz_pool file user_id d <> [] ->
  let r := cancelled_quiz file user_id rnd_word rnd_type answers (idle d) in
  let n := Z.of_nat (length answers) in
  r.1 = Some (bool_decide (answers <> [])) /\
  (exists c i,
     (c + i)%Z = n /\
     DB.tests (db r.2) !! DB.tests_seq d =
       Some (if bool_decide (answers <> [])
             then ended_session user_id n c i
             else DB.new_session user_id)) /\
  DB.leaderboard (db r.2) = DB.leaderboard d /\
  data r.2 = no_data /\ form r.2 = None.
Proof.
  intros Hbelow Hreg Hpool r n. subst r n. unfold cancelled_quiz, bind.
  pose proof (start_test_handler_running file user_id d rnd_word rnd_type
                Hbelow Hreg Hpool) as Hstart.
  destruct (start_test_handler _ _ _ _ _) as [asked w0]. cbn [snd] in Hstart.
  pose proof (answer_all_running file user_id d (DB.tests_seq d) answers
                Hpool 0 w0 Hstart) as Hall.
  destruct (answer_all _ _ _ w0) as [[] w1]. cbn [snd plus] in Hall.
  destruct (cancel_handler_running user_id d _ _ w1 Hall)
    as (Hres & Hts & Hlb & Hdata & Hform).
  assert (Hne : bool_decide (length answers <> 0%nat) =
                bool_decide (answers <> [])).
  { apply bool_decide_ext. destruct answers; cbn; split; congruence. }
  rewrite Hne in *. rewrite Hres, Hts, Hlb.
  repeat split; try assumption.
  exists (correct (data w1)), (incorrect (data w1)).
  split; [apply Hall|].
  destruct (bool_decide (answers <> [])); apply lookup_insert_eq.
Qed.

Lemma cancelled_quiz_outcome_witness :
  let d := DB.add_user 7 DB.initialize_database in
  let r := cancelled_quiz [] 7 0 en_to_ru [] (idle d) in
  r.1 = Some false /\ DB.leaderboard (db r.2) = DB.leaderboard d.
Proof.
  intros d r.
  destruct (cancelled_quiz_outcome [] 7 0 en_to_ru [] d)
    as (H1 & _ & H2 & _).
  - split.
    + intros j [x Hx]. vm_compute in Hx. discriminate.
    + intros r' Hr. apply list_elem_of_In in Hr. vm_compute in Hr.
      contradiction.
  - vm_compute. reflexivity.
  - vm_compute. discriminate.
  - split; [exact H1|exact H2].
Defined.

End RunFacts.

(** ** Starting, asking and checking *)

Module AskFacts.
Import QuizFacts PoolFacts.

Lemma all_words_nil uw dw xw :
  all_words uw dw xw = [] <-> uw = [] /\ dw = [] /\ xw = [].
Proof.
  split.
  - intros Hnil.
    destruct (uw ++ dw ++ xw) as [|p words] eqn:E.
    + apply app_eq_nil in E as [-> E]. apply app_eq_nil in E as [-> ->]. auto.
    + exfalso.
      assert (Hk : p.1 ∈ PyDict.keys (by_english (uw ++ dw ++ xw))).
      { unfold by_english. apply fold_keys. left. rewrite E. cbn.
        apply elem_of_cons. now left. }
      rewrite <- (values_keys _ (by_english_well_keyed _)) in Hk.
      unfold all_words in Hnil. rewrite Hnil in Hk. cbn in Hk.
      now apply elem_of_nil in Hk.
  - intros (-> & -> & ->). reflexivity.
Qed.

(** A user who is not in [users] cannot start a quiz, words or no words:
    the session insert is rejected, the outcome is the same alert as for
    "no words available", and neither the session table nor the
    conversation changes. *)
Theorem start_unregistered (file : xml_entries) (user_id : Z)
    (rnd_word : nat) (rnd_type : QuestionType) (w : World) :
  user_id ∉ DB.users (db w) ->
  truth (test_in_progress (data w)) = false ->
  let r := start_test_handler file user_id rnd_word rnd_type w in
  r.1 = None /\
  DB.tests (db r.2) = DB.tests (db w) /\
  DB.test_results (db r.2) = DB.test_results (db w) /\
  data r.2 = data w /\ form r.2 = form w.
Proof.
  intros Hreg Hprog r. subst r.
  unfold start_test_handler, start_learning_test, bind, get_data, call, ret.
  rewrite Hprog. cbn [negb]. unfold DB.create_test_session.
  rewrite bool_decide_eq_false_2 by exact Hreg.
  cbn. repeat split.
Qed.

Lemma start_unregistered_witness :
  (start_test_handler [] 8 0 en_to_ru
     (idle (DB.add_user 7 DB.initialize_database))).1 = None.
Proof.
  apply (start_unregistered [] 8 0 en_to_ru
           (idle (DB.add_user 7 DB.initialize_database))).
  - intros H. vm_compute in H. discriminate.
  - reflexivity.
Defined.

(** Asking the next question of a quiz in progress never creates a
    session and never touches the store or the counters; it fails
    exactly when the pool is empty, and the pool is empty exactly when
    the user's words, the default words and the dictionary words are all
    empty. *)
Theorem start_in_progress (file : xml_entries) (user_id : Z)
    (rnd_word : nat) (rnd_type : QuestionType) (w : World) :
  truth (test_in_progress (data w)) = true ->
  let r := start_learning_test file user_id rnd_word rnd_type w in
  db r.2 = db w /\
  test_id (data r.2) = test_id (data w) /\
  questions_answered (data r.2) = questions_answered (data w) /\
  correct_answers (data r.2) = correct_answers (data w) /\
  incorrect_answers (data r.2) = incorrect_answers (data w) /\
  (r.1 = None <-> quiz_pool file user_id (db w) = []) /\
  (quiz_pool file user_id (db w) = [] <->
   DB.get_user_words user_id (db w) = [] /\
   DB.get_default_words 12 (db w) = [] /\
   load_words_from_xml file = []).
Proof.
  intros Hprog r. subst r.
  assert (Hempty : quiz_pool file user_id (db w) = [] <->
                   DB.get_user_words user_id (db w) = [] /\
                   DB.get_default_words 12 (db w) = [] /\
                   load_words_from_xml file = [])
    by (unfold quiz_pool; apply all_words_nil).
  destruct (decide (quiz_pool file user_id (db w) = [])) as [Hnil|Hne].
  - assert (Hstart : start_learning_test file user_id rnd_word rnd_type w
                     = (None, w)).
    { unfold start_learning_test, bind, get_data, query, ret.
      rewrite Hprog. cbn [negb]. unfold quiz_pool in Hnil. now rewrite Hnil. }
    rewrite Hstart. cbn [fst snd]. tauto.
  - destruct (start_learning_test_next file user_id rnd_word rnd_type w
                Hprog Hne) as (en & ru & question & wt & _ & Hstart).
    cbn zeta in Hstart. rewrite Hstart. cbn [fst snd db data ask test_id
      questions_answered correct_answers incorrect_answers].
    repeat split; try apply Hempty; try discriminate; try contradiction.
Qed.

Lemma start_in_progress_witness :
  let w := (start_test_handler [] 7 0 en_to_ru
              (idle (DB.add_user 7 DB.initialize_database))).2 in
  DB.tests (db (start_learning_test [] 7 3 ru_to_en w).2) = DB.tests (db w).
Proof.
  intros w.
  destruct (start_in_progress [] 7 3 ru_to_en w) as [H _].
  - vm_compute. reflexivity.
  - now rewrite H.
Defined.

(** The question of a quiz in progress is about a pair of the pool; the
    expected answer that is returned is also the one kept in the state
    bag: the russian word of the pair for an english→russian question,
    the english word for a russian→english one. *)
Theorem next_question (file : xml_entries) (user_id : Z)
    (rnd_word : nat) (rnd_type : QuestionType) (w : World) :
  truth (test_in_progress (data w)) = true ->
  quiz_pool file user_id (db w) <> [] ->
  let r := start_learning_test file user_id rnd_word rnd_type w in
  exists en ru question,
    (en, ru) ∈ quiz_pool file user_id (db w) /\
    r.1 = Some (question,
                match rnd_type with en_to_ru => ru | ru_to_en => en end) /\
    current_word (data r.2) = Some en /\
    original_ru_word (data r.2) = Some ru /\
    question_type (data r.2) = Some rnd_type /\
    test_correct_answer (data r.2) =
      Some (match rnd_type with en_to_ru => ru | ru_to_en => en end) /\
    current_question (data r.2) = Some question.
Proof.
  intros Hprog Hpool r. subst r.
  destruct (start_learning_test_next file user_id rnd_word rnd_type w
              Hprog Hpool) as (en & ru & question & wt & Hin & Hstart).
  cbn zeta in Hstart. rewrite Hstart.
  exists en, ru, question. cbn. repeat split. exact Hin.
Qed.

Lemma next_question_witness :
  let w := (start_test_handler [] 7 0 en_to_ru
              (idle (DB.add_user 7 DB.initialize_database))).2 in
  exists en ru question,
    (en, ru) ∈ quiz_pool [] 7 (db w) /\
    (start_learning_test [] 7 3 ru_to_en w).1 = Some (question, en).
Proof.
  intros w.
  destruct (next_question [] 7 3 ru_to_en w)
    as (en & ru & question & Hin & Hr & _).
  - vm_compute. reflexivity.
  - vm_compute. discriminate.
  - exists en, ru, question. split; assumption.
Defined.

End AskFacts.

Module CheckFacts.
Import QuizFacts.

Lemma elem_of_lstrip c s : c ∈ PyStr.lstrip s -> c ∈ s.
Proof.
  induction s as [|d r IH]; [easy|]. cbn [PyStr.lstrip].
  destruct (PyStr.isspace d); [|easy].
  intros H. apply elem_of_cons. right. now apply IH.
Qed.

Lemma elem_of_strip c s : c ∈ PyStr.strip s -> c ∈ s.
Proof.
  unfold PyStr.strip, PyStr.rstrip. intros H.
  apply list_elem_of_In in H. rewrite <- in_rev in H.
  apply list_elem_of_In, elem_of_lstrip, list_elem_of_In in H.
  rewrite <- in_rev in H.
  now apply elem_of_lstrip, list_elem_of_In.
Qed.

Lemma lstrip_suffix (s : list N) :
  exists spaces, s = spaces ++ PyStr.lstrip s /\
                 Forall (fun c => PyStr.isspace c = true) spaces.
Proof.
  induction s as [|d r (spaces & IH & Hsp)]; [now exists []|].
  cbn [PyStr.lstrip]. destruct (PyStr.isspace d) eqn:Hd.
  - exists (d :: spaces). split; [cbn [app]; now f_equal|]. now constructor.
  - now exists [].
Qed.

(** A character that is not white space stays in the trimmed string. *)
Lemma elem_of_lstrip_keep (c : N) (s : list N) :
  PyStr.isspace c = false -> c ∈ s -> c ∈ PyStr.lstrip s.
Proof.
  intros Hc Hin. destruct (lstrip_suffix s) as (spaces & Hs & Hsp).
  rewrite Hs in Hin. apply elem_of_app in Hin as [Hin|Hin]; [|exact Hin].
  rewrite Forall_forall in Hsp. specialize (Hsp c Hin). congruence.
Qed.

Lemma elem_of_strip_keep (c : N) (s : list N) :
  PyStr.isspace c = false -> c ∈ s -> c ∈ PyStr.strip s.
Proof.
  intros Hc Hin. unfold PyStr.strip, PyStr.rstrip.
  apply list_elem_of_In. rewrite <- in_rev. apply list_elem_of_In.
  apply elem_of_lstrip_keep; [exact Hc|].
  apply list_elem_of_In. rewrite <- in_rev. apply list_elem_of_In.
  now apply elem_of_lstrip_keep.
Qed.

Lemma comma_lower (s : list N) : 44%N ∈ PyStr.lower s <-> 44%N ∈ s.
Proof. apply PyStrFacts.elem_of_lower_inert, PyStrFacts.comma_inert. Qed.

(** An answer that contains a comma is accepted only as a translation of
    the store: it is marked correct exactly when it is the lowered form
    of a translation stored for the word, which then contains the comma
    itself. The alternatives of the dictionary translation never contain
    one, so that for a word that comes from the dictionary file alone
    the expected answer of an entry that lists several translations is
    marked incorrect. *)
Theorem comma_answer_rejected (file : xml_entries)
    (user_answer correct_answer word : str) (user_id : Z) (d : DB.Database) :
  44%N ∈ user_answer ->
  (_check_answer file user_answer correct_answer en_to_ru word user_id d).1
    = true <->
  exists t, stored_translation t word user_id d /\ 44%N ∈ t /\
            user_answer = PyStr.lower t.
Proof.
  intros Hcomma. unfold _check_answer. cbn [fst].
  rewrite bool_decide_eq_true, elem_of_elements, possible_translations_spec.
  split.
  - intros [(translated & t & _ & [Hno _] & _ & ->)|(t & Ht & _ & ->)].
    + apply comma_lower, elem_of_strip in Hcomma. contradiction.
    + exists t. repeat split; [exact Ht|]. now apply comma_lower.
  - intros (t & Ht & Hin & ->). right. exists t.
    repeat split; [exact Ht|].
    intros Hnil. apply (elem_of_strip_keep 44%N) in Hin; [|reflexivity].
    rewrite Hnil in Hin. now apply elem_of_nil in Hin.
Qed.

Lemma comma_answer_rejected_witness :
  (_check_answer [(u "cat", u "кот, кошка")] (u "кот, кошка") (u "кот, кошка")
                 en_to_ru (u "cat") 7
                 (DB.add_user 7 DB.initialize_database)).1 = false.
Proof.
  apply not_true_is_false. intros Hok.
  apply comma_answer_rejected in Hok as (t & [H|H] & _).
  - apply list_elem_of_In in H. vm_compute in H.
    repeat (destruct H as [H|H]; [discriminate H|]). contradiction.
  - apply list_elem_of_In in H. vm_compute in H. contradiction.
  - apply list_elem_of_In. vm_compute. tauto.
Defined.

(** The same answer is accepted once the user has stored it as a
    translation of the word. *)
Example comma_answer_accepted :
  let d := (DB.add_user_word 7 (u "cat") (u "кот, кошка")
              (DB.add_user 7 DB.initialize_database)).2 in
  (_check_answer [] (u "кот, кошка") (u "кот, кошка") en_to_ru (u "cat") 7
                 d).1 = true.
Proof. vm_compute. reflexivity. Qed.

(** A misspelling of the typo table is accepted in a russian→english
    question when its canonical form is the expected word. *)
Theorem typo_answer_accepted (file : xml_entries) (user_id : Z)
    (given expected : str) (session : positive) (w : World) :
  test_id (data w) = Some session ->
  question_type (data w) = Some ru_to_en ->
  ALLOWED_TYPOS !! PyStr.lower (PyStr.strip given) =
    Some (PyStr.lower expected) ->
  (handle_test_response file user_id given expected w).1 = Some true.
Proof.
  intros Hid Hqt Htypo.
  rewrite (handle_test_response_verdict _ _ _ _ _ session Hid), Hqt.
  cbn [default from_option id _check_answer fst]. f_equal.
  apply bool_decide_eq_true_2. unfold normalize_answer. now rewrite Htypo.
Qed.

Lemma typo_answer_accepted_witness :
  let w := (start_test_handler [] 7 0 ru_to_en
              (idle (DB.add_user 7 DB.initialize_database))).2 in
  test_correct_answer (data w) = Some (u "hello") /\
  (handle_test_response [] 7 (u " Хелло") (u "hello") w).1 = Some true.
Proof.
  intros w. split; [vm_compute; reflexivity|].
  apply (typo_answer_accepted [] 7 (u " Хелло") (u "hello") 1 w);
    vm_compute; reflexivity.
Defined.

(** The end button cannot finalize twice: after it was pressed, the
    conversation holds no session, and pressing it again reports the
    error and changes nothing. *)
Theorem end_button_twice (user_id : Z) (w : World) :
  let w1 := (end_test_handler user_id w).2 in
  data w1 = no_data /\
  end_test_handler user_id w1 = (None, w1).
Proof.
  intros w1. subst w1. unfold end_test_handler at 1 3 4, bind.
  destruct (end_test_and_show_results user_id w) as [r w'].
  unfold clear, ret. cbn [snd data]. split; reflexivity.
Qed.

End CheckFacts.

(** ** Adding, removing and showing words through the handlers *)

Module HandlerFacts.
Import QuizFacts.

Lemma split1_first sep (a b : str) :
  sep ∉ a -> split1 sep (a ++ sep :: b) = [a; b].
Proof.
  induction a as [|c a IH]; intros Hno; cbn [app split1].
  - now rewrite N.eqb_refl.
  - destruct (N.eqb_spec c sep) as [->|Hne].
    + exfalso. apply Hno, elem_of_cons. now left.
    + rewrite IH; [reflexivity|].
      intros Hin. apply Hno, elem_of_cons. now right.
Qed.

Lemma split1_without sep (s : str) : sep ∉ s -> split1 sep s = [s].
Proof.
  induction s as [|c s IH]; intros Hno; cbn [split1]; [reflexivity|].
  destruct (N.eqb_spec c sep) as [->|Hne].
  - exfalso. apply Hno, elem_of_cons. now left.
  - rewrite IH; [reflexivity|].
    intros Hin. apply Hno, elem_of_cons. now right.
Qed.

(** A "word - translation" message is cut at its first hyphen: what
    comes before it, trimmed, is the english word and everything after
    it, trimmed, is the translation, and the add is attempted with these
    two; whatever the store answers, the conversation is cleared, and a
    refusal of the store is reported as "already there". A message
    without a hyphen (other than the back text) changes nothing. *)
Theorem add_word_cut_at_first_hyphen (user_id : Z) (message_text : str)
    (w : World) :
  (forall before after,
     PyStr.strip message_text = before ++ 45%N :: after ->
     45%N ∉ before ->
     let en_word := PyStr.strip before in
     let ru_translation := PyStr.strip after in
     let added := DB.add_user_word user_id en_word ru_translation (db w) in
     process_add_word user_id message_text w =
     (if added.1 then add_done en_word ru_translation else add_exists en_word,
      {| db := added.2; form := None; data := no_data |})) /\
  (45%N ∉ PyStr.strip message_text ->
   PyStr.strip message_text <> u "⬅ Назад" ->
   process_add_word user_id message_text w = (add_bad_format, w)).
Proof.
  split.
  - intros before after Htext Hno en_word ru_translation added.
    subst en_word ru_translation added.
    unfold process_add_word, bind, call, clear, ret. rewrite Htext.
    rewrite bool_decide_eq_false_2.
    2:{ intros Hback.
        assert (Hin : 45%N ∈ before ++ 45%N :: after)
          by (apply elem_of_app; right; apply elem_of_cons; now left).
        rewrite Hback in Hin. apply list_elem_of_In in Hin.
        vm_compute in Hin. intuition discriminate. }
    rewrite bool_decide_eq_true_2
      by (apply elem_of_app; right; apply elem_of_cons; now left).
    cbn [negb]. rewrite split1_first by exact Hno.
    destruct (DB.add_user_word _ _ _ (db w)) as [ok d']. reflexivity.
  - intros Hno Hback. unfold process_add_word, ret.
    rewrite bool_decide_eq_false_2 by exact Hback.
    now rewrite bool_decide_eq_false_2 by exact Hno.
Qed.

Lemma add_word_cut_at_first_hyphen_witness :
  let w := {| db := DB.add_user 7 DB.initialize_database;
              form := Some ADDING_WORD; data := no_data |} in
  let r := process_add_word 7 (u " Well-known - Известный ") w in
  r.1 = add_done (u "Well") (u "known - Известный") /\
  DB.get_user_words 7 (db r.2) = [(u "well", u "known - известный")].
Proof.
  intros w r.
  destruct (add_word_cut_at_first_hyphen 7 (u " Well-known - Известный ") w)
    as [H _].
  subst r.
  rewrite (H (u "Well") (u "known - Известный")).
  - vm_compute. split; reflexivity.
  - vm_compute. reflexivity.
  - intros Hin. apply list_elem_of_In in Hin. vm_compute in Hin.
    intuition discriminate.
Defined.

Lemma split1_remove (en : str) :
  split1 95 (u "remove_" ++ en) = [u "remove"; en].
Proof. reflexivity. Qed.

Lemma split1_word (en : str) :
  split1 95 (u "word_" ++ en) = [u "word"; en].
Proof. reflexivity. Qed.

Example dispatch_examples :
  dispatch_callback (u "word_cat") None = Some to_show_word_translation /\
  dispatch_callback (u "remove_cat") (Some REMOVING_WORD) = Some to_remove_word
  /\ dispatch_callback (u "remove_cat") None = None /\
  dispatch_callback (u "remove_word") (Some REMOVING_WORD)
    = Some to_start_remove_word /\
  dispatch_callback (u "cancel") (Some TEST) = Some to_cancel_handler.
Proof. vm_compute. repeat split; reflexivity. Qed.

(** Where the dispatcher sends the data of a button of the removal
    list. *)
Lemma dispatch_remove_button (en : str) :
  dispatch_callback (u "remove_" ++ en) (Some REMOVING_WORD) =
  if bool_decide (en = u "word") then Some to_start_remove_word
  else Some to_remove_word.
Proof.
  unfold dispatch_callback.
  change (startswith (u "word_") (u "remove_" ++ en)) with false.
  change (startswith (u "page_") (u "remove_" ++ en)) with false.
  change (startswith (u "remove_") (u "remove_" ++ en)) with true.
  cbv iota. rewrite bool_decide_eq_false_2 by discriminate.
  rewrite (bool_decide_eq_true_2 (Some REMOVING_WORD = Some REMOVING_WORD))
    by reflexivity.
  cbn [andb].
  destruct (decide (en = u "word")) as [->|Hne].
  - reflexivity.
  - rewrite (bool_decide_eq_false_2 (en = u "word")) by exact Hne.
    rewrite bool_decide_eq_false_2; [reflexivity|].
    intros H. apply Hne. now apply (app_inv_head (u "remove_")) in H.
Qed.

(** The buttons of the removal list. The button of a pair carries the
    pair as its label and the english word in its data. Pressed in the
    list, it is given to [remove_word], which deletes exactly the pairs
    of the user with that english word (the lists read back are the
    user's former list without them and the unchanged lists of the
    other users) and clears the conversation (on a table whose keys are
    lower case, as every key the code writes is),
    unless the english word is "word": the data "remove_word" is that
    of the "remove word" button of the menu, whose handler
    [start_remove_word] is registered first, and the press shows the
    list again and deletes nothing. *)
Theorem remove_button_removes (user_id : Z) (w w1 : World)
    (buttons : list button) (b : button) :
  start_remove_word user_id w = (Some buttons, w1) ->
  b ∈ buttons ->
  (forall row, row ∈ DB.user_words (db w) ->
               PyStr.lower (DB.uw_english row) = DB.uw_english row) ->
  exists en ru,
    (en, ru) ∈ DB.get_user_words user_id (db w) /\
    label b = en ++ u " - " ++ ru /\
    callback_data b = u "remove_" ++ en /\
    (en <> u "word" ->
     dispatch_callback (callback_data b) (form w1) = Some to_remove_word /\
     let r := remove_word user_id (callback_data b) w1 in
     r.1 = Some en /\
     DB.get_user_words user_id (db r.2) =
       filter (fun p => p.1 <> en) (DB.get_user_words user_id (db w)) /\
     (forall other, other <> user_id ->
        DB.get_user_words other (db r.2) = DB.get_user_words other (db w)) /\
     data r.2 = no_data /\ form r.2 = None) /\
    (en = u "word" ->
     dispatch_callback (callback_data b) (form w1)
       = Some to_start_remove_word /\
     start_remove_word user_id w1 = (Some buttons, w1)).
Proof.
  intros Hstart Hb Hlower.
  unfold start_remove_word, bind, query, set_state, ret in Hstart.
  destruct (DB.get_user_words user_id (db w)) as [|p0 ps] eqn:Hwords;
    [discriminate|].
  apply pair_equal_spec in Hstart as [Hbuttons <-].
  apply (inj Some) in Hbuttons.
  pose proof Hb as Hb'. rewrite <- Hbuttons in Hb'.
  change (@map) with (@fmap list _) in Hb'.
  apply list_elem_of_fmap in Hb' as ([en ru] & -> & Hin).
  exists en, ru. cbn [label callback_data fst snd form].
  split; [exact Hin|]. split; [reflexivity|]. split; [reflexivity|].
  rewrite dispatch_remove_button. split.
  - intros Hne. rewrite bool_decide_eq_false_2 by exact Hne.
    split; [reflexivity|].
    unfold remove_word. rewrite split1_remove.
    unfold bind, call, clear, ret.
    cbn [fst snd db data form].
    assert (Hkey : PyStr.lower en = en).
    { rewrite <- Hwords in Hin. apply elem_of_get_user_words in Hin.
      apply (Hlower _ Hin). }
    destruct (DBOpsFacts.remove_user_word_lists (db w) user_id en)
      as [Hmine Hothers].
    rewrite Hkey in Hmine.
    destruct (DBOps.remove_user_word user_id en (db w)) as [ok d'].
    cbn [fst snd db data form] in *.
    split; [reflexivity|]. split; [now rewrite Hmine, Hwords|].
    split; [exact Hothers|]. split; reflexivity.
  - intros ->. rewrite bool_decide_eq_true_2 by reflexivity.
    split; [reflexivity|].
    unfold start_remove_word, bind, query, set_state, ret.
    cbn [db form data]. rewrite Hwords, Hbuttons. reflexivity.
Qed.

Lemma remove_button_removes_witness :
  let w := idle (DB.add_user_word 7 (u "cat") (u "кот")
                   (DB.add_user 7 DB.initialize_database)).2 in
  let b := {| label := u "cat - кот"; callback_data := u "remove_cat" |} in
  let w1 := (start_remove_word 7 w).2 in
  dispatch_callback (callback_data b) (form w1) = Some to_remove_word /\
  (remove_word 7 (callback_data b) w1).1 = Some (u "cat") /\
  DB.get_user_words 7 (db (remove_word 7 (callback_data b) w1).2) = [].
Proof.
  intros w b w1.
  destruct (remove_button_removes 7 w w1 [b] b)
    as (en & ru & _ & _ & Hd & Hr & _).
  - vm_compute. reflexivity.
  - apply elem_of_cons. now left.
  - intros row Hrow. apply list_elem_of_In in Hrow. vm_compute in Hrow.
    destruct Hrow as [<-|[]]. vm_compute. reflexivity.
  - apply (app_inv_head (u "remove_")) in Hd. subst en.
    destruct Hr as (H1 & H2 & H3 & _); [discriminate|].
    split; [exact H1|]. split; [exact H2|]. rewrite H3. vm_compute.
    reflexivity.
Defined.

(** The word "word" cannot be removed through its button. *)
Example word_button_does_not_remove :
  let w := idle (DB.add_user_word 7 (u "word") (u "слово")
                   (DB.add_user 7 DB.initialize_database)).2 in
  let w1 := (start_remove_word 7 w).2 in
  (start_remove_word 7 w).1 =
    Some [{| label := u "word - слово"; callback_data := u "remove_word" |}] /\
  dispatch_callback (u "remove_word") (form w1) = Some to_start_remove_word /\
  DB.get_user_words 7 (db (start_remove_word 7 w1).2) = [(u "word", u "слово")].
Proof. vm_compute. repeat split; reflexivity. Qed.

End HandlerFacts.

Module ShowFacts.
Import QuizFacts HandlerFacts DBOps.

Lemma fetchrow_elem_of {A} draw (l : list A) x :
  fetchrow draw l = Some x -> x ∈ l.
Proof.
  destruct l as [|a l]; [discriminate|]. cbn. intros [= <-].
  apply choice_elem_of.
Qed.

Lemma fetchrow_single {A} draw (x : A) : fetchrow draw [x] = Some x.
Proof. unfold fetchrow, choice. cbn [length]. now rewrite Nat.mod_1_r. Qed.

Lemma filter_unique_key (l : list (str * str)) (en ru : str) :
  NoDup (map fst l) -> (en, ru) ∈ l ->
  filter (fun p => p.1 = en) l = [(en, ru)].
Proof.
  induction l as [|[k v] l IH]; cbn [map fst]; intros Hnd Hin.
  - now apply elem_of_nil in Hin.
  - apply NoDup_cons in Hnd as [Hk Hnd]. rewrite filter_cons. cbn [fst].
    apply elem_of_cons in Hin as [[= <- <-]|Hin].
    + destruct (decide (en = en)) as [_|]; [|congruence]. f_equal.
      destruct (filter (fun p => p.1 = en) l) as [|q qs] eqn:E; [reflexivity|].
      exfalso. apply Hk.
      assert (Hq : q ∈ filter (fun p => p.1 = en) l)
        by (rewrite E; apply elem_of_cons; now left).
      apply list_elem_of_filter in Hq as [<- Hq].
      change (@map) with (@fmap list _). apply list_elem_of_fmap. now exists q.
    + destruct (decide (k = en)) as [->|_]; [|now apply IH].
      exfalso. apply Hk. change (@map) with (@fmap list _).
      apply list_elem_of_fmap. now exists (en, ru).
Qed.

(** The button of a default word shows its translation: for a word of
    [default_words] (unique, lower-case keys) with a non-empty
    translation, pressing the word's button shows that translation,
    whatever the user words are. *)
Theorem word_button_shows_default (draw draw' : nat) (en ru : str)
    (d : DB.Database) :
  (en, ru) ∈ DB.default_words d ->
  NoDup (map fst (DB.default_words d)) ->
  PyStr.lower en = en ->
  ru <> [] ->
  show_word_translation draw draw' (callback_data (Keyboard.word_button en)) d
  = Some ru.
Proof.
  intros Hin Hnd Hkey Hne. unfold show_word_translation, Keyboard.word_button.
  cbn [callback_data]. rewrite split1_word.
  unfold get_word_translation at 1. rewrite Hkey.
  rewrite (filter_unique_key _ en ru Hnd Hin). cbn [map snd].
  rewrite fetchrow_single.
  assert (Ht : PyStr.truthy ru = true) by now apply truthy_true.
  rewrite Ht. cbv beta iota. now rewrite Ht.
Qed.

Lemma word_button_shows_default_witness :
  show_word_translation 0 0 (u "word_water")
    (DB.add_user_word 7 (u "water") (u "водичка")
       (DB.add_user 7 DB.initialize_database)).2
  = Some (u "вода").
Proof.
  apply (word_button_shows_default 0 0 (u "water") (u "вода")).
  - apply list_elem_of_In. vm_compute. tauto.
  - apply (bool_decide_unpack _). vm_compute. exact I.
  - vm_compute. reflexivity.
  - discriminate.
Defined.

(** What a word button can show: a non-empty translation stored for the
    lowered word, either in the default words or in the words of some
    user, who need not be the one who pressed the button: the lookup in
    [user_words] is by word only. *)
Theorem shown_translation_sound (draw draw' : nat) (en t : str)
    (d : DB.Database) :
  show_word_translation draw draw' (callback_data (Keyboard.word_button en)) d
    = Some t ->
  t <> [] /\
  ((PyStr.lower en, t) ∈ DB.default_words d \/
   exists owner,
     {| DB.uw_user := owner; DB.uw_english := PyStr.lower en;
        DB.uw_russian := t |} ∈ DB.user_words d).
Proof.
  unfold show_word_translation, Keyboard.word_button.
  cbn [callback_data]. rewrite split1_word.
  assert (Hdefault : forall x,
            get_word_translation draw en default_word d = Some x ->
            (PyStr.lower en, x) ∈ DB.default_words d).
  { intros x Hx. apply fetchrow_elem_of in Hx.
    change (@map) with (@fmap list _) in Hx.
    apply list_elem_of_fmap in Hx as ([k v] & -> & Hin).
    apply list_elem_of_filter in Hin as [Hk Hin]. cbn in *. now subst. }
  assert (Huser : forall x,
            get_word_translation draw' en user_word d = Some x ->
            exists owner,
              {| DB.uw_user := owner; DB.uw_english := PyStr.lower en;
                 DB.uw_russian := x |} ∈ DB.user_words d).
  { intros x Hx. apply fetchrow_elem_of in Hx.
    change (@map) with (@fmap list _) in Hx.
    apply list_elem_of_fmap in Hx as ([o k v] & -> & Hin).
    apply list_elem_of_filter in Hin as [Hk Hin]. cbn in *. subst.
    now exists o. }
  destruct (get_word_translation draw en default_word d) as [x|] eqn:Ed.
  - destruct (PyStr.truthy x) eqn:Ex.
    + rewrite Ex. intros [= <-]. split; [now apply truthy_true|].
      left. now apply Hdefault.
    + destruct (get_word_translation draw' en user_word d) as [y|];
        [|discriminate].
      destruct (PyStr.truthy y) eqn:Ey; [|discriminate].
      intros [= <-]. split; [now apply truthy_true|]. right. now apply Huser.
  - destruct (get_word_translation draw' en user_word d) as [y|];
      [|discriminate].
    destruct (PyStr.truthy y) eqn:Ey; [|discriminate].
    intros [= <-]. split; [now apply truthy_true|]. right. now apply Huser.
Qed.

Lemma shown_translation_sound_witness :
  let d := (DB.add_user_word 8 (u "cat") (u "кот")
              (DB.add_user 8 (DB.add_user 7 DB.initialize_database))).2 in
  show_word_translation 0 0 (u "word_cat") d = Some (u "кот") /\
  DB.get_user_words 7 d = [] /\
  exists owner,
    {| DB.uw_user := owner; DB.uw_english := u "cat";
       DB.uw_russian := u "кот" |} ∈ DB.user_words d.
Proof.
  intros d.
  assert (H : show_word_translation 0 0
                (callback_data (Keyboard.word_button (u "cat"))) d
              = Some (u "кот")) by (vm_compute; reflexivity).
  split; [exact H|]. split; [vm_compute; reflexivity|].
  destruct (shown_translation_sound 0 0 (u "cat") (u "кот") d H) as [_ [Hd|Hu]].
  - exfalso. apply list_elem_of_In in Hd. vm_compute in Hd.
    repeat (destruct Hd as [Hd|Hd]; [discriminate Hd|]). contradiction.
  - exact Hu.
Defined.

End ShowFacts.

(** ** The keyboard of words *)

Module KeyboardFacts.
Import Keyboard.

Example slice_like_python :
  slice [1; 2; 3; 4; 5]%nat (-3) 4 = [3; 4]%nat /\
  slice [1; 2; 3; 4; 5]%nat 3 100 = [4; 5]%nat /\
  slice [1; 2; 3; 4; 5]%nat (-6) 0 = [].
Proof. repeat split. Qed.

Lemma page_words_nonneg (all_words : list (str * str)) (page : Z) :
  (0 <= page)%Z ->
  page_words all_words page =
  take 6 (drop (6 * Z.to_nat page) all_words).
Proof.
  intros Hpage. unfold page_words, slice, slice_index.
  set (len := Z.of_nat (length all_words)).
  destruct (Z.ltb_spec (page * 6) 0) as [?|_]; [lia|].
  destruct (Z.ltb_spec (page * 6 + 6) 0) as [?|_]; [lia|].
  destruct (Z_lt_le_dec (page * 6) len) as [Hin|Hout].
  - rewrite (Z.min_l (page * 6) len) by lia.
    replace (Z.to_nat (page * 6)) with (6 * Z.to_nat page)%nat by lia.
    destruct (Z_le_gt_dec (page * 6 + 6) len) as [Hfull|Hpart].
    + rewrite Z.min_l by lia. f_equal. lia.
    + rewrite Z.min_r by lia.
      rewrite !take_ge; [reflexivity| |]; rewrite length_drop; subst len; lia.
  - rewrite !Z.min_r by lia. rewrite Z.sub_diag. cbn [Z.to_nat take].
    rewrite (drop_ge all_words (6 * Z.to_nat page)) by (subst len; lia).
    reflexivity.
Qed.

Lemma pages_take (all_words : list (str * str)) (k : nat) :
  concat (map (fun p => page_words all_words (Z.of_nat p)) (seq 0 k)) =
  take (6 * k) all_words.
Proof.
  induction k as [|k IH]; [now rewrite Nat.mul_0_r, take_0|].
  rewrite seq_S, map_app, concat_app, IH. cbn [map concat plus].
  rewrite app_nil_r, page_words_nonneg by lia.
  rewrite Nat2Z.id, take_take_drop. f_equal. lia.
Qed.

(** The pages cover the list: the words of pages 0, 1, ... taken
    together are all the listed words, each once and in order, and a
    page holds at most six of them. *)
Theorem pages_cover (all_words : list (str * str)) (k : nat) :
  (length all_words <= 6 * k)%nat ->
  concat (map (fun p => page_words all_words (Z.of_nat p)) (seq 0 k))
    = all_words /\
  forall p, (length (page_words all_words (Z.of_nat p)) <= 6)%nat.
Proof.
  intros Hk. split.
  - rewrite pages_take. now apply take_ge.
  - intros p. rewrite page_words_nonneg by lia. rewrite length_take. lia.
Qed.

Lemma pages_cover_witness :
  let all_words := DB.default_words DB.initialize_database in
  page_words all_words 0 ++ page_words all_words 1 = all_words.
Proof.
  intros all_words.
  destruct (pages_cover all_words 2) as [H _].
  - vm_compute. lia.
  - cbn [seq map concat Z.of_nat Pos.of_succ_nat] in H.
    now rewrite app_nil_r in H.
Defined.

Lemma back_is_not_forward page : back_button page <> forward_button page.
Proof.
  intros E. apply (f_equal label) in E. vm_compute in E. discriminate.
Qed.

(** The navigation row leads exactly where there is something to see:
    on a page that is not negative, "forward" is offered exactly when
    the next page has words, "back" exactly when the page is not the
    first, and the row holds nothing else. *)
Theorem navigation_buttons (all_words : list (str * str)) (page : Z) :
  (0 <= page)%Z ->
  (forward_button page ∈ nav_buttons all_words page <->
   page_words all_words (page + 1) <> []) /\
  (back_button page ∈ nav_buttons all_words page <-> (0 < page)%Z) /\
  (forall b, b ∈ nav_buttons all_words page ->
             b = back_button page \/ b = forward_button page).
Proof.
  intros Hpage.
  assert (Hnext : page_words all_words (page + 1) <> [] <->
                  (page * 6 + 6 < Z.of_nat (length all_words))%Z).
  { rewrite page_words_nonneg by lia. split.
    - intros Hne. destruct (Z_lt_le_dec (page * 6 + 6)
                              (Z.of_nat (length all_words))); [assumption|].
      exfalso. apply Hne. rewrite drop_ge by lia. reflexivity.
    - intros Hlt Hnil. apply take_nil_inv in Hnil as [?|Hnil]; [lia|].
      apply drop_nil_inv in Hnil. lia. }
  unfold nav_buttons.
  destruct (Z.gtb_spec page 0) as [Hpos|Hzero];
    destruct (Z.ltb_spec (page * 6 + 6) (Z.of_nat (length all_words)))
      as [Hmore|Hlast]; cbn [app]; rewrite Hnext;
    repeat split;
    repeat match goal with
           | |- _ -> _ => intros ?
           | H : _ ∈ [] |- _ => apply elem_of_nil in H; contradiction
           | H : _ ∈ _ :: _ |- _ => apply elem_of_cons in H as [H|H]
           | H : back_button _ = forward_button _ |- _ =>
               apply back_is_not_forward in H; contradiction
           | H : forward_button _ = back_button _ |- _ =>
               symmetry in H; apply back_is_not_forward in H; contradiction
           end;
    try lia; try (subst; auto; fail);
    try (apply elem_of_cons; auto; fail);
    try (apply elem_of_cons; right; apply elem_of_cons; auto; fail).
Qed.

Lemma navigation_buttons_witness :
  let all_words := DB.default_words DB.initialize_database in
  forward_button 0 ∈ nav_buttons all_words 0 /\
  ~ forward_button 1 ∈ nav_buttons all_words 1.
Proof.
  intros all_words. split.
  - destruct (navigation_buttons all_words 0) as [Hf _]; [lia|].
    apply Hf. vm_compute. discriminate.
  - intros H. destruct (navigation_buttons all_words 1) as [Hf _]; [lia|].
    apply Hf in H. apply H. vm_compute. reflexivity.
Defined.

Lemma rows_of_two_spec {A} (l : list A) :
  (concat (rows_of_two l) = l /\
   Forall (fun row => (1 <= length row <= 2)%nat) (rows_of_two l)) /\
  forall a,
    concat (rows_of_two (a :: l)) = a :: l /\
    Forall (fun row => (1 <= length row <= 2)%nat) (rows_of_two (a :: l)).
Proof.
  induction l as [|b l [[IHc IHf] IHa]].
  - split; [split; [reflexivity|constructor]|].
    intros a. split; [reflexivity|]. repeat constructor.
  - split; [apply IHa|].
    intros a. cbn [rows_of_two concat app]. rewrite IHc. split; [reflexivity|].
    constructor; [cbn; lia|exact IHf].
Qed.

(** The layout of the keyboard: without any listed word it is the single
    "add word" button; otherwise it shows the words of the page as
    buttons, in order, one or two to a row, then the navigation row when
    there is one, and the row of actions last. *)
Theorem keyboard_layout (user_id : Z) (page : Z) (d : DB.Database) :
  let all_words := listed_words user_id d in
  (all_words = [] ->
   create_words_keyboard user_id page d = [[add_word_button]]) /\
  (all_words <> [] ->
   exists rows,
     create_words_keyboard user_id page d =
       map (map (fun p : str * str => word_button p.1)) rows ++
       (match nav_buttons all_words page with [] => [] | nav => [nav] end) ++
       [action_row] /\
     concat rows = page_words all_words page /\
     Forall (fun row => (1 <= length row <= 2)%nat) rows).
Proof.
  intros all_words. subst all_words. unfold create_words_keyboard. split.
  - intros ->. reflexivity.
  - intros Hne. destruct (listed_words user_id d) as [|p ps] eqn:E;
      [contradiction|].
    exists (rows_of_two (page_words (p :: ps) page)).
    split; [now destruct (nav_buttons (p :: ps) page)|].
    apply rows_of_two_spec.
Qed.

Lemma keyboard_layout_witness :
  let d := DB.add_user 7 DB.initialize_database in
  exists rows,
    concat rows = page_words (listed_words 7 d) 1 /\
    length rows = 3%nat.
Proof.
  intros d.
  destruct (keyboard_layout 7 1 d) as [_ H].
  destruct H as (rows & Hk & Hc & _).
  - vm_compute. discriminate.
  - exists rows. split; [exact Hc|].
    assert (Hn : nav_buttons (listed_words 7 d) 1 = [back_button 1])
      by (vm_compute; reflexivity).
    assert (Hl : length (create_words_keyboard 7 1 d) = 5%nat)
      by (vm_compute; reflexivity).
    rewrite Hk, Hn, !length_app, length_map in Hl. cbn [length] in Hl. lia.
Defined.

End KeyboardFacts.

(** ** A quiz interrupted by another dialogue *)

Module InterruptFacts.
Import QuizFacts RunFacts HandlerFacts.

Lemma add_user_word_frame user_id en ru d :
  DB.tests (DB.add_user_word user_id en ru d).2 = DB.tests d /\
  DB.leaderboard (DB.add_user_word user_id en ru d).2 = DB.leaderboard d.
Proof.
  unfold DB.add_user_word.
  repeat (match goal with
          | |- context [match ?x with _ => _ end] => destruct x
          end); split; reflexivity.
Qed.

(** Adding a word in the middle of a quiz abandons the quiz: once the
    "word - translation" message is handled, the conversation has
    forgotten the session, whose row stays open without counts, and the
    leaderboard is as before; the answers given so far are lost for the
    totals. *)
Theorem add_word_abandons_quiz (file : xml_entries) (user_id : Z)
    (rnd_word : nat) (rnd_type : QuestionType) (answers : list answer)
    (message_text before after : str) (d : DB.Database) :
  sessions_below_seq d ->
  user_id ∈ DB.users d ->
  quiz_pool file user_id d <> [] ->
  PyStr.strip message_text = before ++ 45%N :: after ->
  45%N ∉ before ->
  let r := interrupted_quiz file user_id rnd_word rnd_type answers
             message_text (idle d) in
  data r.2 = no_data /\ form r.2 = None /\
  DB.tests (db r.2) !! DB.tests_seq d = Some (DB.new_session user_id) /\
  DB.leaderboard (db r.2) = DB.leaderboard d.
Proof.
  intros Hbelow Hreg Hpool Htext Hno r. subst r.
  unfold interrupted_quiz, bind.
  pose proof (start_test_handler_running file user_id d rnd_word rnd_type
                Hbelow Hreg Hpool) as Hstart.
  destruct (start_test_handler _ _ _ _ _) as [asked w0]. cbn [snd] in Hstart.
  pose proof (answer_all_running file user_id d (DB.tests_seq d) answers
                Hpool 0 w0 Hstart) as Hall.
  destruct (answer_all _ _ _ w0) as [[] w1]. cbn [snd plus] in Hall.
  unfold start_add_word, set_state. cbv beta iota zeta.
  unfold process_add_word, bind, call, clear, ret. rewrite Htext.
  rewrite bool_decide_eq_false_2.
  2:{ intros Hback.
      assert (Hin : 45%N ∈ before ++ 45%N :: after)
        by (apply elem_of_app; right; apply elem_of_cons; now left).
      rewrite Hback in Hin. apply list_elem_of_In in Hin.
      vm_compute in Hin. intuition discriminate. }
  rewrite bool_decide_eq_true_2
    by (apply elem_of_app; right; apply elem_of_cons; now left).
  cbn [negb db]. rewrite split1_first by exact Hno.
  destruct Hall as [_ _ _ _ _ _ _ _ Hlb Hts _ _].
  pose proof (add_user_word_frame user_id (PyStr.strip before)
                (PyStr.strip after) (db w1)) as [Ft Fl].
  cbn [fst snd db data form] in *.
  destruct (DB.add_user_word user_id _ _ (db w1)) as [ok d'].
  cbn [fst snd db data form] in *.
  rewrite Ft, Fl, Hts, Hlb, lookup_insert_eq. repeat split.
Qed.

Lemma add_word_abandons_quiz_witness :
  let d := DB.add_user 7 DB.initialize_database in
  let answers :=
    [ {| a_text := u "привет"; a_rnd_word := 1; a_rnd_type := en_to_ru |} ] in
  let r := interrupted_quiz [] 7 0 en_to_ru answers (u "cat - кот") (idle d) in
  DB.tests (db r.2) !! 1%positive = Some (DB.new_session 7) /\
  DB.leaderboard (db r.2) = DB.leaderboard d.
Proof.
  intros d answers r.
  destruct (add_word_abandons_quiz [] 7 0 en_to_ru answers (u "cat - кот")
              (u "cat ") (u " кот") d) as (_ & _ & H1 & H2).
  - split.
    + intros j [x Hx]. vm_compute in Hx. discriminate.
    + intros r' Hr. apply list_elem_of_In in Hr. vm_compute in Hr.
      contradiction.
  - vm_compute. reflexivity.
  - vm_compute. discriminate.
  - vm_compute. reflexivity.
  - intros Hin. apply list_elem_of_In in Hin. vm_compute in Hin.
    intuition discriminate.
  - split; [exact H1|exact H2].
Defined.

End InterruptFacts.
